(** * Meudon-PDR spectral line helpers: a shallow embedding of
    [ism_lines_helpers.py] and the properties of its transition
    renderer.

    Conventions of the embedding.
    - A Python [str] is a [string]; a character is read as the code point
      0..255 it denotes, so [\d] is exactly [0-9] and the predicates
      [str.isspace] and [str.lower] are the Unicode ones restricted to that
      range.
    - Python integers are [Z]; [%] and [//] are [Z.modulo] and [Z.div]
      (both floor towards minus infinity, as Python's do) guarded by the
      [ZeroDivisionError] test.
    - An exception is a value of [exn].  A call of [warnings.warn] appends
      the line of the call and the text to a log, and goes on: the log
      holds the calls in order, whatever the filters show of them (a
      filter that turns warnings into errors is not modelled).  A
      computation is a value of [M]: its log and how it ended.  What the
      default filters write of a log is [written]: a warning is written
      the first time its text comes from its line, and not again.
    - The [while] loop of [transition_to_latex] runs on fuel: [None] means
      that the fuel ran out, and "for every fuel, [None]" is divergence.
    - Python lists that are passed by reference ([filter_molecules]) live
      in a store indexed by locations. *)

From Stdlib Require Import ZArith Ascii String List Bool Lia.
From Stdlib Require Import DecimalString DecimalPos.
From stdpp Require Import base tactics option list gmap strings.

#[local] Arguments String.append !_ _ / : simpl nomatch.

(** ** Characters *)

Definition code (c : ascii) : N := N_of_ascii c.

(** [\d] of the [re] module and the digits accepted by [int]. *)
Definition is_digit (c : ascii) : bool :=
  (48 <=? code c)%N && (code c <=? 57)%N.

Definition digit_value (c : ascii) : Z := (Z.of_N (code c) - 48)%Z.

(** [str.isspace] on one character: what [str.strip()] removes. *)
Definition isspace (c : ascii) : bool :=
  let n := code c in
  ((9 <=? n) && (n <=? 13) || (28 <=? n) && (n <=? 32)
   || (n =? 133) || (n =? 160))%N.

(** The blanks skipped by [int] around a literal. *)
Definition int_space (c : ascii) : bool :=
  let n := code c in
  ((9 <=? n) && (n <=? 13) || (n =? 32) || (n =? 133) || (n =? 160))%N.

(** [str.lower] on one character. *)
Definition lower_char (c : ascii) : ascii :=
  let n := code c in
  if ((65 <=? n) && (n <=? 90)
      || (192 <=? n) && (n <=? 222) && negb (n =? 215))%N
  then ascii_of_N (n + 32) else c.

(** ** String methods *)

(** [s.startswith(p)] *)
Definition startswith (s p : string) : bool := String.prefix p s.

(** [s[n:]] *)
Fixpoint slice_from (n : nat) (s : string) : string :=
  match n, s with
  | S n', String _ s' => slice_from n' s'
  | _, _ => s
  end.

(** [s[:n]] *)
Fixpoint slice_to (n : nat) (s : string) : string :=
  match n, s with
  | S n', String c s' => String c (slice_to n' s')
  | _, _ => ""
  end.

(** [s[:-2]] *)
Definition drop_last2 (s : string) : string :=
  slice_to (String.length s - 2) s.

(** [c in s] for a one-character [c] *)
Fixpoint contains (c : ascii) (s : string) : bool :=
  match s with
  | "" => false
  | String d s' => Ascii.eqb c d || contains c s'
  end.

(** [s.replace(a, b)] for one-character [a] and [b] *)
Fixpoint replace (a b : ascii) (s : string) : string :=
  match s with
  | "" => ""
  | String c s' => String (if Ascii.eqb c a then b else c) (replace a b s')
  end.

(** [s.lower()] *)
Fixpoint lower (s : string) : string :=
  match s with
  | "" => ""
  | String c s' => String (lower_char c) (lower s')
  end.

Fixpoint lstrip (s : string) : string :=
  match s with
  | "" => ""
  | String c s' => if isspace c then lstrip s' else s
  end.

Fixpoint rstrip (s : string) : string :=
  match s with
  | "" => ""
  | String c s' =>
      match rstrip s' with
      | "" => if isspace c then "" else String c ""
      | r => String c r
      end
  end.

(** [s.strip()] *)
Definition strip (s : string) : string := rstrip (lstrip s).

(** [s.count(sep)]: occurrences of a non-empty [sep], scanning from the
    left without overlap.  [skip] counts the characters of the occurrence
    just found that are still to be passed over. *)
Fixpoint count_go (sep : string) (skip : nat) (s : string) : nat :=
  match s with
  | "" => 0
  | String _ s' =>
      match skip with
      | S k => count_go sep k s'
      | 0 =>
          if startswith s sep
          then S (count_go sep (String.length sep - 1) s')
          else count_go sep 0 s'
      end
  end.

Definition str_count (s sep : string) : nat := count_go sep 0 s.

(** [s.split(sep)] for a non-empty [sep]; [cur] is the piece being read. *)
Fixpoint split_go (sep : string) (skip : nat) (cur s : string)
  : list string :=
  match s with
  | "" => [cur]
  | String c s' =>
      match skip with
      | S k => split_go sep k cur s'
      | 0 =>
          if startswith s sep
          then cur :: split_go sep (String.length sep - 1) "" s'
          else split_go sep 0 (cur +:+ String c "") s'
      end
  end.

Definition str_split (s sep : string) : list string :=
  split_go sep 0 "" s.

(** [s.split(sep, maxsplit=1)] for a one-character [sep] *)
Fixpoint split1 (sep : ascii) (cur s : string) : list string :=
  match s with
  | "" => [cur]
  | String c s' =>
      if Ascii.eqb c sep then [cur; s'] else split1 sep (cur +:+ String c "") s'
  end.

(** ** [int] and [str] *)

Inductive int_prev := PStart | PDigit | PUnder.

(** The digits of an [int] literal: at least one digit, and single
    underscores between digits only. *)
Fixpoint int_digits (acc : Z) (p : int_prev) (s : string)
  : option (Z * string) :=
  match s with
  | String c s' =>
      if is_digit c then int_digits (10 * acc + digit_value c) PDigit s'
      else if Ascii.eqb c "_" then
        match p with PDigit => int_digits acc PUnder s' | _ => None end
      else match p with PDigit => Some (acc, s) | _ => None end
  | "" => match p with PDigit => Some (acc, s) | _ => None end
  end.

Fixpoint skip_int_space (s : string) : string :=
  match s with
  | "" => ""
  | String c s' => if int_space c then skip_int_space s' else s
  end.

(** [int(s)]: [None] is the [ValueError] of an invalid literal.  (The
    interpreter's configurable limit on the number of digits is not part
    of the model.) *)
Definition py_int (s : string) : option Z :=
  let s1 := skip_int_space s in
  let '(sign, s2) :=
    match s1 with
    | String "+" r => (1%Z, r)
    | String "-" r => ((-1)%Z, r)
    | _ => (1%Z, s1)
    end in
  match int_digits 0 PStart s2 with
  | Some (n, rest) =>
      match skip_int_space rest with
      | "" => Some (sign * n)%Z
      | _ => None
      end
  | None => None
  end.

(** [str(n)] *)
Definition py_str (n : Z) : string := NilEmpty.string_of_int (Z.to_int n).

(** ** Exceptions, warnings *)

Inductive exn :=
| ValueError (msg : string)        (* raised by the module *)
| RuntimeError (msg : string)      (* raised by the module *)
| IntValueError (literal : string) (* ValueError of [int(literal)] *)
| UnpackValueError (got : nat)     (* ValueError of [a, b = l], [len(l) = got] *)
| ZeroDivisionError
| AttributeError (attr : string)
| IndexError
| TypeError.

Inductive outcome (A : Type) :=
| Return (a : A)
| Raise (e : exn).
Arguments Return {A} a.
Arguments Raise {A} e.

(** A call of [warnings.warn]: its line in the module, and the text. *)
Definition warning : Type := nat * string.

(** The calls of [warnings.warn], in order, and the outcome. *)
Definition M (A : Type) : Type := list warning * outcome A.

Definition ret {A} (a : A) : M A := ([], Return a).
Definition raise {A} (e : exn) : M A := ([], Raise e).
Definition warn (lineno : nat) (msg : string) : M unit :=
  ([(lineno, msg)], Return tt).

(** What the default filters write of a log.  [warnings.warn] looks the
    text and the line of the call up in the registry of the module: when
    they are there nothing is written; when they are not, the warning is
    written and entered.  [registry] holds what earlier calls have
    entered; it is empty as long as the module has not warned. *)
Definition same_warning (w w' : warning) : bool :=
  Nat.eqb w.1 w'.1 && String.eqb w.2 w'.2.

Fixpoint written (registry log : list warning) : list warning :=
  match log with
  | [] => []
  | w :: log' =>
      if existsb (same_warning w) registry then written registry log'
      else w :: written (w :: registry) log'
  end.

Definition bind {A B} (m : M A) (f : A -> M B) : M B :=
  match m with
  | (w, Return a) => let '(w', o) := f a in (w ++ w', o)
  | (w, Raise e) => (w, Raise e)
  end.

Notation "'let!' x ':=' m 'in' k" := (bind m (fun x => k))
  (at level 10, x name, m at level 200, k at level 200,
   format "'[v' 'let!'  x  ':='  m  'in' '/' k ']'").
Notation "'do!' m 'in' k" := (bind m (fun _ => k))
  (at level 10, m at level 200, k at level 200,
   format "'[v' 'do!'  m  'in' '/' k ']'").

(** [int(s)] as a computation *)
Definition int (s : string) : M Z :=
  match py_int s with
  | Some n => ret n
  | None => raise (IntValueError s)
  end.

(** [a, b = l] *)
Definition unpack2 (l : list string) : M (string * string) :=
  match l with
  | [a; b] => ret (a, b)
  | _ => raise (UnpackValueError (length l))
  end.

(** ** Regular expressions

    The patterns of the module use literals, alternation, [\d*], one
    character class and the anchors [\A] and [\Z].  [rmatch] is the
    backtracking matcher of [re]: alternatives are tried from the left,
    [\d*] takes as many digits as it can and gives them back one at a
    time.  [pos] is the number of characters read so far, [k] the rest of
    the pattern. *)

Inductive regex :=
| Bos                       (* \A *)
| Eos                       (* \Z *)
| Lit (s : string)
| Digits                    (* \d* *)
| OneOf (cs : list ascii)   (* [...] *)
| Alt (r1 r2 : regex)
| Seq (r1 r2 : regex).

Fixpoint lit (p : string) (pos : nat) (s : string)
  (k : nat -> string -> option nat) : option nat :=
  match p with
  | "" => k pos s
  | String c p' =>
      match s with
      | String d s' => if Ascii.eqb c d then lit p' (S pos) s' k else None
      | "" => None
      end
  end.

Fixpoint digits_star (pos : nat) (s : string)
  (k : nat -> string -> option nat) : option nat :=
  match s with
  | String c s' =>
      if is_digit c then
        match digits_star (S pos) s' k with
        | Some e => Some e
        | None => k pos s
        end
      else k pos s
  | "" => k pos s
  end.

Fixpoint rmatch (r : regex) (pos : nat) (s : string)
  (k : nat -> string -> option nat) : option nat :=
  match r with
  | Bos => if Nat.eqb pos 0 then k pos s else None
  | Eos => match s with "" => k pos s | _ => None end
  | Lit p => lit p pos s k
  | Digits => digits_star pos s k
  | OneOf cs =>
      match s with
      | String c s' =>
          if existsb (Ascii.eqb c) cs then k (S pos) s' else None
      | "" => None
      end
  | Alt r1 r2 =>
      match rmatch r1 pos s k with
      | Some e => Some e
      | None => rmatch r2 pos s k
      end
  | Seq r1 r2 => rmatch r1 pos s (fun pos' s' => rmatch r2 pos' s' k)
  end.

(** [re.match(r, s)]: [Some e] is a match object with [.end() = e]. *)
Definition re_match (r : regex) (s : string) : option nat :=
  rmatch r 0 s (fun pos _ => Some pos).

Definition seqs (rs : list regex) : regex := foldr Seq (Lit "") rs.
Definition alts (ss : list string) : regex :=
  match ss with
  | [] => OneOf []
  | s :: ss' => fold_left (fun r t => Alt r (Lit t)) ss' (Lit s)
  end.

(** ** Tables *)

(** [_molecules_to_latex], in the order of the source (a [dict] iterates
    in insertion order). *)
Definition _molecules_to_latex : list (string * string) :=
  [ ("h", "H"); ("h2", "H_2"); ("hd", "HD"); ("co", "CO");
    ("13c_o", "^{13}CO"); ("c_18o", "C^{18}O");
    ("13c_18o", "^{13}C^{18}O"); ("c", "C"); ("n", "N"); ("o", "O");
    ("s", "S"); ("si", "Si"); ("cs", "CS"); ("cn", "CN"); ("hcn", "HCN");
    ("hnc", "HNC"); ("oh", "OH"); ("h2o", "H_2O");
    ("h2_18o", "H_2^{18}O"); ("c2h", "C_2H"); ("c_c3h2", "c-C_3H_2");
    ("so", "SO"); ("cp", "C^+"); ("sp", "S^+"); ("hcop", "HCO^+");
    ("chp", "CH^+"); ("ohp", "OH^+"); ("shp", "SH^+") ].

Definition _molecules_aliases : gmap string string :=
  list_to_map
    [ ("13co", "13c_o"); ("c18o", "c_18o"); ("13c18o", "13c_18o");
      ("cc3h2", "c_c3h2") ].

Definition _energy_to_latex : gmap string string :=
  list_to_map
    [ ("j", "J"); ("v", "\nu"); ("f", "f"); ("n", "n"); ("ka", "k_a");
      ("kc", "k_c") ].

(** ** The patterns of [transition_to_latex] and [_transition] *)

(** [(j|v|n|f|ka|kc)] *)
Definition energy : regex := alts ["j"; "v"; "n"; "f"; "ka"; "kc"].

(** ["\A(j|v|n|f|ka|kc)\d*_2"] *)
Definition pat_frac : regex := seqs [Bos; energy; Digits; Lit "_2"].
(** ["\A(j|v|n|f|ka|kc)\d*d\d*"] *)
Definition pat_dec : regex := seqs [Bos; energy; Digits; Lit "d"; Digits].
(** ["\A(j|v|n|f|ka|kc)\d*"] *)
Definition pat_int : regex := seqs [Bos; energy; Digits].
(** ["\Ael\d*(po|so|do)"] *)
Definition pat_el_long : regex :=
  seqs [Bos; Lit "el"; Digits; alts ["po"; "so"; "do"]].
(** ["\Ael\d*(p|s|d)"] *)
Definition pat_el_short : regex :=
  seqs [Bos; Lit "el"; Digits; alts ["p"; "s"; "d"]].
(** ["\A(pp|pm)_fif\d*"] *)
Definition pat_fif : regex := seqs [Bos; alts ["pp"; "pm"]; Lit "_fif"; Digits].
(** ["\A(j|v|n|f|ka|kc)"] *)
Definition pat_name : regex := seqs [Bos; energy].
(** ["\A\d*[/.]\d*\Z"] *)
Definition pat_numeric : regex :=
  seqs [Bos; Digits; OneOf ["/"; "."]%char; Digits; Eos].

(** [re.match(r, s).group()]; on no match the attribute is looked up on
    [None]. *)
Definition group (r : regex) (s : string) : M string :=
  match re_match r s with
  | Some e => ret (slice_to e s)
  | None => raise (AttributeError "group")
  end.

(** ** Local functions *)

Definition _removeprefixes (s : string) (prefixes : list string) : string :=
  fold_left
    (fun str prefix =>
       if startswith str prefix
       then slice_from (String.length prefix) str else str)
    prefixes s.

(** What [_transition] and [_eltransition] return first: one string, or a
    pair of strings. *)
Inductive descr :=
| Single (s : string)
| Pair (h l : string).

(** ["${}={}$".format(name_latex, lvl)] *)
Definition fmt_level (name_latex lvl : string) : string :=
  "$" +:+ name_latex +:+ "=" +:+ lvl +:+ "$".

(** ["${}$".format(lvl)] *)
Definition fmt_el (lvl : string) : string := "$" +:+ lvl +:+ "$".

Definition float_warning (b : string) : string :=
  "x." +:+ b +:+ " floats has not been implemented. Ignoring the floating part.".

(** The numerator and denominator of the decimal [a.b]; the source has
    this block once for the high level and once for the low level, with
    the call of [warn] at line [lineno]. *)
Definition half_integer (lineno : nat) (a b : string) : M (Z * Z) :=
  if String.eqb b "0" then
    let! n := int a in ret ((2 * n)%Z, 1%Z)
  else if String.eqb b "5" then
    let! n := int a in ret ((2 * n + 1)%Z, 2%Z)
  else
    do! warn lineno (float_warning b) in
    let! n := int a in ret (n, 1%Z).

(** The rendering of [n/d]; again one block per level in the source. *)
Definition level_latex (n d : Z) : M string :=
  if (d =? 0)%Z then raise ZeroDivisionError
  else if (n mod d =? 0)%Z then ret (py_str (n / d))
  else ret ("\frac{" +:+ py_str n +:+ "}{" +:+ py_str d +:+ "}").

(** [high_lvl] holds a [/]: both levels are read as [a/b]. *)
Definition fraction_levels (high_lvl low_lvl : string)
  : M ((Z * Z) * (Z * Z)) :=
  let! hs := unpack2 (str_split high_lvl "/") in
  let! ls := unpack2 (str_split low_lvl "/") in
  let! n_high := int hs.1 in
  let! d_high := int hs.2 in
  let! n_low := int ls.1 in
  let! d_low := int ls.2 in
  ret ((n_high, d_high), (n_low, d_low)).

(** Otherwise both levels are read as [a.b]. *)
Definition decimal_levels (high_lvl low_lvl : string)
  : M ((Z * Z) * (Z * Z)) :=
  let! hs := unpack2 (str_split high_lvl ".") in
  let! ls := unpack2 (str_split low_lvl ".") in
  let! h := half_integer 436 hs.1 hs.2 in
  let! l := half_integer 443 ls.1 ls.2 in
  ret (h, l).

(** The branch taken when [high_lvl] matches ["\A\d*[/.]\d*\Z"]. *)
Definition numeric_levels (high_lvl low_lvl : string) : M (string * string) :=
  let! nd :=
    if contains "/" high_lvl then fraction_levels high_lvl low_lvl
    else decimal_levels high_lvl low_lvl in
  let! high_lvl_latex := level_latex nd.1.1 nd.1.2 in
  let! low_lvl_latex := level_latex nd.2.1 nd.2.2 in
  ret (high_lvl_latex, low_lvl_latex).

(** The two [return]s: one string and [False], or a pair and [True]. *)
Definition constant_or_pair (name_latex high_lvl_latex low_lvl_latex : string)
  : descr * bool :=
  if String.eqb high_lvl_latex low_lvl_latex then
    (Single (fmt_level name_latex low_lvl_latex), false)
  else
    (Pair (fmt_level name_latex high_lvl_latex)
       (fmt_level name_latex low_lvl_latex), true).

Definition name_latex (name : string) : string :=
  default name (_energy_to_latex !! name).

Definition _transition (name high_lvl low_lvl : string) : M (descr * bool) :=
  let! lvls :=
    match re_match pat_numeric high_lvl with
    | Some _ => numeric_levels high_lvl low_lvl
    | None => ret (high_lvl, low_lvl)
    end in
  ret (constant_or_pair (name_latex name) lvls.1 lvls.2).

Definition _eltransition (high low : string) : descr * bool :=
  if String.eqb high low then (Single (fmt_el high), false)
  else (Pair (fmt_el high) (fmt_el low), true).

(** The body of the [for] loop of [_sort_transitions]: which of
    [_eltransition] and [_transition] is called ... *)
Definition classify (name high low : string) : M (descr * bool) :=
  if String.eqb name "el" then ret (_eltransition high low)
  else _transition name high low.

(** ... and how [descr_0], [descr_1a], [descr_1b] grow.  [descr[0]] and
    [descr[1]] index a pair, or the characters of a string; [descr + " "]
    is defined on a string only. *)
Definition add_descr (acc : string * string * string) (r : descr * bool)
  : M (string * string * string) :=
  let '(descr_0, descr_1a, descr_1b) := acc in
  let '(descr, istrans) := r in
  if istrans then
    match descr with
    | Pair h l =>
        ret (descr_0, descr_1a +:+ h +:+ ", ", descr_1b +:+ l +:+ ", ")
    | Single (String c0 (String c1 _)) =>
        ret (descr_0, descr_1a +:+ String c0 "" +:+ ", ",
             descr_1b +:+ String c1 "" +:+ ", ")
    | Single _ => raise IndexError
    end
  else
    match descr with
    | Single s => ret (descr_0 +:+ s +:+ " ", descr_1a, descr_1b)
    | Pair _ _ => raise TypeError
    end.

Fixpoint sort_loop (rows : list (string * string * string))
  (acc : string * string * string) : M (string * string * string) :=
  match rows with
  | [] => ret acc
  | (name, high, low) :: rows' =>
      let! r := classify name high low in
      let! acc' := add_descr acc r in
      sort_loop rows' acc'
  end.

(** ["{} ({} $\\to$ {})".format(descr_0.strip(), descr_1a[:-2], descr_1b[:-2])] *)
Definition fmt_sorted (descr_0 descr_1a descr_1b : string) : string :=
  strip descr_0 +:+ " (" +:+ drop_last2 descr_1a +:+ " $\to$ "
  +:+ drop_last2 descr_1b +:+ ")".

Definition _sort_transitions (names high_lvls low_lvls : list string)
  : M string :=
  if negb (length high_lvls =? length names)%nat
     || negb (length low_lvls =? length names)%nat
  then raise (ValueError
                "names, high_lvls and low_lvls must have the same length")
  else if (length names =? 0)%nat then ret ""
  else
    let! acc := sort_loop (zip (zip names high_lvls) low_lvls) ("", "", "") in
    ret (fmt_sorted acc.1.1 acc.1.2 acc.2).

(** ** [transition_to_latex] *)

(** The variables of the [while] loop. *)
Record state := State {
  high : string;
  low : string;
  names : list string;
  high_lvls : list string;
  low_lvls : list string
}.

(** [res_high is not None and res_low is not None], with the two
    [.end()]. *)
Definition both (r : regex) (st : state) : option (nat * nat) :=
  match re_match r (high st), re_match r (low st) with
  | Some eh, Some el => Some (eh, el)
  | _, _ => None
  end.

Definition order_msg : string :=
  "{transition} is not a valid transition because the energy level are not in the same order in the description of the high and low levels".

Definition count_msg : string :=
  "high and low levels does not contain the same number of variables".

(** The three branches on [(j|v|n|f|ka|kc)] differ by the pattern and by
    the [replace] applied to the level, [conv]. *)
Definition energy_branch (conv : string -> string) (st : state)
  (ends : nat * nat) : M state :=
  let e_high := slice_to ends.1 (high st) in
  let e_low := slice_to ends.2 (low st) in
  let! n_high := group pat_name e_high in
  let! n_low := group pat_name e_low in
  if negb (String.eqb n_high n_low) then raise (ValueError order_msg)
  else
    ret {| high := _removeprefixes (high st) [e_high; "_"];
           low := _removeprefixes (low st) [e_low; "_"];
           names := names st ++ [n_high];
           high_lvls := high_lvls st ++ [conv (_removeprefixes e_high [n_high])];
           low_lvls := low_lvls st ++ [conv (_removeprefixes e_low [n_low])] |}.

(** The branch of ["\Ael\d*(p|s|d)"]. *)
Definition el_branch (st : state) (ends : nat * nat) : M state :=
  let e_high := slice_to ends.1 (high st) in
  let e_low := slice_to ends.2 (low st) in
  ret {| high := _removeprefixes (high st) [e_high; "_"];
         low := _removeprefixes (low st) [e_low; "_"];
         names := names st ++ ["el"];
         high_lvls := high_lvls st ++ [_removeprefixes e_high ["el"]];
         low_lvls := low_lvls st ++ [_removeprefixes e_low ["el"]] |}.

(** The branch of ["\Ael\d*(po|so|do)"]: after [names.append("el")] it
    evaluates [e_high._removeprefixes("el")], the attribute
    [_removeprefixes] of a [str], which does not exist. *)
Definition el_long_branch (st : state) (ends : nat * nat) : M state :=
  raise (AttributeError "_removeprefixes").

(** The branch of ["\A(pp|pm)_fif\d*"]: the token is dropped. *)
Definition fif_branch (st : state) (ends : nat * nat) : M state :=
  let e_high := slice_to ends.1 (high st) in
  let e_low := slice_to ends.2 (low st) in
  ret {| high := _removeprefixes (high st) [e_high; "_"];
         low := _removeprefixes (low st) [e_low; "_"];
         names := names st;
         high_lvls := high_lvls st;
         low_lvls := low_lvls st |}.

Definition is_empty (s : string) : bool := String.eqb s "".

(** One turn of the [while] loop. *)
Definition loop_body (st : state) : M state :=
  match both pat_frac st with
  | Some ends => energy_branch (replace "_" "/") st ends
  | None =>
  match both pat_dec st with
  | Some ends => energy_branch (replace "d" ".") st ends
  | None =>
  match both pat_int st with
  | Some ends => energy_branch id st ends
  | None =>
  match both pat_el_long st with
  | Some ends => el_long_branch st ends
  | None =>
  match both pat_el_short st with
  | Some ends => el_branch st ends
  | None =>
  match both pat_fif st with
  | Some ends => fif_branch st ends
  | None =>
      if is_empty (high st) && negb (is_empty (low st))
         || negb (is_empty (high st)) && is_empty (low st)
      then raise (RuntimeError count_msg)
      else ret st
  end end end end end end.

(** [while high != "" and low != ""] *)
Definition loop_cond (st : state) : bool :=
  negb (is_empty (high st)) && negb (is_empty (low st)).

Fixpoint while_loop (fuel : nat) (st : state) : option (M state) :=
  if loop_cond st then
    match fuel with
    | 0 => None
    | S fuel' =>
        match loop_body st with
        | (w, Return st') =>
            match while_loop fuel' st' with
            | Some (w', o) => Some (w ++ w', o)
            | None => None
            end
        | (w, Raise e) => Some (w, Raise e)
        end
    end
  else Some (ret st).

Definition separator_msg (transition : string) : string :=
  transition +:+ " is not a valid transition because it does not contain one occurence of the double underscore".

Definition transition_to_latex (fuel : nat) (transition : string)
  : option (M string) :=
  if negb (str_count transition "__" =? 1)%nat then
    Some (raise (ValueError (separator_msg transition)))
  else
    match str_split transition "__" with
    | [high; low] =>
        match while_loop fuel (State high low [] [] []) with
        | Some m =>
            Some (let! st := m in
                  _sort_transitions (names st) (high_lvls st) (low_lvls st))
        | None => None
        end
    | parts => Some (raise (UnpackValueError (length parts)))
    end.

(** ** Molecules *)

Definition line_msg (line_name : string) : string :=
  "line_name " +:+ line_name
  +:+ " is not in the appropriate format molecule_transition".

(** [prefixes[idxmax([len(s) for s in prefixes])]]: [max] keeps the first
    of the longest. *)
Fixpoint longest (best : string) (l : list string) : string :=
  match l with
  | [] => best
  | s :: l' =>
      if (String.length best <? String.length s)%nat
      then longest s l' else longest best l'
  end.

(** The returned tuple is a list here: [tuple(line_name.split(...))] has
    the length that [split] gives it. *)
Definition molecule_and_transition (line_name : string) : M (list string) :=
  if negb (contains "_" line_name) then raise (ValueError (line_msg line_name))
  else
    let line_name := strip (lower line_name) in
    let prefixes :=
      List.filter (fun s => startswith line_name s)
        (map fst _molecules_to_latex) in
    match prefixes with
    | [] => ret (split1 "_" "" line_name)
    | p :: ps =>
        let prefix := longest p ps in
        ret [prefix; slice_from (String.length prefix + 1) line_name]
    end.

Definition molecule (line_name : string) : M string :=
  let! t := molecule_and_transition line_name in
  match t with
  | m :: _ => ret m
  | [] => raise IndexError
  end.

(** [[molecule(name) for name in names]] *)
Fixpoint molecules_of (names : list string) : M (list string) :=
  match names with
  | [] => ret []
  | name :: names' =>
      let! m := molecule name in
      let! ms := molecules_of names' in
      ret (m :: ms)
  end.

(** ** [filter_molecules]: lists in a store

    A list object is a location of the store; two arguments are the same
    object when they are the same location. *)

#[warning="-notation-for-abbreviation"] Notation loc := positive.
#[warning="-notation-for-abbreviation"] Notation store := (gmap positive (list string)).

(** The argument [mols : Union[str, List[str], None]]. *)
Inductive mols_arg :=
| MolsNone
| MolsStr (s : string)
| MolsList (l : loc).

(** A new list object. *)
Definition alloc (xs : list string) (σ : store) : loc * store :=
  let l := fresh (dom σ) in (l, <[l := xs]> σ).

(** [for i, mol in enumerate(mols): mols[i] = mol.strip().lower()] from
    index [i] on; the assignment does not change the length, so [n], the
    number of entries left, bounds the turns. *)
Fixpoint normalize_loop (n i : nat) (l : loc) (σ : store) : store :=
  match n with
  | 0 => σ
  | S n' =>
      match σ !! l with
      | Some xs =>
          match xs !! i with
          | Some mol =>
              normalize_loop n' (S i) l
                (<[l := <[i := lower (strip mol)]> xs]> σ)
          | None => σ
          end
      | None => σ
      end
  end.

Definition alias (mol : string) : string :=
  default mol (_molecules_aliases !! mol).

(** [[i for i, line_mol in enumerate(lines_mols) if line_mol in mols]] *)
Definition indices_in (lines_mols mols : list string) : list nat :=
  map fst
    (List.filter (fun p => existsb (String.eqb p.2) mols)
       (imap (fun i m => (i, m)) lines_mols)).

Definition filter_molecules (names : loc) (mols : mols_arg) (σ : store)
  : store * M loc :=
  match mols with
  | MolsNone => (σ, ret names)
  | _ =>
      let '(m, σ1) :=
        match mols with
        | MolsStr s => alloc [s] σ
        | MolsList l => (l, σ)
        | MolsNone => (names, σ)
        end in
      match σ1 !! m with
      | None => (σ1, raise TypeError)
      | Some xs =>
          let σ2 := normalize_loop (length xs) 0 m σ1 in
          let mols' := map alias (default [] (σ2 !! m)) in
          match σ2 !! names with
          | None => (σ2, raise TypeError)
          | Some ns =>
              match molecules_of ns with
              | (w, Raise e) => (σ2, (w, Raise e))
              | (w, Return lines_mols) =>
                  let indices := indices_in lines_mols mols' in
                  let '(r, σ3) :=
                    alloc (omap (fun i => ns !! i) indices) σ2 in
                  (σ3, (w, Return r))
              end
          end
      end
  end.

(** ** Vocabulary of the statements *)

(** A string of decimal digits, possibly empty: what [\d*] reads. *)
Fixpoint all_digits (s : string) : bool :=
  match s with
  | "" => true
  | String c s' => is_digit c && all_digits s'
  end.

(** A natural number written in decimal: at least one digit. *)
Definition numeral (s : string) : Prop := all_digits s = true /\ s <> "".

Fixpoint dec_from (acc : Z) (s : string) : Z :=
  match s with
  | "" => acc
  | String c s' => dec_from (10 * acc + digit_value c) s'
  end.

(** The number that a numeral denotes. *)
Definition dec_value (s : string) : Z := dec_from 0 s.

(** The raw values [a/b] and [a.b]. *)
Definition fraction (a b : string) : string := a +:+ String "/" b.
Definition decimal (a b : string) : string := a +:+ String "." b.

(** The six patterns tried by the loop, in order. *)
Definition tiers : list regex :=
  [pat_frac; pat_dec; pat_int; pat_el_long; pat_el_short; pat_fif].

(** What the decimal [a.b] is turned into, read off [half_integer] and
    [level_latex]: the warnings, from line [lineno], and the rendering. *)
Definition decimal_warnings (lineno : nat) (b : string) : list warning :=
  if String.eqb b "0" || String.eqb b "5" then []
  else [(lineno, float_warning b)].

Definition decimal_latex (a b : string) : string :=
  if String.eqb b "0" then py_str (2 * dec_value a)
  else if String.eqb b "5" then
    "\frac{" +:+ py_str (2 * dec_value a + 1) +:+ "}{2}"
  else py_str (dec_value a).

(** What [level_latex] turns [n/d] into when [d] is not zero. *)
Definition fraction_latex (n d : Z) : string :=
  if (n mod d =? 0)%Z then py_str (n / d)
  else "\frac{" +:+ py_str n +:+ "}{" +:+ py_str d +:+ "}".

(** [s] is the decimal numeral of [z]: digits, at least one, and no
    leading zero unless the numeral is ["0"]. *)
Definition canonical (s : string) (z : Z) : Prop :=
  numeral s /\ dec_value s = z /\ (s = "0" \/ startswith s "0" = false).

(** The rendering of a fraction as the specification words it: the plain
    quotient when the denominator divides the numerator, the typeset
    fraction of the numerator and the denominator otherwise. *)
Definition spec_fraction (n d : Z) (r : string) : Prop :=
  ((d | n)%Z -> canonical r (n / d)) /\
  (~ (d | n)%Z ->
   exists p q, canonical p n /\ canonical q d
               /\ r = "\frac{" +:+ p +:+ "}{" +:+ q +:+ "}").

(** The classifications of the rows of [_sort_transitions], in order. *)
Fixpoint classify_all (rows : list (string * string * string))
  : M (list (descr * bool)) :=
  match rows with
  | [] => ret []
  | (name, high, low) :: rows' =>
      let! r := classify name high low in
      let! rs := classify_all rows' in
      ret (r :: rs)
  end.

(** The constants, and the two sides of the transitions, of a list of
    classifications. *)
Definition constants (rs : list (descr * bool)) : list string :=
  omap (fun r => match r.1 with Single s => Some s | Pair _ _ => None end) rs.
Definition high_sides (rs : list (descr * bool)) : list string :=
  omap (fun r => match r.1 with Pair h _ => Some h | Single _ => None end) rs.
Definition low_sides (rs : list (descr * bool)) : list string :=
  omap (fun r => match r.1 with Pair _ l => Some l | Single _ => None end) rs.

(** A classification as the two functions build it: the flag tells a pair
    from a string, and every string is wrapped in dollars. *)
Definition wrapped (s : string) : Prop := exists body, s = "$" +:+ body +:+ "$".

Definition well_formed (r : descr * bool) : Prop :=
  match r with
  | (Single s, false) => wrapped s
  | (Pair h l, true) => wrapped h /\ wrapped l
  | _ => False
  end.

(** Each string followed by [sep]: how the loop of [_sort_transitions]
    grows its three strings. *)
Fixpoint followed (sep : string) (l : list string) : string :=
  match l with
  | [] => ""
  | s :: l' => s +:+ sep +:+ followed sep l'
  end.

(** The layout of section 4.5 of the specification. *)
Definition layout (consts highs lows : list string) : string :=
  String.concat " " consts +:+ " (" +:+ String.concat ", " highs
  +:+ " $\to$ " +:+ String.concat ", " lows +:+ ")".

(** The levels on which [_transition] is sure to return. *)
Definition renderable (v : string) : Prop :=
  re_match pat_numeric v = None \/
  (exists a b, v = fraction a b /\ numeral a /\ numeral b
               /\ dec_value b <> 0%Z) \/
  (exists a b, v = decimal a b /\ numeral a /\ all_digits b = true).

(** The entry that [filter_molecules] writes over [mol]. *)
Definition normalized (mol : string) : string := lower (strip mol).

(** A small store: one list, at location [1]. *)
Definition one_list (xs : list string) : store := {[ 1%positive := xs ]}.

(** [steps n st st']: [n] turns of the loop lead from [st] to [st'],
    none of them raising. *)
Inductive steps : nat -> state -> state -> Prop :=
| steps_done st : steps 0 st st
| steps_turn n st st1 st2 :
    loop_cond st = true -> loop_body st = ret st1 -> steps n st1 st2 ->
    steps (S n) st st2.

(** The descriptor [t] has one separator, between [h] and [l]. *)
Definition halves (t h l : string) : Prop :=
  str_count t "__" = 1 /\ str_split t "__" = [h; l].

(** The state in which the loop is entered. *)
Definition start (h l : string) : state := State h l [] [] [].

(** ** The other public functions *)

(** [molecule_and_transition(line_name)[1]] *)
Definition transition (line_name : string) : M string :=
  let! t := molecule_and_transition line_name in
  match t with
  | _ :: s :: _ => ret s
  | _ => raise IndexError
  end.

(** [list(dict.fromkeys(l))]: the keys in the order in which they first
    occur; [seen] holds the keys met so far. *)
Fixpoint fromkeys (seen l : list string) : list string :=
  match l with
  | [] => []
  | x :: l' =>
      if existsb (String.eqb x) seen then fromkeys seen l'
      else x :: fromkeys (x :: seen) l'
  end.

Definition molecules_among_lines (names : list string) : M (list string) :=
  let! ms := molecules_of names in
  ret (fromkeys [] ms).

Definition is_line_of (name mol : string) : M bool :=
  let mol := lower (strip mol) in
  let! m := molecule name in
  ret (String.eqb m mol).

(** [d[k]] for a dict given by its items; [None] when [k not in d]. *)
Fixpoint dict_get (d : list (string * string)) (k : string) : option string :=
  match d with
  | [] => None
  | (k', v) :: d' => if String.eqb k k' then Some v else dict_get d' k
  end.

Definition molecule_to_latex (molecule : string) : string :=
  match dict_get _molecules_to_latex molecule with
  | Some v => fmt_el v
  | None => molecule
  end.

(** [s.replace(old, new)] for a non-empty [old]: the occurrences of
    [old] are taken from left to right and do not overlap. *)
Fixpoint replace_go (old new : string) (skip : nat) (s : string) : string :=
  match s with
  | "" => ""
  | String c s' =>
      match skip with
      | S k => replace_go old new k s'
      | 0 =>
          if startswith s old
          then new +:+ replace_go old new (String.length old - 1) s'
          else String c (replace_go old new 0 s')
      end
  end.

Definition str_replace (s old new : string) : string := replace_go old new 0 s.

Definition line_to_latex (fuel : nat) (line_name : string)
  : option (M string) :=
  match (let! t := molecule_and_transition line_name in unpack2 t) with
  | (w, Raise e) => Some (w, Raise e)
  | (w, Return (prefix, suffix)) =>
      let latex_prefix := molecule_to_latex prefix in
      match transition_to_latex fuel suffix with
      | Some m =>
          Some (do! (w, Return tt) in
                let! latex_suffix := m in
                let out := latex_prefix +:+ " " +:+ latex_suffix in
                ret (str_replace out "  " " "))
      | None => None
      end
  end.

(** ** More vocabulary *)

(** The names that [(j|v|n|f|ka|kc)] reads. *)
Definition energy_names : list string := ["j"; "v"; "n"; "f"; "ka"; "kc"].

(** The keys of [_molecules_to_latex]. *)
Definition molecule_keys : list string := map fst _molecules_to_latex.

(** The least number of characters that a match of [r] takes. *)
Fixpoint min_len (r : regex) : nat :=
  match r with
  | Bos | Eos | Digits => 0
  | Lit p => String.length p
  | OneOf _ => 1
  | Alt r1 r2 => Nat.min (min_len r1) (min_len r2)
  | Seq r1 r2 => min_len r1 + min_len r2
  end.

(** [s] does not begin with a digit. *)
Definition no_digit_head (s : string) : bool :=
  match s with
  | String c _ => negb (is_digit c)
  | "" => true
  end.

(** What may follow the digits of an integer level for the third
    pattern to read it: no further digit, no [d] and no [_2]. *)
Definition level_end (s : string) : Prop :=
  no_digit_head s = true /\ startswith s "d" = false
  /\ startswith s "_2" = false.

(** How a turn consumes the two halves at the ends [ends] of a match. *)
Definition consumed (st st' : state) (ends : nat * nat) : Prop :=
  high st' = _removeprefixes (high st) [slice_to ends.1 (high st); "_"] /\
  low st' = _removeprefixes (low st) [slice_to ends.2 (low st); "_"].

(** The accumulators either stay, or get one entry each. *)
Definition accumulated (st st' : state) : Prop :=
  (names st' = names st /\ high_lvls st' = high_lvls st
   /\ low_lvls st' = low_lvls st) \/
  (exists n vh vl,
     names st' = names st ++ [n] /\ high_lvls st' = high_lvls st ++ [vh]
     /\ low_lvls st' = low_lvls st ++ [vl]).

(** The two hyperfine markers and the three short electronic suffixes. *)
Definition markers : list string := ["pp"; "pm"].
Definition el_suffixes : list string := ["p"; "s"; "d"].

(** [sep in s] *)
Fixpoint occurs (sep s : string) : bool :=
  startswith s sep
  || match s with
     | "" => false
     | String _ s' => occurs sep s'
     end.

(** Descriptors built from labels.  A label is what one turn of the loop
    reads in the two halves, with one constructor for each pattern after
    which the loop goes on: [n dh] above [n dl]; [n dh _2] above
    [n dl _2]; [n dh d fh] above [n dl d fl]; [el dh ch] above
    [el dl cl]; [ph _fif dh] above [pl _fif dl]. *)
Inductive label :=
| Integer (n dh dl : string)
| Half (n dh dl : string)
| Decimal (n dh fh dl fl : string)
| Electronic (dh ch dl cl : string)
| Marker (ph dh pl dl : string).

(** The token of a label in the upper and in the lower half. *)
Definition upper_token (b : label) : string :=
  match b with
  | Integer n dh _ => n +:+ dh
  | Half n dh _ => n +:+ dh +:+ "_2"
  | Decimal n dh fh _ _ => n +:+ dh +:+ "d" +:+ fh
  | Electronic dh ch _ _ => "el" +:+ dh +:+ ch
  | Marker ph dh _ _ => ph +:+ "_fif" +:+ dh
  end.

Definition lower_token (b : label) : string :=
  match b with
  | Integer n _ dl => n +:+ dl
  | Half n _ dl => n +:+ dl +:+ "_2"
  | Decimal n _ _ dl fl => n +:+ dl +:+ "d" +:+ fl
  | Electronic _ _ dl cl => "el" +:+ dl +:+ cl
  | Marker _ _ pl dl => pl +:+ "_fif" +:+ dl
  end.

(** The halves join the tokens with an underscore, the descriptor joins
    the halves with two. *)
Definition upper_half (bs : list label) : string :=
  String.concat "_" (map upper_token bs).
Definition lower_half (bs : list label) : string :=
  String.concat "_" (map lower_token bs).
Definition descriptor (bs : list label) : string :=
  upper_half bs +:+ "__" +:+ lower_half bs.

(** The labels that the patterns read: names and suffixes of the
    patterns, and digits where they have [\d*], possibly none. *)
Definition readable (b : label) : Prop :=
  match b with
  | Integer n dh dl | Half n dh dl =>
      In n energy_names /\ all_digits dh = true /\ all_digits dl = true
  | Decimal n dh fh dl fl =>
      In n energy_names /\ all_digits dh = true /\ all_digits fh = true
      /\ all_digits dl = true /\ all_digits fl = true
  | Electronic dh ch dl cl =>
      all_digits dh = true /\ In ch el_suffixes
      /\ all_digits dl = true /\ In cl el_suffixes
  | Marker ph dh pl dl =>
      In ph markers /\ all_digits dh = true
      /\ In pl markers /\ all_digits dl = true
  end.

(** ... and those in which every number given to [int] has a digit. *)
Definition well_written (b : label) : Prop :=
  readable b /\
  match b with
  | Half _ dh dl | Decimal _ dh _ dl _ => dh <> "" /\ dl <> ""
  | _ => True
  end.

(** What a turn appends to [names], [high_lvls] and [low_lvls] for a
    label; nothing for a marker. *)
Definition label_row (b : label) : option (string * string * string) :=
  match b with
  | Integer n dh dl => Some (n, dh, dl)
  | Half n dh dl => Some (n, fraction dh "2", fraction dl "2")
  | Decimal n dh fh dl fl => Some (n, decimal dh fh, decimal dl fl)
  | Electronic dh ch dl cl => Some ("el", dh +:+ ch, dl +:+ cl)
  | Marker _ _ _ _ => None
  end.

Definition rows_of (bs : list label) : list (string * string * string) :=
  omap label_row bs.

(** How [_sort_transitions] classifies the row of a well written label,
    and the warnings written meanwhile. *)
Definition label_classification (b : label) : option (descr * bool) :=
  match b with
  | Integer n dh dl => Some (constant_or_pair (name_latex n) dh dl)
  | Half n dh dl =>
      Some (constant_or_pair (name_latex n)
              (fraction_latex (dec_value dh) 2)
              (fraction_latex (dec_value dl) 2))
  | Decimal n dh fh dl fl =>
      Some (constant_or_pair (name_latex n)
              (decimal_latex dh fh) (decimal_latex dl fl))
  | Electronic dh ch dl cl => Some (_eltransition (dh +:+ ch) (dl +:+ cl))
  | Marker _ _ _ _ => None
  end.

Definition label_warnings (b : label) : list warning :=
  match b with
  | Decimal _ _ fh _ fl => decimal_warnings 436 fh ++ decimal_warnings 443 fl
  | _ => []
  end.

(** What [_sort_transitions] returns on classifications [cs]. *)
Definition rendering (cs : list (descr * bool)) : string :=
  match cs with
  | [] => ""
  | _ :: _ => layout (constants cs) (high_sides cs) (low_sides cs)
  end.

(** What follows the first token of a half. *)
Definition after_first (half : list label -> string) (bs : list label)
  : string :=
  match bs with
  | [] => ""
  | _ :: _ => "_" +:+ half bs
  end.

(** The name that [molecule] and [is_line_of] actually look at. *)
Definition normal_line (line_name : string) : string := strip (lower line_name).

(** [k] is a key of [_molecules_to_latex] that [ln] starts with. *)
Definition key_prefix (ln k : string) : Prop :=
  In k molecule_keys /\ startswith ln k = true.

(** Whether [filter_molecules] keeps [name], [wanted] being the molecules
    asked for once stripped, lowered and unaliased. *)
Definition keeps (wanted : list string) (name : string) : bool :=
  match molecule name with
  | (_, Return m) => existsb (String.eqb m) wanted
  | (_, Raise _) => false
  end.

(** [s] does not begin with a blank. *)
Definition no_lead (s : string) : bool :=
  match s with
  | "" => true
  | String c _ => negb (isspace c)
  end.

(** A string without blank that is not empty. *)
Definition piece (s : string) : Prop := s <> "" /\ contains " " s = false.

(** The strings of a classification are pieces. *)
Definition pieces (c : descr * bool) : Prop :=
  match c.1 with
  | Single s => piece s
  | Pair h l => piece h /\ piece l
  end.

(** ** The monad *)

Lemma bind_ret_l {A B} (a : A) (f : A -> M B) : bind (ret a) f = f a.
Proof. unfold bind, ret. destruct (f a) as [w o]. reflexivity. Qed.

Lemma bind_raise {A B} (e : exn) (f : A -> M B) : bind (raise e) f = raise e.
Proof. reflexivity. Qed.

Lemma bind_return {A B} w (a : A) (f : A -> M B) :
  bind (w, Return a) f = (w ++ (f a).1, (f a).2).
Proof. unfold bind. destruct (f a) as [w' o]. reflexivity. Qed.

(** ** The loop *)

Lemma while_loop_exit fuel st :
  loop_cond st = false -> while_loop fuel st = Some (ret st).
Proof. intros H. destruct fuel; simpl; rewrite H; reflexivity. Qed.

Lemma while_loop_step fuel st :
  loop_cond st = true ->
  while_loop (S fuel) st =
    match loop_body st with
    | (w, Return st') =>
        match while_loop fuel st' with
        | Some (w', o) => Some (w ++ w', o)
        | None => None
        end
    | (w, Raise e) => Some (w, Raise e)
    end.
Proof. intros H. simpl. rewrite H. reflexivity. Qed.

(** More fuel does not change a result. *)
Lemma while_loop_mono fuel : forall st m k,
  while_loop fuel st = Some m -> while_loop (k + fuel) st = Some m.
Proof.
  induction fuel as [|fuel IH]; intros st m k H.
  - destruct (loop_cond st) eqn:Hc.
    + simpl in H. rewrite Hc in H. discriminate.
    + rewrite while_loop_exit in H by assumption.
      rewrite while_loop_exit by assumption. exact H.
  - destruct (loop_cond st) eqn:Hc.
    + replace (k + S fuel) with (S (k + fuel)) by lia.
      rewrite while_loop_step in * by assumption.
      destruct (loop_body st) as [w [st'|e]]; [|exact H].
      destruct (while_loop fuel st') as [[w' o]|] eqn:Hw; [|discriminate].
      rewrite (IH _ _ k Hw). exact H.
    + rewrite while_loop_exit in H by assumption.
      rewrite while_loop_exit by assumption. exact H.
Qed.

Lemma transition_to_latex_mono fuel k transition m :
  transition_to_latex fuel transition = Some m ->
  transition_to_latex (k + fuel) transition = Some m.
Proof.
  unfold transition_to_latex.
  destruct (negb _); [tauto|].
  destruct (str_split transition "__") as [|h [|l [|? ?]]]; try tauto.
  destruct (while_loop fuel _) as [m'|] eqn:Hw; [|discriminate].
  rewrite (while_loop_mono _ _ _ k Hw). tauto.
Qed.

(** A turn that changes nothing is repeated for ever. *)
Lemma stuck_diverges st :
  loop_cond st = true -> loop_body st = ret st ->
  forall fuel, while_loop fuel st = None.
Proof.
  intros Hc Hb fuel. induction fuel as [|fuel IH].
  - simpl. rewrite Hc. reflexivity.
  - rewrite while_loop_step by assumption. rewrite Hb. simpl.
    rewrite IH. reflexivity.
Qed.

(** When no pattern matches both halves the turn changes nothing: inside
    the loop neither half is empty, so the test for the [RuntimeError]
    is false. *)
Lemma no_tier_stuck st :
  loop_cond st = true ->
  Forall (fun r => both r st = None) tiers ->
  loop_body st = ret st.
Proof.
  intros Hc Ht.
  repeat (apply Forall_cons_1 in Ht as [? Ht]).
  unfold loop_body.
  repeat match goal with H : both _ _ = None |- _ => rewrite H; clear H end.
  unfold loop_cond in Hc. apply andb_true_iff in Hc as [H1 H2].
  apply negb_true_iff in H1, H2. rewrite H1, H2. reflexivity.
Qed.

Lemma unmatched_diverges st :
  loop_cond st = true ->
  Forall (fun r => both r st = None) tiers ->
  forall fuel, while_loop fuel st = None.
Proof. intros Hc Ht. apply stuck_diverges; auto using no_tier_stuck. Qed.

(** The loop never raises the [RuntimeError] of its last test. *)
Lemma energy_branch_no_RuntimeError conv st ends w msg :
  energy_branch conv st ends <> (w, Raise (RuntimeError msg)).
Proof.
  unfold energy_branch, group.
  destruct (re_match pat_name (slice_to ends.1 (high st))); simpl;
    [|unfold raise; congruence].
  destruct (re_match pat_name (slice_to ends.2 (low st))); simpl;
    [|unfold raise; congruence].
  destruct (negb _); unfold raise, ret; congruence.
Qed.

Lemma loop_body_no_RuntimeError st w msg :
  loop_cond st = true -> loop_body st <> (w, Raise (RuntimeError msg)).
Proof.
  intros Hc. unfold loop_body.
  unfold loop_cond in Hc. apply andb_true_iff in Hc as [H1 H2].
  apply negb_true_iff in H1, H2. rewrite H1, H2. simpl.
  destruct (both pat_frac st); [apply energy_branch_no_RuntimeError|].
  destruct (both pat_dec st); [apply energy_branch_no_RuntimeError|].
  destruct (both pat_int st); [apply energy_branch_no_RuntimeError|].
  destruct (both pat_el_long st); [unfold el_long_branch, raise; congruence|].
  destruct (both pat_el_short st); [unfold el_branch, ret; congruence|].
  destruct (both pat_fif st); [unfold fif_branch, ret; congruence|].
  unfold ret; congruence.
Qed.

Lemma while_loop_no_RuntimeError fuel : forall st w msg,
  while_loop fuel st <> Some (w, Raise (RuntimeError msg)).
Proof.
  induction fuel as [|fuel IH]; intros st w msg.
  - simpl. destruct (loop_cond st); unfold ret; congruence.
  - destruct (loop_cond st) eqn:Hc.
    + rewrite while_loop_step by assumption.
      destruct (loop_body st) as [w1 [st'|e]] eqn:Hb.
      * destruct (while_loop fuel st') as [[w' o]|] eqn:Hw; [|congruence].
        intros Heq. injection Heq as _ ->. exact (IH _ _ _ Hw).
      * intros Heq. injection Heq as -> ->.
        exact (loop_body_no_RuntimeError _ _ _ Hc Hb).
    + rewrite while_loop_exit by assumption. unfold ret. congruence.
Qed.

(** ** Strings *)

Lemma append_nil_r s : s +:+ "" = s.
Proof. induction s as [|c s IH]; simpl; [|rewrite IH]; reflexivity. Qed.

Lemma append_assoc s t u : (s +:+ t) +:+ u = s +:+ (t +:+ u).
Proof. induction s as [|c s IH]; simpl; [|rewrite IH]; reflexivity. Qed.

Lemma append_snoc s c t : (s +:+ String c "") +:+ t = s +:+ String c t.
Proof. rewrite append_assoc. reflexivity. Qed.

Lemma length_append s t :
  String.length (s +:+ t) = String.length s + String.length t.
Proof. induction s as [|c s IH]; simpl; [|rewrite IH]; reflexivity. Qed.

Lemma startswith_char c s d : startswith (String c s) (String d "") = Ascii.eqb d c.
Proof.
  unfold startswith. simpl. destruct (ascii_dec d c) as [->|Hne].
  - rewrite Ascii.eqb_refl. destruct s; reflexivity.
  - symmetry. apply Ascii.eqb_neq. exact Hne.
Qed.

Lemma contains_append c s t : contains c (s +:+ t) = contains c s || contains c t.
Proof.
  induction s as [|d s IH]; simpl; [reflexivity|].
  rewrite IH. apply orb_assoc.
Qed.

Lemma split_go_cons sep cur c s :
  split_go sep 0 cur (String c s) =
    if startswith (String c s) sep
    then cur :: split_go sep (String.length sep - 1) "" s
    else split_go sep 0 (cur +:+ String c "") s.
Proof. reflexivity. Qed.

Lemma split_go_none sep s : forall cur,
  contains sep s = false ->
  split_go (String sep "") 0 cur s = [cur +:+ s].
Proof.
  induction s as [|c s IH]; intros cur H.
  - simpl. rewrite append_nil_r. reflexivity.
  - simpl in H. apply orb_false_iff in H as [Hc Hs].
    rewrite split_go_cons, startswith_char, Hc, IH, append_snoc
      by assumption.
    reflexivity.
Qed.

Lemma split_go_one sep a b : forall cur,
  contains sep a = false ->
  split_go (String sep "") 0 cur (a +:+ String sep b) =
    (cur +:+ a) :: split_go (String sep "") 0 "" b.
Proof.
  induction a as [|c a IH]; intros cur H.
  - change ("" +:+ String sep b) with (String sep b).
    rewrite split_go_cons, startswith_char, Ascii.eqb_refl, append_nil_r.
    reflexivity.
  - simpl in H. apply orb_false_iff in H as [Hc Hs].
    change (String c a +:+ String sep b) with (String c (a +:+ String sep b)).
    rewrite split_go_cons, startswith_char, Hc, IH, append_snoc
      by assumption.
    reflexivity.
Qed.

(** [(a + sep + b).split(sep)] is [[a, b]] when neither holds [sep]. *)
Lemma str_split_two sep a b :
  contains sep a = false -> contains sep b = false ->
  str_split (a +:+ String sep b) (String sep "") = [a; b].
Proof.
  intros Ha Hb. unfold str_split.
  rewrite split_go_one, split_go_none by assumption. reflexivity.
Qed.

(** ** Digits *)

Lemma digit_char c :
  is_digit c = true ->
  int_space c = false /\ Ascii.eqb c "_" = false /\
  Ascii.eqb "/" c = false /\ Ascii.eqb "." c = false /\
  c <> "+"%char /\ c <> "-"%char.
Proof.
  destruct c as [[] [] [] [] [] [] [] []]; intros H;
    vm_compute in H; try discriminate H;
    repeat split; try reflexivity; discriminate.
Qed.

Lemma all_digits_contains sep s :
  is_digit sep = false -> all_digits s = true -> contains sep s = false.
Proof.
  intros Hsep. induction s as [|c s IH]; simpl; [reflexivity|].
  intros [Hc Hs]%andb_true_iff. rewrite IH by assumption.
  rewrite orb_false_r. apply Ascii.eqb_neq. intros ->. congruence.
Qed.

Lemma int_digits_all s : forall acc,
  all_digits s = true -> int_digits acc PDigit s = Some (dec_from acc s, "").
Proof.
  induction s as [|c s IH]; intros acc H; simpl in *; [reflexivity|].
  apply andb_true_iff in H as [Hc Hs]. rewrite Hc. apply IH, Hs.
Qed.

(** [int] reads a numeral as the number it denotes. *)
Lemma py_int_numeral s : numeral s -> py_int s = Some (dec_value s).
Proof.
  intros [Hd Hne]. destruct s as [|c s]; [congruence|].
  simpl in Hd. apply andb_true_iff in Hd as [Hc Hs].
  destruct (digit_char c Hc) as (Hsp & _ & _ & _ & Hplus & Hminus).
  unfold py_int, dec_value. simpl skip_int_space. rewrite Hsp.
  assert (Hsign : match String c s with
                  | String "+" r => (1%Z, r)
                  | String "-" r => ((-1)%Z, r)
                  | _ => (1%Z, String c s)
                  end = (1%Z, String c s)).
  { destruct c as [[] [] [] [] [] [] [] []]; try reflexivity; congruence. }
  rewrite Hsign. simpl int_digits. rewrite Hc.
  rewrite int_digits_all by assumption. simpl skip_int_space.
  simpl dec_from. f_equal. apply Z.mul_1_l.
Qed.

Lemma int_numeral s : numeral s -> int s = ret (dec_value s).
Proof. intros H. unfold int. rewrite py_int_numeral by assumption. reflexivity. Qed.

Lemma int_empty : int "" = raise (IntValueError "").
Proof. reflexivity. Qed.

(** ** The numeric pattern *)

Lemma digits_star_all s : forall pos k e,
  all_digits s = true -> k (pos + String.length s) "" = Some e ->
  digits_star pos s k = Some e.
Proof.
  induction s as [|c s IH]; intros pos k e H Hk; simpl in *.
  - rewrite Nat.add_0_r in Hk. exact Hk.
  - apply andb_true_iff in H as [Hc Hs]. rewrite Hc.
    rewrite (IH (S pos) k e); [reflexivity|assumption|].
    rewrite <- Hk. f_equal. lia.
Qed.

Lemma digits_star_until s c rest : forall pos k e,
  all_digits s = true -> is_digit c = false ->
  k (pos + String.length s) (String c rest) = Some e ->
  digits_star pos (s +:+ String c rest) k = Some e.
Proof.
  induction s as [|d s IH]; intros pos k e H Hc Hk; simpl in *.
  - rewrite Hc. rewrite Nat.add_0_r in Hk. exact Hk.
  - apply andb_true_iff in H as [Hd Hs]. rewrite Hd.
    rewrite (IH (S pos) k e); [reflexivity|assumption..|].
    rewrite <- Hk. f_equal. lia.
Qed.

(** [digits sep digits] matches ["\A\d*[/.]\d*\Z"] for [sep] one of [/]
    and [.]. *)
Lemma numeric_match sep a b :
  sep = "/"%char \/ sep = "."%char ->
  all_digits a = true -> all_digits b = true ->
  re_match pat_numeric (a +:+ String sep b)
  = Some (String.length a + 1 + String.length b).
Proof.
  intros Hsep Ha Hb. unfold re_match, pat_numeric. simpl rmatch.
  apply digits_star_until; [assumption|destruct Hsep; subst; reflexivity|].
  assert ((sep =? "/")%char || ((sep =? ".")%char || false) = true) as ->
    by (destruct Hsep; subst; reflexivity).
  apply digits_star_all; [assumption|]. f_equal. lia.
Qed.

(** ** Numeric levels *)

Lemma numeral_no_slash s : all_digits s = true -> contains "/" s = false.
Proof. apply all_digits_contains. reflexivity. Qed.

Lemma numeral_no_dot s : all_digits s = true -> contains "." s = false.
Proof. apply all_digits_contains. reflexivity. Qed.

Lemma level_latex_nonzero n d :
  d <> 0%Z -> level_latex n d = ret (fraction_latex n d).
Proof.
  intros Hd. unfold level_latex, fraction_latex.
  destruct (Z.eqb_spec d 0); [contradiction|].
  destruct (n mod d =? 0)%Z; reflexivity.
Qed.

(** ** [str] of an integer *)

Lemma uint_digits d : all_digits (NilEmpty.string_of_uint d) = true.
Proof. induction d; simpl; assumption || reflexivity. Qed.

Lemma uint_value_acc d : forall p,
  dec_from (Z.pos p) (NilEmpty.string_of_uint d)
  = Z.pos (Pos.of_uint_acc d p).
Proof.
  induction d; intros p; cbn [NilEmpty.string_of_uint dec_from Pos.of_uint_acc];
    [reflexivity|..];
    match goal with
    | |- dec_from ?acc _ = Z.pos (Pos.of_uint_acc _ ?q) =>
        replace acc with (Z.pos q) by (unfold digit_value, code; simpl; lia)
    end; apply IHd.
Qed.

Lemma uint_value d :
  dec_from 0 (NilEmpty.string_of_uint d) = Z.of_N (Pos.of_uint d).
Proof.
  induction d; cbn [NilEmpty.string_of_uint dec_from Pos.of_uint];
    [reflexivity|exact IHd|..];
    match goal with
    | |- dec_from ?acc _ = _ =>
        change acc with (Z.pos 1) || change acc with (Z.pos 2)
        || change acc with (Z.pos 3) || change acc with (Z.pos 4)
        || change acc with (Z.pos 5) || change acc with (Z.pos 6)
        || change acc with (Z.pos 7) || change acc with (Z.pos 8)
        || change acc with (Z.pos 9)
    end; rewrite uint_value_acc; reflexivity.
Qed.

Lemma nzhead_head d d' : Decimal.nzhead d <> Decimal.D0 d'.
Proof. induction d; simpl; try discriminate. exact IHd. Qed.

(** The numeral of a positive number does not begin with a zero. *)
Lemma to_uint_head p d : Pos.to_uint p <> Decimal.D0 d.
Proof.
  intros H. pose proof (DecimalPos.Unsigned.to_of (Pos.to_uint p)) as E.
  rewrite DecimalPos.Unsigned.of_to in E. simpl in E. rewrite H in E.
  unfold Decimal.unorm in E. simpl in E.
  destruct (Decimal.nzhead d) eqn:Hd; try discriminate E.
  - injection E as ->. exact (DecimalPos.Unsigned.to_uint_nonzero p H).
  - exact (nzhead_head _ _ Hd).
Qed.

(** [str(z)] is the decimal numeral of [z], for [z] not negative. *)
Lemma py_str_canonical z : (0 <= z)%Z -> canonical (py_str z) z.
Proof.
  intros Hz. destruct z as [|p|p]; [repeat split; auto; discriminate| |lia].
  unfold py_str, canonical, numeral, dec_value. simpl Z.to_int.
  cbn [NilEmpty.string_of_int].
  pose proof (DecimalPos.Unsigned.to_uint_nonnil p) as Hnil.
  pose proof (to_uint_head p) as Hhead.
  split; [split; [apply uint_digits|]|split].
  - destruct (Pos.to_uint p); [congruence|discriminate..].
  - rewrite uint_value, DecimalPos.Unsigned.of_to. reflexivity.
  - right. destruct (Pos.to_uint p) as [|d|d|d|d|d|d|d|d|d|d];
      try reflexivity. destruct (Hhead d eq_refl).
Qed.

Lemma dec_from_nonneg s : forall acc,
  all_digits s = true -> (0 <= acc)%Z -> (0 <= dec_from acc s)%Z.
Proof.
  induction s as [|c s IH]; intros acc; simpl; [auto|].
  intros [Hc Hs]%andb_true_iff Hacc. apply IH; [exact Hs|].
  unfold is_digit in Hc. apply andb_true_iff in Hc as [H1 _].
  apply N.leb_le in H1. unfold digit_value. lia.
Qed.

Lemma dec_value_nonneg s : all_digits s = true -> (0 <= dec_value s)%Z.
Proof. intros H. apply dec_from_nonneg; [exact H|lia]. Qed.

Lemma fraction_latex_spec n d :
  (0 <= n)%Z -> (0 < d)%Z -> spec_fraction n d (fraction_latex n d).
Proof.
  intros Hn Hd. unfold spec_fraction, fraction_latex.
  destruct (Z.eqb_spec (n mod d) 0) as [H|H]; split; intros Hdiv.
  - apply py_str_canonical, Z.div_pos; assumption.
  - exfalso. apply Hdiv. apply Z.mod_divide; [lia|assumption].
  - exfalso. apply H. apply Z.mod_divide; [lia|assumption].
  - exists (py_str n), (py_str d).
    split; [apply py_str_canonical; lia|].
    split; [apply py_str_canonical; lia|reflexivity].
Qed.

Lemma fraction_levels_numerals a b a' b' :
  numeral a -> numeral b -> numeral a' -> numeral b' ->
  fraction_levels (fraction a b) (fraction a' b')
  = ret ((dec_value a, dec_value b), (dec_value a', dec_value b')).
Proof.
  intros Ha Hb Ha' Hb'. unfold fraction_levels, fraction.
  rewrite !str_split_two
    by (apply numeral_no_slash; first [apply Ha|apply Hb|apply Ha'|apply Hb']).
  unfold unpack2. rewrite !bind_ret_l. simpl fst. simpl snd.
  rewrite !int_numeral by assumption. rewrite !bind_ret_l. reflexivity.
Qed.

Lemma numeric_levels_fraction a b a' b' :
  numeral a -> numeral b -> numeral a' -> numeral b' ->
  dec_value b <> 0%Z -> dec_value b' <> 0%Z ->
  numeric_levels (fraction a b) (fraction a' b')
  = ret (fraction_latex (dec_value a) (dec_value b),
         fraction_latex (dec_value a') (dec_value b')).
Proof.
  intros Ha Hb Ha' Hb' Hd Hd'. unfold numeric_levels.
  assert (contains "/" (fraction a b) = true) as ->.
  { unfold fraction. rewrite contains_append. simpl. apply orb_true_r. }
  rewrite fraction_levels_numerals by assumption.
  rewrite bind_ret_l. simpl fst. simpl snd.
  rewrite !level_latex_nonzero by assumption.
  rewrite !bind_ret_l. reflexivity.
Qed.

Lemma half_integer_numeral lineno a b :
  numeral a ->
  exists n d,
    half_integer lineno a b = (decimal_warnings lineno b, Return (n, d)) /\
    level_latex n d = ret (decimal_latex a b).
Proof.
  intros Ha. unfold half_integer, decimal_warnings, decimal_latex.
  rewrite int_numeral by assumption.
  destruct (String.eqb b "0"); [|destruct (String.eqb b "5")]; simpl;
    eexists _, _; (split; [reflexivity|]).
  - unfold level_latex. simpl. rewrite Z.mod_1_r, Z.div_1_r. reflexivity.
  - unfold level_latex. simpl Z.eqb.
    replace ((2 * dec_value a + 1) mod 2)%Z with 1%Z; [reflexivity|].
    rewrite Z.add_comm, Z.mul_comm, Z_mod_plus_full. reflexivity.
  - unfold level_latex. simpl. rewrite Z.mod_1_r, Z.div_1_r. reflexivity.
Qed.

Lemma numeric_levels_decimal a b a' b' :
  numeral a -> all_digits b = true -> numeral a' -> all_digits b' = true ->
  numeric_levels (decimal a b) (decimal a' b')
  = (decimal_warnings 436 b ++ decimal_warnings 443 b',
     Return (decimal_latex a b, decimal_latex a' b')).
Proof.
  intros Ha Hb Ha' Hb'. unfold numeric_levels.
  assert (contains "/" (decimal a b) = false) as ->.
  { unfold decimal. rewrite contains_append. simpl.
    rewrite !numeral_no_slash by (assumption || apply Ha). reflexivity. }
  unfold decimal_levels, decimal.
  rewrite !str_split_two
    by (apply numeral_no_dot; first [apply Ha|apply Hb|apply Ha'|apply Hb']).
  unfold unpack2. rewrite !bind_ret_l. simpl fst. simpl snd.
  destruct (half_integer_numeral 436 a b Ha) as (n & d & -> & Hl).
  destruct (half_integer_numeral 443 a' b' Ha') as (n' & d' & -> & Hl').
  rewrite !bind_return. simpl fst. simpl snd. rewrite !bind_return.
  simpl fst. simpl snd. rewrite Hl, Hl'. simpl. rewrite !app_nil_r.
  reflexivity.
Qed.

Lemma transition_numeric name high_lvl low_lvl e w rh rl :
  re_match pat_numeric high_lvl = Some e ->
  numeric_levels high_lvl low_lvl = (w, Return (rh, rl)) ->
  _transition name high_lvl low_lvl
  = (w, Return (constant_or_pair (name_latex name) rh rl)).
Proof.
  intros Hm Hn. unfold _transition. rewrite Hm, Hn, bind_return.
  simpl. rewrite app_nil_r. reflexivity.
Qed.

Lemma transition_fraction_form name a b a' b' :
  numeral a -> numeral b -> numeral a' -> numeral b' ->
  dec_value b <> 0%Z -> dec_value b' <> 0%Z ->
  _transition name (fraction a b) (fraction a' b')
  = ret (constant_or_pair (name_latex name)
           (fraction_latex (dec_value a) (dec_value b))
           (fraction_latex (dec_value a') (dec_value b'))).
Proof.
  intros Ha Hb Ha' Hb' Hd Hd'. unfold ret.
  eapply transition_numeric.
  - apply numeric_match; [left; reflexivity|apply Ha|apply Hb].
  - apply numeric_levels_fraction; assumption.
Qed.

Lemma transition_decimal_form name a b a' b' :
  numeral a -> all_digits b = true -> numeral a' -> all_digits b' = true ->
  _transition name (decimal a b) (decimal a' b')
  = (decimal_warnings 436 b ++ decimal_warnings 443 b',
     Return (constant_or_pair (name_latex name)
               (decimal_latex a b) (decimal_latex a' b'))).
Proof.
  intros Ha Hb Ha' Hb'.
  eapply transition_numeric.
  - apply numeric_match; [right; reflexivity|apply Ha|apply Hb].
  - apply numeric_levels_decimal; assumption.
Qed.





Lemma constant_or_pair_same name_latex lvl :
  constant_or_pair name_latex lvl lvl = (Single (fmt_level name_latex lvl), false).
Proof. unfold constant_or_pair. rewrite String.eqb_refl. reflexivity. Qed.

(** ** Equal levels *)

Lemma bind_Return_inv {A B} (m : M A) (f : A -> M B) w b :
  bind m f = (w, Return b) ->
  exists w1 a w2, m = (w1, Return a) /\ f a = (w2, Return b) /\ w = w1 ++ w2.
Proof.
  destruct m as [w1 [a|e]]; simpl; [|discriminate].
  destruct (f a) as [w2 o] eqn:Hf. intros [= <- ->]. eauto 6.
Qed.

Ltac bind_inv H :=
  let w1 := fresh "w" in
  let a := fresh "x" in
  let w2 := fresh "w" in
  let H1 := fresh "Hm" in
  let Hw := fresh "Hw" in
  apply bind_Return_inv in H as (w1 & a & w2 & H1 & H & Hw);
  cbv beta in H.

Ltac same_result :=
  repeat match goal with
  | H1 : ?m = (_, Return ?a), H2 : ?m = (_, Return ?b) |- _ =>
      rewrite H1 in H2; injection H2 as <- <-
  end.

Lemma fraction_levels_diag v w h l :
  fraction_levels v v = (w, Return (h, l)) -> h = l.
Proof.
  unfold fraction_levels. intros H. do 6 bind_inv H.
  injection H as _ <- <-. same_result. reflexivity.
Qed.

(** The line of the warning does not change the value. *)
Lemma half_integer_value l1 l2 a b w1 w2 x1 x2 :
  half_integer l1 a b = (w1, Return x1) ->
  half_integer l2 a b = (w2, Return x2) -> x1 = x2.
Proof.
  unfold half_integer, int, warn.
  destruct (String.eqb b "0"); [|destruct (String.eqb b "5")];
    destruct (py_int a); simpl; congruence.
Qed.

Lemma decimal_levels_diag v w h l :
  decimal_levels v v = (w, Return (h, l)) -> h = l.
Proof.
  unfold decimal_levels. intros H. do 4 bind_inv H.
  injection H as _ <- <-. same_result.
  eapply half_integer_value; eassumption.
Qed.

Lemma numeric_levels_diag v w rh rl :
  numeric_levels v v = (w, Return (rh, rl)) -> rh = rl.
Proof.
  unfold numeric_levels. intros H. do 3 bind_inv H.
  injection H as _ <- <-.
  assert (x.1 = x.2) as Hx.
  { destruct x as [h l]. destruct (contains "/" v);
      eauto using fraction_levels_diag, decimal_levels_diag. }
  rewrite Hx in *. same_result. reflexivity.
Qed.

(** With equal levels [_transition] never returns a pair. *)
Lemma transition_equal_levels name v :
  exists w,
    (exists s, _transition name v v = (w, Return (Single s, false))) \/
    (exists e, _transition name v v = (w, Raise e)).
Proof.
  unfold _transition. destruct (re_match pat_numeric v) as [e|].
  - destruct (numeric_levels v v) as [w [[rh rl]|err]] eqn:Hn.
    + apply numeric_levels_diag in Hn as ->.
      exists w. left. rewrite bind_return. simpl fst. simpl snd.
      rewrite constant_or_pair_same. simpl. rewrite app_nil_r. eauto.
    + exists w. right. eauto.
  - exists []. left. rewrite bind_ret_l. simpl fst. simpl snd.
    rewrite constant_or_pair_same. eauto.
Qed.

Lemma transition_not_numeric name high_lvl low_lvl :
  re_match pat_numeric high_lvl = None ->
  _transition name high_lvl low_lvl
  = ret (constant_or_pair (name_latex name) high_lvl low_lvl).
Proof. intros H. unfold _transition. rewrite H, bind_ret_l. reflexivity. Qed.

(** ** The assembler *)

Lemma wrapped_fmt_el lvl : wrapped (fmt_el lvl).
Proof. exists lvl. reflexivity. Qed.

Lemma wrapped_fmt_level name_latex lvl : wrapped (fmt_level name_latex lvl).
Proof.
  exists (name_latex +:+ "=" +:+ lvl). unfold fmt_level.
  rewrite !append_assoc. reflexivity.
Qed.

Lemma constant_or_pair_well_formed name_latex h l :
  well_formed (constant_or_pair name_latex h l).
Proof.
  unfold constant_or_pair. destruct (String.eqb h l); simpl;
    auto using wrapped_fmt_level.
Qed.

Lemma classify_well_formed name high low w r :
  classify name high low = (w, Return r) -> well_formed r.
Proof.
  unfold classify, _eltransition, _transition.
  destruct (String.eqb name "el").
  - intros [= _ <-]. destruct (String.eqb high low); simpl;
      auto using wrapped_fmt_el.
  - intros H. bind_inv H. injection H as _ <-.
    apply constant_or_pair_well_formed.
Qed.

Lemma classify_all_well_formed rows : forall w rs,
  classify_all rows = (w, Return rs) -> Forall well_formed rs.
Proof.
  induction rows as [|[[name high] low] rows IH]; intros w rs H; simpl in H.
  - injection H as _ <-. constructor.
  - do 2 bind_inv H. injection H as _ <-.
    constructor; eauto using classify_well_formed.
Qed.

Lemma sort_loop_classified rows : forall acc w rs,
  classify_all rows = (w, Return rs) ->
  sort_loop rows acc
  = (w, Return (acc.1.1 +:+ followed " " (constants rs),
                acc.1.2 +:+ followed ", " (high_sides rs),
                acc.2 +:+ followed ", " (low_sides rs))).
Proof.
  induction rows as [|[[name high] low] rows IH]; intros [[d0 d1a] d1b] w rs H;
    simpl in H.
  - injection H as <- <-. simpl. rewrite !append_nil_r. reflexivity.
  - do 2 bind_inv H. injection H as <- <-. subst.
    pose proof (classify_well_formed _ _ _ _ _ Hm) as Hwf.
    simpl sort_loop. rewrite Hm, bind_return.
    destruct x as [[s|h l] []]; simpl in Hwf; try contradiction.
    + unfold add_descr. rewrite bind_ret_l, (IH _ _ _ Hm0). simpl.
      rewrite !append_assoc, app_nil_r. reflexivity.
    + unfold add_descr. rewrite bind_ret_l, (IH _ _ _ Hm0). simpl.
      rewrite !append_assoc, app_nil_r. reflexivity.
Qed.

Lemma rstrip_append s t : rstrip t <> "" -> rstrip (s +:+ t) = s +:+ rstrip t.
Proof.
  intros Ht. induction s as [|c s IH]; simpl; [reflexivity|].
  rewrite IH. destruct (s +:+ rstrip t) eqn:E; [|reflexivity].
  destruct s; simpl in E; congruence.
Qed.

Lemma concat_wrapped_nonempty c l :
  wrapped c -> String.concat " " (c :: l) <> "".
Proof. intros [body ->]. destruct l; simpl; discriminate. Qed.

Lemma rstrip_followed l :
  Forall wrapped l -> rstrip (followed " " l) = String.concat " " l.
Proof.
  induction 1 as [|c l Hc Hl IH]; [reflexivity|].
  destruct l as [|c' l].
  - change (followed " " [c]) with (c +:+ " " +:+ "").
    change (String.concat " " [c]) with c.
    destruct Hc as [body ->].
    replace (("$" +:+ body +:+ "$") +:+ " " +:+ "")
      with (("$" +:+ body) +:+ "$ ")
      by (rewrite !append_assoc; reflexivity).
    rewrite rstrip_append by (vm_compute; discriminate).
    change (rstrip "$ ") with "$". apply append_assoc.
  - change (followed " " (c :: c' :: l))
      with (c +:+ " " +:+ followed " " (c' :: l)).
    change (String.concat " " (c :: c' :: l))
      with (c +:+ " " +:+ String.concat " " (c' :: l)).
    inversion Hl; subst.
    assert (rstrip (followed " " (c' :: l)) <> "") as Hne
      by (rewrite IH; apply concat_wrapped_nonempty; assumption).
    assert (rstrip (" " +:+ followed " " (c' :: l))
            = " " +:+ rstrip (followed " " (c' :: l))) as Hsp
      by (apply rstrip_append; exact Hne).
    rewrite rstrip_append; rewrite Hsp; [rewrite IH; reflexivity|discriminate].
Qed.

Lemma strip_followed l :
  Forall wrapped l -> strip (followed " " l) = String.concat " " l.
Proof.
  intros H. unfold strip.
  assert (lstrip (followed " " l) = followed " " l) as ->; [|apply rstrip_followed, H].
  destruct H as [|c l [body ->] _]; reflexivity.
Qed.

Lemma slice_to_append s t : slice_to (String.length s) (s +:+ t) = s.
Proof. induction s as [|c s IH]; simpl; [destruct t|rewrite IH]; reflexivity. Qed.

Lemma followed_concat sep s l :
  followed sep (s :: l) = String.concat sep (s :: l) +:+ sep.
Proof.
  revert s. induction l as [|s' l IH]; intros s.
  - simpl. rewrite append_nil_r. reflexivity.
  - change (followed sep (s :: s' :: l)) with (s +:+ sep +:+ followed sep (s' :: l)).
    change (String.concat sep (s :: s' :: l))
      with (s +:+ sep +:+ String.concat sep (s' :: l)).
    rewrite IH, !append_assoc. reflexivity.
Qed.

Lemma drop_last2_followed l :
  drop_last2 (followed ", " l) = String.concat ", " l.
Proof.
  destruct l as [|s l]; [reflexivity|].
  rewrite followed_concat. generalize (String.concat ", " (s :: l)) as x.
  intros x. unfold drop_last2. rewrite length_append.
  replace (String.length x + String.length ", " - 2) with (String.length x)
    by (simpl; lia).
  apply slice_to_append.
Qed.

Lemma constants_wrapped rs : Forall well_formed rs -> Forall wrapped (constants rs).
Proof.
  induction 1 as [|[[s|h l] []] rs Hr _ IH]; simpl in *;
    try contradiction; [constructor|constructor; assumption|assumption].
Qed.

(** ** Runs of the loop *)

Lemma steps_exit n : forall st st',
  steps n st st' -> loop_cond st' = false ->
  forall fuel, while_loop (fuel + n) st = Some (ret st').
Proof.
  induction n as [|n IH]; intros st st' Hs Hc fuel; inversion Hs; subst.
  - apply while_loop_exit, Hc.
  - replace (fuel + S n) with (S (fuel + n)) by lia.
    rewrite while_loop_step by assumption.
    match goal with H : loop_body st = _ |- _ => rewrite H end.
    simpl. rewrite (IH _ _ ltac:(eassumption) Hc). reflexivity.
Qed.

Lemma steps_diverge n : forall st st',
  steps n st st' -> (forall fuel, while_loop fuel st' = None) ->
  forall fuel, while_loop fuel st = None.
Proof.
  induction n as [|n IH]; intros st st' Hs Hd fuel; inversion Hs; subst.
  - apply Hd.
  - destruct fuel as [|fuel].
    + simpl. match goal with H : loop_cond st = true |- _ => rewrite H end.
      reflexivity.
    + rewrite while_loop_step by assumption.
      match goal with H : loop_body st = _ |- _ => rewrite H end.
      simpl. rewrite (IH _ _ ltac:(eassumption) Hd). reflexivity.
Qed.

Lemma steps_raise n : forall st st' e,
  steps n st st' -> loop_cond st' = true -> loop_body st' = raise e ->
  forall fuel, while_loop (fuel + S n) st = Some (raise e).
Proof.
  induction n as [|n IH]; intros st st' e Hs Hc Hb fuel; inversion Hs; subst.
  - replace (fuel + 1) with (S fuel) by lia.
    rewrite while_loop_step, Hb by assumption. reflexivity.
  - replace (fuel + S (S n)) with (S (fuel + S n)) by lia.
    rewrite while_loop_step by assumption.
    match goal with H : loop_body st = _ |- _ => rewrite H end.
    simpl. rewrite (IH _ _ _ ltac:(eassumption) Hc Hb). reflexivity.
Qed.

Lemma transition_to_latex_halves fuel t h l :
  halves t h l ->
  transition_to_latex fuel t =
    match while_loop fuel (start h l) with
    | Some m =>
        Some (let! st := m in
              _sort_transitions (names st) (high_lvls st) (low_lvls st))
    | None => None
    end.
Proof.
  intros [Hc Hs]. unfold transition_to_latex. rewrite Hc, Hs. reflexivity.
Qed.

(** ** The electronic patterns *)

Lemma el_long_head s e :
  re_match pat_el_long s = Some e -> exists r, s = String "e" r.
Proof.
  destruct s as [|c r]; [discriminate|].
  destruct (Ascii.eqb_spec "e" c) as [<-|Hne]; [eauto|].
  unfold re_match, pat_el_long, seqs. cbn [foldr rmatch lit Nat.eqb].
  apply Ascii.eqb_neq in Hne. rewrite Hne. discriminate.
Qed.

Lemma energy_patterns_not_e r :
  re_match pat_frac (String "e" r) = None /\
  re_match pat_dec (String "e" r) = None /\
  re_match pat_int (String "e" r) = None.
Proof. repeat split. Qed.

(** A turn on two halves that match ["\Ael\d*(po|so|do)"] raises. *)
Lemma el_long_raises st eh el :
  re_match pat_el_long (high st) = Some eh ->
  re_match pat_el_long (low st) = Some el ->
  loop_cond st = true /\
  loop_body st = raise (AttributeError "_removeprefixes").
Proof.
  intros Hh Hl.
  destruct (el_long_head _ _ Hh) as [rh Eh].
  destruct (el_long_head _ _ Hl) as [rl El].
  split.
  - unfold loop_cond. rewrite Eh, El. reflexivity.
  - destruct (energy_patterns_not_e rh) as (H1 & H2 & H3).
    unfold loop_body, both. rewrite Hh, Hl. rewrite Eh, H1, H2, H3.
    reflexivity.
Qed.

(** ** The descriptor driver *)

Lemma loop_cond_low_empty st : low st = "" -> loop_cond st = false.
Proof. intros H. unfold loop_cond. rewrite H. apply andb_false_r. Qed.

Lemma loop_cond_nonempty st : high st <> "" -> low st <> "" -> loop_cond st = true.
Proof.
  intros Hh Hl. unfold loop_cond, is_empty.
  apply String.eqb_neq in Hh, Hl. rewrite Hh, Hl. reflexivity.
Qed.

(** C1 (the code does not do this).  When, after [n] turns, the lower half
    is used up and the upper half still holds labels, [transition_to_latex]
    raises no [RuntimeError]: the loop ends and the result is what
    [_sort_transitions] makes of the labels read so far, the remaining
    upper labels being dropped. *)
Theorem asymmetric_descriptor_truncated t h l n st :
  halves t h l -> steps n (start h l) st ->
  high st <> "" -> low st = "" ->
  forall fuel,
    transition_to_latex (fuel + n) t
    = Some (_sort_transitions (names st) (high_lvls st) (low_lvls st)).
Proof.
  intros Ht Hs _ Hl fuel.
  rewrite (transition_to_latex_halves _ _ _ _ Ht).
  rewrite (steps_exit _ _ _ Hs (loop_cond_low_empty _ Hl)).
  rewrite bind_ret_l. reflexivity.
Qed.

Lemma asymmetric_descriptor_truncated_witness :
  halves "v0_j1__v0" "v0_j1" "v0" /\
  steps 1 (start "v0_j1" "v0") (State "j1" "" ["v"] ["0"] ["0"]) /\
  transition_to_latex 1 "v0_j1__v0" = Some ([], Return "$\nu=0$ ( $\to$ )").
Proof.
  assert (Hh : halves "v0_j1__v0" "v0_j1" "v0") by (split; reflexivity).
  assert (Hs : steps 1 (start "v0_j1" "v0") (State "j1" "" ["v"] ["0"] ["0"])).
  { eapply steps_turn; [reflexivity|reflexivity|apply steps_done]. }
  split; [exact Hh|]. split; [exact Hs|].
  apply (asymmetric_descriptor_truncated _ _ _ _ _ Hh Hs
           ltac:(discriminate) eq_refl 0).
Defined.

(** C2 (the code does not do this).  When, after [n] turns, both halves
    are non-empty and no pattern matches both of them (in particular when
    neither matches any), [transition_to_latex] raises nothing and
    returns nothing: the loop runs out of every fuel. *)
Theorem unrecognized_remainder_diverges t h l n st :
  halves t h l -> steps n (start h l) st ->
  high st <> "" -> low st <> "" ->
  Forall (fun r => both r st = None) tiers ->
  forall fuel, transition_to_latex fuel t = None.
Proof.
  intros Ht Hs Hh Hl Hn fuel.
  rewrite (transition_to_latex_halves _ _ _ _ Ht).
  rewrite (steps_diverge _ _ _ Hs); [reflexivity|].
  apply unmatched_diverges; auto using loop_cond_nonempty.
Qed.

Lemma unrecognized_remainder_diverges_witness :
  halves "j1_x__j0_y" "j1_x" "j0_y" /\
  steps 1 (start "j1_x" "j0_y") (State "x" "y" ["j"] ["1"] ["0"]) /\
  forall fuel, transition_to_latex fuel "j1_x__j0_y" = None.
Proof.
  assert (Hh : halves "j1_x__j0_y" "j1_x" "j0_y") by (split; reflexivity).
  assert (Hs : steps 1 (start "j1_x" "j0_y")
                 (State "x" "y" ["j"] ["1"] ["0"])).
  { eapply steps_turn; [reflexivity|reflexivity|apply steps_done]. }
  split; [exact Hh|]. split; [exact Hs|].
  apply (unrecognized_remainder_diverges _ _ _ _ _ Hh Hs);
    [discriminate|discriminate|repeat constructor].
Defined.

Example unrecognized_descriptor : forall fuel, transition_to_latex fuel "x__x" = None.
Proof.
  intros fuel.
  rewrite (transition_to_latex_halves fuel "x__x" "x" "x") by (split; reflexivity).
  rewrite unmatched_diverges; [reflexivity|reflexivity|repeat constructor].
Qed.

(** C3 (the code does not do this).  When both halves begin with a token
    of ["\Ael\d*(po|so|do)"], the turn of the loop raises
    [AttributeError]: the branch calls [_removeprefixes] as a method of a
    [str].  Nothing is extracted. *)
Theorem el_long_descriptor_raises t h l n st eh el :
  halves t h l -> steps n (start h l) st ->
  re_match pat_el_long (high st) = Some eh ->
  re_match pat_el_long (low st) = Some el ->
  forall fuel,
    transition_to_latex (fuel + S n) t
    = Some (raise (AttributeError "_removeprefixes")).
Proof.
  intros Ht Hs Hh Hl fuel.
  destruct (el_long_raises _ _ _ Hh Hl) as [Hc Hb].
  rewrite (transition_to_latex_halves _ _ _ _ Ht).
  rewrite (steps_raise _ _ _ _ Hs Hc Hb). reflexivity.
Qed.

Lemma el_long_descriptor_raises_witness :
  halves "elpo__elso" "elpo" "elso" /\
  re_match pat_el_long "elpo" = Some 4 /\
  re_match pat_el_long "elso" = Some 4 /\
  transition_to_latex 1 "elpo__elso"
  = Some ([], Raise (AttributeError "_removeprefixes")).
Proof.
  assert (Hh : halves "elpo__elso" "elpo" "elso") by (split; reflexivity).
  split; [exact Hh|]. split; [reflexivity|]. split; [reflexivity|].
  apply (el_long_descriptor_raises _ _ _ 0 _ 4 4 Hh (steps_done _)
           eq_refl eq_refl 0).
Defined.

(** The short electronic tokens go through [_removeprefixes] proper. *)
Example el_short_descriptor :
  forall fuel,
    transition_to_latex (fuel + 1) "el3p__el3s"
    = Some ([], Return " ($3p$ $\to$ $3s$)").
Proof. intros fuel. apply transition_to_latex_mono. reflexivity. Qed.

(** C9.  The descriptor ["__"] has one separator and two empty halves: the
    loop is not entered, [_sort_transitions] gets three empty lists and
    returns the empty string. *)
Theorem empty_descriptor :
  _sort_transitions [] [] [] = ret "" /\
  forall fuel, transition_to_latex fuel "__" = Some ([], Return "").
Proof.
  split; [reflexivity|]. intros fuel.
  rewrite (transition_to_latex_halves fuel "__" "" "") by (split; reflexivity).
  rewrite while_loop_exit by reflexivity. reflexivity.
Qed.

(** ** The numeric renderer *)

(** C4 (the code does not do this for [.0]).  For a numeral [a], the
    level [a.0] is rendered as twice [a], not as [a]: the numerator [2a]
    is divided by the denominator [1].  The level [a.5] is rendered as
    the fraction of numerator [2a+1] and denominator [2]. *)
Theorem decimal_half_rendering name a :
  numeral a ->
  _transition name (decimal a "0") (decimal a "0")
  = ret (Single (fmt_level (name_latex name) (py_str (2 * dec_value a))),
         false) /\
  _transition name (decimal a "5") (decimal a "5")
  = ret (Single (fmt_level (name_latex name)
                   ("\frac{" +:+ py_str (2 * dec_value a + 1) +:+ "}{2}")),
         false).
Proof.
  intros Ha. split.
  - rewrite transition_decimal_form by (assumption || reflexivity).
    rewrite constant_or_pair_same. reflexivity.
  - rewrite transition_decimal_form by (assumption || reflexivity).
    rewrite constant_or_pair_same. reflexivity.
Qed.

Lemma decimal_half_rendering_witness :
  numeral "3" /\
  _transition "j" "3.0" "3.0" = ([], Return (Single "$J=6$", false)) /\
  _transition "j" "3.5" "3.5" = ([], Return (Single "$J=\frac{7}{2}$", false)).
Proof.
  assert (H : numeral "3") by (split; [reflexivity|discriminate]).
  split; [exact H|]. exact (decimal_half_rendering "j" "3" H).
Defined.

Example decimal_zero_descriptor :
  forall fuel,
    transition_to_latex (fuel + 1) "j3d0__j3d0"
    = Some ([], Return "$J=6$ ( $\to$ )").
Proof. intros fuel. apply transition_to_latex_mono. reflexivity. Qed.

Example decimal_half_descriptor :
  forall fuel,
    transition_to_latex (fuel + 1) "j2d5__j1d5"
    = Some ([], Return " ($J=\frac{5}{2}$ $\to$ $J=\frac{3}{2}$)").
Proof. intros fuel. apply transition_to_latex_mono. reflexivity. Qed.

(** C6.  For numerals [a], [b], [a'], [b'] whose denominators are not
    zero (the condition under which the claim's "divides evenly" has a
    meaning: at a zero denominator the code raises
    [ZeroDivisionError]), [_transition] on the levels [a/b] and [a'/b']
    warns of nothing and raises nothing.  Each level is rendered as the
    specification says: when the denominator divides the numerator, as
    the decimal numeral of the quotient; otherwise as [\frac] of the
    decimal numerals of the numerator and of the denominator, not
    reduced.  The result is one string [$name=rendering$] and [False]
    when the two renderings are the same string, and the pair of the two
    such strings and [True] otherwise. *)
Theorem fraction_rendering name a b a' b' :
  numeral a -> numeral b -> numeral a' -> numeral b' ->
  dec_value b <> 0%Z -> dec_value b' <> 0%Z ->
  let rh := fraction_latex (dec_value a) (dec_value b) in
  let rl := fraction_latex (dec_value a') (dec_value b') in
  _transition name (fraction a b) (fraction a' b')
  = ([], Return
           (if String.eqb rh rl
            then (Single ("$" +:+ name_latex name +:+ "=" +:+ rl +:+ "$"),
                  false)
            else (Pair ("$" +:+ name_latex name +:+ "=" +:+ rh +:+ "$")
                    ("$" +:+ name_latex name +:+ "=" +:+ rl +:+ "$"),
                  true))) /\
  spec_fraction (dec_value a) (dec_value b) rh /\
  spec_fraction (dec_value a') (dec_value b') rl.
Proof.
  intros Ha Hb Ha' Hb' Hd Hd' rh rl.
  pose proof (dec_value_nonneg a (proj1 Ha)).
  pose proof (dec_value_nonneg b (proj1 Hb)).
  pose proof (dec_value_nonneg a' (proj1 Ha')).
  pose proof (dec_value_nonneg b' (proj1 Hb')).
  split; [|split; apply fraction_latex_spec; lia].
  rewrite transition_fraction_form by assumption. reflexivity.
Qed.

Lemma fraction_rendering_witness :
  numeral "4" /\ numeral "2" /\ numeral "3" /\
  dec_value "2" <> 0%Z /\
  _transition "j" "4/2" "3/2"
  = ([], Return (Pair "$J=2$" "$J=\frac{3}{2}$", true)) /\
  _transition "j" "4/2" "4/2" = ([], Return (Single "$J=2$", false)) /\
  _transition "j" "3/2" "3/2"
  = ([], Return (Single "$J=\frac{3}{2}$", false)) /\
  spec_fraction 4 2 "2" /\ spec_fraction 3 2 "\frac{3}{2}".
Proof.
  assert (H4 : numeral "4") by (split; [reflexivity|discriminate]).
  assert (H2 : numeral "2") by (split; [reflexivity|discriminate]).
  assert (H3 : numeral "3") by (split; [reflexivity|discriminate]).
  assert (Hd : dec_value "2" <> 0%Z) by discriminate.
  do 4 (split; [assumption|]).
  pose proof (fraction_rendering "j" "4" "2" "3" "2" H4 H2 H3 H2 Hd Hd)
    as (E1 & S1 & S2).
  pose proof (fraction_rendering "j" "4" "2" "4" "2" H4 H2 H4 H2 Hd Hd)
    as (E2 & _).
  pose proof (fraction_rendering "j" "3" "2" "3" "2" H3 H2 H3 H2 Hd Hd)
    as (E3 & _).
  split; [exact E1|]. split; [exact E2|]. split; [exact E3|].
  split; [exact S1|exact S2].
Defined.

Example fraction_examples :
  _transition "j" "4/2" "4/2" = ([], Return (Single "$J=2$", false)) /\
  _transition "j" "3/2" "3/2" = ([], Return (Single "$J=\frac{3}{2}$", false)) /\
  _transition "j" "4/2" "3/2"
  = ([], Return (Pair "$J=2$" "$J=\frac{3}{2}$", true)).
Proof. repeat split. Qed.




Example unsupported_decimal_descriptor :
  forall fuel,
    transition_to_latex (fuel + 1) "j2d3__j2d3"
    = Some ([(436, float_warning "3"); (443, float_warning "3")],
            Return "$J=2$ ( $\to$ )").
Proof. intros fuel. apply transition_to_latex_mono. reflexivity. Qed.

(** ** The classifier *)

(** C7, as stated, fails: the level [/2], read from the token [j_2], is
    numeric and [int] of its empty numerator raises. *)
Lemma equal_levels_may_raise :
  ~ (exists w s, _transition "j" "/2" "/2" = (w, Return (Single s, false))).
Proof. intros (w & s & H). discriminate H. Qed.

(** C7, amended.  With equal levels [_transition] never returns a pair: it
    returns one string and [False], or raises; it returns on every level
    that is not numeric, on every fraction of two numerals with a
    non-zero denominator and on every decimal with a numeral before the
    point.  [_eltransition] always returns one string and [False]. *)
Theorem equal_levels_constant name v :
  (exists w,
     (exists s, _transition name v v = (w, Return (Single s, false))) \/
     (exists e, _transition name v v = (w, Raise e))) /\
  (renderable v ->
   exists w s, _transition name v v = (w, Return (Single s, false))) /\
  _eltransition v v = (Single (fmt_el v), false).
Proof.
  split; [apply transition_equal_levels|]. split.
  - intros [Hn|[(a & b & -> & Ha & Hb & Hd)|(a & b & -> & Ha & Hb)]].
    + rewrite transition_not_numeric, constant_or_pair_same by assumption.
      unfold ret. eauto.
    + rewrite transition_fraction_form, constant_or_pair_same by assumption.
      unfold ret. eauto.
    + rewrite transition_decimal_form, constant_or_pair_same by assumption.
      eauto.
  - unfold _eltransition. rewrite String.eqb_refl. reflexivity.
Qed.

Lemma equal_levels_constant_witness :
  renderable "3/2" /\
  exists w s, _transition "j" "3/2" "3/2" = (w, Return (Single s, false)).
Proof.
  assert (H : renderable "3/2").
  { right. left. exists "3", "2".
    repeat split; try reflexivity; discriminate. }
  split; [exact H|].
  exact (proj1 (proj2 (equal_levels_constant "j" "3/2")) H).
Defined.

(** ** The assembler, end to end *)

Lemma sort_transitions_layout names high_lvls low_lvls w rs :
  names <> [] ->
  length high_lvls = length names -> length low_lvls = length names ->
  classify_all (zip (zip names high_lvls) low_lvls) = (w, Return rs) ->
  _sort_transitions names high_lvls low_lvls
  = (w, Return (layout (constants rs) (high_sides rs) (low_sides rs))).
Proof.
  intros Hne Hh Hl Hc. unfold _sort_transitions.
  rewrite Hh, Hl, Nat.eqb_refl. simpl orb. cbv iota.
  destruct names as [|name names]; [contradiction|].
  change (length (name :: names) =? 0)%nat with false. cbv iota.
  rewrite (sort_loop_classified _ _ _ _ Hc), bind_return.
  simpl. rewrite app_nil_r. unfold fmt_sorted, layout.
  pose proof (classify_all_well_formed _ _ _ Hc) as Hwf.
  rewrite strip_followed by (apply constants_wrapped, Hwf).
  rewrite !drop_last2_followed. reflexivity.
Qed.

(** C5.  On ["v0_j1__v0_j0"] the loop reads the labels [v] and [j] with
    levels [0], [1] above and [0], [0] below; [v] is classified as a
    constant and [j] as a transition; the result has the constant first
    and the pair in parentheses after it.  In general, when the
    classifications succeed on a non-empty list of labels,
    [_sort_transitions] returns the constants in their order joined by a
    space, then in parentheses the high sides joined by a comma and a
    space, the arrow, and the low sides joined alike. *)
Theorem constants_before_transitions :
  (forall fuel,
     while_loop (fuel + 2) (start "v0_j1" "v0_j0")
     = Some (ret (State "" "" ["v"; "j"] ["0"; "1"] ["0"; "0"]))) /\
  classify "v" "0" "0" = ret (Single "$\nu=0$", false) /\
  classify "j" "1" "0" = ret (Pair "$J=1$" "$J=0$", true) /\
  (forall fuel,
     transition_to_latex (fuel + 2) "v0_j1__v0_j0"
     = Some ([], Return "$\nu=0$ ($J=1$ $\to$ $J=0$)")) /\
  (forall names high_lvls low_lvls w rs,
     names <> [] ->
     length high_lvls = length names -> length low_lvls = length names ->
     classify_all (zip (zip names high_lvls) low_lvls) = (w, Return rs) ->
     _sort_transitions names high_lvls low_lvls
     = (w, Return (layout (constants rs) (high_sides rs) (low_sides rs)))).
Proof.
  split; [intros fuel; apply while_loop_mono; reflexivity|].
  split; [reflexivity|]. split; [reflexivity|].
  split; [intros fuel; apply transition_to_latex_mono; reflexivity|].
  apply sort_transitions_layout.
Qed.

Lemma constants_before_transitions_witness :
  classify_all [("v", "0", "0"); ("j", "1", "0"); ("f", "2", "2")]
  = ([], Return [(Single "$\nu=0$", false); (Pair "$J=1$" "$J=0$", true);
                 (Single "$f=2$", false)]) /\
  _sort_transitions ["v"; "j"; "f"] ["0"; "1"; "2"] ["0"; "0"; "2"]
  = ([], Return "$\nu=0$ $f=2$ ($J=1$ $\to$ $J=0$)").
Proof.
  split; [reflexivity|].
  apply (proj2 (proj2 (proj2 (proj2 constants_before_transitions)))
           ["v"; "j"; "f"] ["0"; "1"; "2"] ["0"; "0"; "2"] []
           [(Single "$\nu=0$", false); (Pair "$J=1$" "$J=0$", true);
            (Single "$f=2$", false)]);
    [discriminate|reflexivity|reflexivity|reflexivity].
Defined.

(** ** [filter_molecules] *)

Lemma normalize_loop_from n : forall i l xs (σ : store),
  σ !! l = Some xs -> i + n = length xs ->
  normalize_loop n i l σ
  = <[l := take i xs ++ (normalized <$> drop i xs)]> σ.
Proof.
  induction n as [|n IH]; intros i l xs σ Hl Hlen; simpl.
  - rewrite take_ge, drop_ge by lia. simpl. rewrite app_nil_r.
    symmetry. apply insert_id, Hl.
  - rewrite Hl.
    destruct (lookup_lt_is_Some_2 xs i ltac:(lia)) as [mol Hmol].
    rewrite Hmol. fold (normalized mol).
    rewrite (IH (S i) l (<[i := normalized mol]> xs)).
    + rewrite insert_insert_eq. f_equal.
      rewrite (take_S_r _ i (normalized mol))
        by (apply list_lookup_insert_eq; lia).
      rewrite take_insert_ge by lia. rewrite drop_insert_lt by lia.
      rewrite (drop_S xs mol i Hmol), fmap_cons, <- app_assoc. reflexivity.
    + apply lookup_insert_eq.
    + rewrite length_insert. lia.
Qed.

(** The loop over [mols] replaces every entry of the list, in place. *)
Lemma normalize_loop_all l xs (σ : store) :
  σ !! l = Some xs ->
  normalize_loop (length xs) 0 l σ = <[l := normalized <$> xs]> σ.
Proof. intros Hl. rewrite (normalize_loop_from _ 0 l xs) by auto. reflexivity. Qed.

Lemma fresh_old (σ : store) l ys : σ !! l = Some ys -> fresh (dom σ) <> l.
Proof.
  intros Hl Heq. apply (is_fresh (dom σ)). rewrite Heq.
  apply elem_of_dom_2 with ys, Hl.
Qed.

(** A new list object leaves the old ones as they are. *)
Lemma alloc_old xs (σ : store) l ys :
  σ !! l = Some ys -> (alloc xs σ).2 !! l = Some ys.
Proof.
  intros Hl. unfold alloc. simpl. rewrite lookup_insert_ne; [exact Hl|].
  eapply fresh_old, Hl.
Qed.

(** After the entries are normalised the store changes by allocation
    only. *)
Lemma filter_molecules_after m xs names (σ1 : store) l ys :
  σ1 !! m = Some xs ->
  <[m := normalized <$> xs]> σ1 !! l = Some ys ->
  (filter_molecules names (MolsList m) σ1).1 !! l = Some ys.
Proof.
  intros Hm Hl. unfold filter_molecules. rewrite Hm.
  rewrite normalize_loop_all by assumption.
  destruct (_ !! names) as [ns|]; [|exact Hl].
  destruct (molecules_of ns) as [w [ms|e]]; [|exact Hl].
  apply alloc_old, Hl.
Qed.

Lemma filter_molecules_str_after s names (σ : store) l ys :
  σ !! l = Some ys ->
  (filter_molecules names (MolsStr s) σ).1 !! l = Some ys.
Proof.
  intros Hl. pose proof (fresh_old σ l ys Hl) as Hne.
  unfold filter_molecules, alloc at 1.
  generalize dependent (fresh (dom σ)). intros m Hne.
  rewrite lookup_insert_eq.
  rewrite (normalize_loop_all m [s]) by apply lookup_insert_eq.
  assert (<[m := normalized <$> [s]]> (<[m := [s]]> σ) !! l = Some ys) as Hl2.
  { rewrite !lookup_insert_ne by assumption. exact Hl. }
  destruct (_ !! names) as [ns|]; [|exact Hl2].
  destruct (molecules_of ns) as [w [ms|e]]; [|exact Hl2].
  apply (alloc_old _ _ _ _ Hl2).
Qed.

(** C10, as stated, fails: when [names] and [mols] are the same list,
    the entries of [names] are rewritten. *)
Lemma names_aliased_modified :
  (filter_molecules 1 (MolsList 1) (one_list ["CO_j1__j0"])).1 !! 1%positive
  <> one_list ["CO_j1__j0"] !! 1%positive.
Proof. vm_compute. discriminate. Qed.

(** C10, amended.  With [mols = None] the call returns the location
    [names] itself and the store as it was.  With a list [mols], at the
    end of the call that list holds the stripped, lower-case form of
    each of its entries, whether the call returns or raises.  Every
    other list of the store, and so [names] unless it is the very list
    [mols], is left as it was. *)
Theorem filter_molecules_effects names mols (σ : store) :
  filter_molecules names MolsNone σ = (σ, ret names) /\
  (forall l xs, mols = MolsList l -> σ !! l = Some xs ->
     (filter_molecules names mols σ).1 !! l = Some (normalized <$> xs)) /\
  (forall l ys, mols <> MolsList l -> σ !! l = Some ys ->
     (filter_molecules names mols σ).1 !! l = Some ys).
Proof.
  split; [reflexivity|]. split.
  - intros l xs -> Hl. apply (filter_molecules_after _ xs); [exact Hl|].
    apply lookup_insert_eq.
  - intros l ys Hne Hl. destruct mols as [|s|m].
    + exact Hl.
    + apply filter_molecules_str_after, Hl.
    + assert (m <> l) as Hml by congruence.
      destruct (σ !! m) as [xs|] eqn:Hm.
      * apply (filter_molecules_after _ xs); [exact Hm|].
        rewrite lookup_insert_ne by assumption. exact Hl.
      * unfold filter_molecules. rewrite Hm. exact Hl.
Qed.

Lemma filter_molecules_effects_witness :
  let σ : store := {[ 1%positive := ["CO_j1__j0"]; 2%positive := [" CO "] ]} in
  σ !! 2%positive = Some [" CO "] /\
  σ !! 1%positive = Some ["CO_j1__j0"] /\
  (filter_molecules 1 (MolsList 2) σ).1 !! 2%positive = Some ["co"] /\
  (filter_molecules 1 (MolsList 2) σ).1 !! 1%positive = Some ["CO_j1__j0"].
Proof.
  intros σ.
  assert (H2 : σ !! 2%positive = Some [" CO "]) by reflexivity.
  assert (H1 : σ !! 1%positive = Some ["CO_j1__j0"]) by reflexivity.
  destruct (filter_molecules_effects 1 (MolsList 2) σ) as (_ & Hin & Hout).
  split; [exact H2|]. split; [exact H1|]. split.
  - exact (Hin 2%positive [" CO "] eq_refl H2).
  - exact (Hout 1%positive ["CO_j1__j0"] ltac:(discriminate) H1).
Defined.

(** ** The matcher *)

Lemma lit_inv p : forall pos s k e,
  lit p pos s k = Some e ->
  exists r, s = p +:+ r /\ k (pos + String.length p) r = Some e.
Proof.
  induction p as [|c p IH]; intros pos s k e H; simpl in H.
  - exists s. rewrite Nat.add_0_r. auto.
  - destruct s as [|d s]; [discriminate|].
    destruct (Ascii.eqb_spec c d) as [<-|]; [|discriminate].
    destruct (IH _ _ _ _ H) as (r & -> & Hk). exists r. split; [reflexivity|].
    rewrite <- Hk. f_equal. simpl. lia.
Qed.

Lemma lit_append p : forall pos r k,
  lit p pos (p +:+ r) k = k (pos + String.length p) r.
Proof.
  induction p as [|c p IH]; intros pos r k; simpl.
  - rewrite Nat.add_0_r. reflexivity.
  - rewrite Ascii.eqb_refl, IH. f_equal. lia.
Qed.

Lemma digits_star_bounds s : forall pos k e,
  digits_star pos s k = Some e ->
  exists pos' s',
    k pos' s' = Some e /\ pos <= pos'
    /\ pos' + String.length s' = pos + String.length s.
Proof.
  induction s as [|c s IH]; intros pos k e H; simpl in H.
  - exists pos, "". auto.
  - destruct (is_digit c).
    + destruct (digits_star (S pos) s k) as [e'|] eqn:Hd.
      * injection H as ->. destruct (IH _ _ _ Hd) as (pos' & s' & Hk & Hle & Hlen).
        exists pos', s'. simpl. split; [assumption|]. lia.
      * exists pos, (String c s). auto.
    + exists pos, (String c s). auto.
Qed.

(** A match ends inside the string, after at least [min_len r]
    characters. *)
Lemma rmatch_bounds r : forall pos s k e,
  rmatch r pos s k = Some e ->
  exists pos' s',
    k pos' s' = Some e /\ pos + min_len r <= pos'
    /\ pos' + String.length s' = pos + String.length s.
Proof.
  induction r as [| |p| |cs|r1 IH1 r2 IH2|r1 IH1 r2 IH2];
    intros pos s k e H; simpl in H.
  - destruct (Nat.eqb pos 0); [|discriminate].
    exists pos, s. simpl. split; [assumption|]. lia.
  - destruct s; [|discriminate]. exists pos, "". simpl.
    split; [assumption|]. lia.
  - destruct (lit_inv _ _ _ _ _ H) as (r & -> & Hk).
    exists (pos + String.length p), r. simpl. rewrite length_append.
    split; [assumption|]. lia.
  - destruct (digits_star_bounds _ _ _ _ H) as (pos' & s' & Hk & Hle & Hlen).
    exists pos', s'. simpl. split; [assumption|]. lia.
  - destruct s as [|c s]; [discriminate|].
    destruct (existsb _ cs); [|discriminate].
    exists (S pos), s. simpl. split; [assumption|]. lia.
  - destruct (rmatch r1 pos s k) as [e'|] eqn:H1.
    + injection H as ->. destruct (IH1 _ _ _ _ H1) as (pos' & s' & Hk & Hle & Hlen).
      exists pos', s'. simpl. split; [assumption|]. lia.
    + destruct (IH2 _ _ _ _ H) as (pos' & s' & Hk & Hle & Hlen).
      exists pos', s'. simpl. split; [assumption|]. lia.
  - destruct (IH1 _ _ _ _ H) as (pos1 & s1 & Hk1 & Hle1 & Hlen1).
    destruct (IH2 _ _ _ _ Hk1) as (pos' & s' & Hk & Hle & Hlen).
    exists pos', s'. simpl. split; [assumption|]. lia.
Qed.

Lemma re_match_bounds r s e :
  re_match r s = Some e -> min_len r <= e <= String.length s.
Proof.
  intros H. destruct (rmatch_bounds _ _ _ _ _ H) as (pos' & s' & Hk & Hle & Hlen).
  injection Hk as ->. lia.
Qed.

(** ** Slices and prefixes *)

Lemma startswith_nil s : startswith s "" = true.
Proof. destruct s; reflexivity. Qed.

Lemma startswith_cons c s d p :
  startswith (String c s) (String d p) = Ascii.eqb d c && startswith s p.
Proof.
  unfold startswith. simpl. destruct (ascii_dec d c) as [->|Hne].
  - rewrite Ascii.eqb_refl. reflexivity.
  - apply Ascii.eqb_neq in Hne. rewrite Hne. reflexivity.
Qed.

Lemma startswith_append p s : startswith (p +:+ s) p = true.
Proof.
  induction p as [|c p IH]; [apply startswith_nil|].
  change (String c p +:+ s) with (String c (p +:+ s)).
  rewrite startswith_cons, Ascii.eqb_refl, IH. reflexivity.
Qed.

Lemma startswith_inv p : forall s,
  startswith s p = true -> exists r, s = p +:+ r.
Proof.
  induction p as [|c p IH]; intros s H; [exists s; reflexivity|].
  destruct s as [|d s]; [discriminate|].
  rewrite startswith_cons in H. apply andb_true_iff in H as [Hc Hs].
  apply Ascii.eqb_eq in Hc as ->. destruct (IH _ Hs) as [r ->].
  exists r. reflexivity.
Qed.

Lemma startswith_slice_to n : forall s, startswith s (slice_to n s) = true.
Proof.
  induction n as [|n IH]; intros [|c s]; cbn [slice_to];
    try apply startswith_nil.
  rewrite startswith_cons, Ascii.eqb_refl, IH. reflexivity.
Qed.

Lemma slice_from_append p s : slice_from (String.length p) (p +:+ s) = s.
Proof. induction p as [|c p IH]; simpl; [destruct s|]; auto. Qed.

Lemma length_slice_to n : forall s,
  n <= String.length s -> String.length (slice_to n s) = n.
Proof.
  induction n as [|n IH]; intros [|c s] H; simpl in *; try lia.
  rewrite IH by lia. reflexivity.
Qed.

Lemma length_slice_from n : forall s,
  String.length (slice_from n s) = String.length s - n.
Proof. induction n as [|n IH]; intros [|c s]; simpl; auto. Qed.

Lemma slice_to_append_ge p s n :
  slice_to (String.length p + n) (p +:+ s) = p +:+ slice_to n s.
Proof.
  induction p as [|c p IH]; simpl; [reflexivity|]. rewrite IH. reflexivity.
Qed.

Lemma remove_one_length s p :
  String.length (if startswith s p then slice_from (String.length p) s else s)
  <= String.length s.
Proof. destruct (startswith s p); [rewrite length_slice_from|]; lia. Qed.

(** Removing first the text that was matched and then one underscore. *)
Lemma removeprefixes_matched s e :
  _removeprefixes s [slice_to e s; "_"]
  = _removeprefixes (slice_from e s) ["_"].
Proof.
  unfold _removeprefixes. simpl. rewrite startswith_slice_to.
  destruct (Nat.le_gt_cases e (String.length s)) as [Hle|Hgt].
  - rewrite length_slice_to by assumption. reflexivity.
  - assert (Hall : forall n t, String.length t <= n -> slice_to n t = t).
    { induction n as [|n IH]; intros [|c t] H; simpl in *; try reflexivity;
        try lia. rewrite IH by lia. reflexivity. }
    assert (Hnone : forall n t, String.length t <= n -> slice_from n t = "").
    { induction n as [|n IH]; intros [|c t] H; simpl in *; try reflexivity;
        try lia. apply IH. lia. }
    rewrite Hall by lia. rewrite !Hnone by lia. reflexivity.
Qed.

Lemma removeprefixes_matched_length s e :
  e <= String.length s ->
  String.length (_removeprefixes s [slice_to e s; "_"]) + e
  <= String.length s.
Proof.
  intros He. rewrite removeprefixes_matched. unfold _removeprefixes.
  cbn [fold_left].
  pose proof (remove_one_length (slice_from e s) "_") as H.
  rewrite length_slice_from in H. lia.
Qed.

(** ** [split] and [count] *)

Lemma split_go_length sep s : forall skip cur,
  length (split_go sep skip cur s) = S (count_go sep skip s).
Proof.
  induction s as [|c s IH]; intros skip cur; cbn [split_go count_go];
    [reflexivity|].
  destruct skip; [|apply IH].
  destruct (startswith (String c s) sep); cbn [List.length]; rewrite IH;
    reflexivity.
Qed.

Lemma concat_cons_nonempty sep x (l : list string) :
  l <> [] -> String.concat sep (x :: l) = x +:+ sep +:+ String.concat sep l.
Proof. destruct l; [congruence|reflexivity]. Qed.

Lemma split_go_nonempty sep s skip cur : split_go sep skip cur s <> [].
Proof.
  intros H. apply (f_equal length) in H. rewrite split_go_length in H.
  discriminate.
Qed.

Lemma split_go_join sep s : forall skip cur,
  sep <> "" ->
  String.concat sep (split_go sep skip cur s) = cur +:+ slice_from skip s.
Proof.
  induction s as [|c s IH]; intros skip cur Hsep.
  - destruct skip; simpl; rewrite append_nil_r; reflexivity.
  - destruct skip as [|k]; [|simpl; apply IH, Hsep].
    rewrite split_go_cons. simpl slice_from.
    destruct (startswith (String c s) sep) eqn:Hp.
    + rewrite concat_cons_nonempty by apply split_go_nonempty.
      rewrite IH by assumption. simpl.
      destruct (startswith_inv _ _ Hp) as [r Hr].
      destruct sep as [|d sep]; [congruence|].
      simpl in Hr. injection Hr as <- ->.
      simpl. rewrite Nat.sub_0_r, slice_from_append. reflexivity.
    + rewrite IH by assumption. simpl. rewrite append_snoc. reflexivity.
Qed.

(** Joining the pieces of a split gives the string back. *)
Lemma str_split_join s sep :
  sep <> "" -> String.concat sep (str_split s sep) = s.
Proof. intros H. unfold str_split. rewrite split_go_join by assumption. reflexivity. Qed.

Lemma str_split_length s sep : length (str_split s sep) = S (str_count s sep).
Proof. apply split_go_length. Qed.

Lemma one_separator t :
  str_count t "__" = 1 ->
  exists h l, halves t h l /\ t = h +:+ "__" +:+ l.
Proof.
  intros Hc. pose proof (str_split_length t "__") as Hl.
  pose proof (str_split_join t "__" ltac:(discriminate)) as Hj.
  rewrite Hc in Hl.
  destruct (str_split t "__") as [|h [|l [|x xs]]] eqn:Hs; try discriminate.
  exists h, l. split; [split; assumption|]. symmetry. exact Hj.
Qed.

(** ** What a turn of the loop does to the state *)

Lemma both_inv r st ends :
  both r st = Some ends ->
  re_match r (high st) = Some ends.1 /\ re_match r (low st) = Some ends.2.
Proof.
  unfold both. destruct (re_match r (high st)), (re_match r (low st));
    intros [= <-]; auto.
Qed.

Lemma group_Return r s w x : group r s = (w, Return x) -> w = [].
Proof. unfold group. destruct (re_match r s); intros [= <- _]; reflexivity. Qed.

Lemma energy_branch_Return conv st ends w st' :
  energy_branch conv st ends = (w, Return st') ->
  w = [] /\ consumed st st' ends /\ accumulated st st'.
Proof.
  unfold energy_branch. intros H. do 2 bind_inv H.
  apply group_Return in Hm, Hm0. subst.
  destruct (negb _); [discriminate|]. injection H as <- <-.
  split; [reflexivity|]. split; [split; reflexivity|].
  right. eauto 6.
Qed.

Lemma loop_body_Return st w st' :
  loop_body st = (w, Return st') ->
  w = [] /\
  (st' = st \/
   exists r ends,
     In r tiers /\ both r st = Some ends /\ consumed st st' ends
     /\ accumulated st st').
Proof.
  unfold loop_body. intros H.
  destruct (both pat_frac st) as [ends|] eqn:H1.
  { apply energy_branch_Return in H as (-> & Hc & Ha).
    split; [reflexivity|]. right. exists pat_frac, ends.
    split; [simpl; tauto|]. auto. }
  destruct (both pat_dec st) as [ends|] eqn:H2.
  { apply energy_branch_Return in H as (-> & Hc & Ha).
    split; [reflexivity|]. right. exists pat_dec, ends.
    split; [simpl; tauto|]. auto. }
  destruct (both pat_int st) as [ends|] eqn:H3.
  { apply energy_branch_Return in H as (-> & Hc & Ha).
    split; [reflexivity|]. right. exists pat_int, ends.
    split; [simpl; tauto|]. auto. }
  destruct (both pat_el_long st) as [ends|] eqn:H4; [discriminate|].
  destruct (both pat_el_short st) as [ends|] eqn:H5.
  { injection H as <- <-. split; [reflexivity|]. right.
    exists pat_el_short, ends.
    split; [simpl; tauto|]. split; [assumption|].
    split; [split; reflexivity|]. right. eauto 6. }
  destruct (both pat_fif st) as [ends|] eqn:H6.
  { injection H as <- <-. split; [reflexivity|]. right.
    exists pat_fif, ends.
    split; [simpl; tauto|]. split; [assumption|].
    split; [split; reflexivity|]. left. auto. }
  destruct (_ || _); [discriminate|]. injection H as <- <-. auto.
Qed.

Lemma tiers_min_len r : In r tiers -> 1 <= min_len r.
Proof.
  intros H. repeat (destruct H as [<-|H]; [vm_compute; lia|]). destruct H.
Qed.

(** A turn that changes the state shortens both halves. *)
Lemma loop_body_shorter st w st' :
  loop_body st = (w, Return st') ->
  w = [] /\
  (st' = st \/
   (String.length (high st') < String.length (high st) /\
    String.length (low st') < String.length (low st))).
Proof.
  intros H. apply loop_body_Return in H as (-> & [->|H]); [auto|].
  destruct H as (r & ends & Hr & Hb & [Hh Hl] & _).
  split; [reflexivity|]. right.
  apply both_inv in Hb as [Bh Bl].
  apply re_match_bounds in Bh, Bl. apply tiers_min_len in Hr.
  pose proof (removeprefixes_matched_length (high st) ends.1 ltac:(lia)).
  pose proof (removeprefixes_matched_length (low st) ends.2 ltac:(lia)).
  rewrite Hh, Hl. lia.
Qed.

Lemma loop_ends_or_never_bounded n : forall st,
  String.length (high st) <= n ->
  (exists m, forall k, while_loop (k + n) st = Some m) \/
  (forall fuel, while_loop fuel st = None).
Proof.
  induction n as [|n IH]; intros st Hlen.
  - left. exists (ret st). intros k. apply while_loop_exit.
    unfold loop_cond. destruct (high st); [reflexivity|simpl in Hlen; lia].
  - destruct (loop_cond st) eqn:Hc.
    2:{ left. exists (ret st). intros k. apply while_loop_exit, Hc. }
    destruct (loop_body st) as [w [st'|e]] eqn:Hb.
    2:{ left. exists (w, Raise e). intros k.
        replace (k + S n) with (S (k + n)) by lia.
        rewrite while_loop_step, Hb by assumption. reflexivity. }
    destruct (loop_body_shorter _ _ _ Hb) as (-> & [->|[Hh _]]).
    { right. apply stuck_diverges; assumption. }
    destruct (IH st' ltac:(lia)) as [[[w' o] Hm]|Hd].
    + left. exists (w', o). intros k.
      replace (k + S n) with (S (k + n)) by lia.
      rewrite while_loop_step, Hb, Hm by assumption. reflexivity.
    + right. intros [|fuel].
      * simpl. rewrite Hc. reflexivity.
      * rewrite while_loop_step, Hb, Hd by assumption. reflexivity.
Qed.

Lemma while_loop_keeps fuel : forall st w st',
  while_loop fuel st = Some (w, Return st') ->
  length (high_lvls st) = length (names st) ->
  length (low_lvls st) = length (names st) ->
  w = [] /\ loop_cond st' = false /\
  length (high_lvls st') = length (names st') /\
  length (low_lvls st') = length (names st').
Proof.
  induction fuel as [|fuel IH]; intros st w st' H Hh Hl.
  - simpl in H. destruct (loop_cond st) eqn:Hc; [discriminate|].
    injection H as <- <-. auto.
  - destruct (loop_cond st) eqn:Hc.
    2:{ rewrite while_loop_exit in H by assumption.
        injection H as <- <-. auto. }
    rewrite while_loop_step in H by assumption.
    destruct (loop_body st) as [w1 [st1|e]] eqn:Hb; [|discriminate].
    destruct (while_loop fuel st1) as [[w2 o]|] eqn:Hw; [|discriminate].
    injection H as <- ->.
    apply loop_body_Return in Hb as (-> & Hcase).
    assert (length (high_lvls st1) = length (names st1) /\
            length (low_lvls st1) = length (names st1)) as [Hh1 Hl1].
    { destruct Hcase as [->|(r & ends & _ & _ & _ & Ha)]; [auto|].
      destruct Ha as [(-> & -> & ->)|(n & vh & vl & -> & -> & ->)]; [auto|].
      rewrite !length_app. simpl. lia. }
    destruct (IH _ _ _ Hw Hh1 Hl1) as (-> & ? & ? & ?). auto.
Qed.

(** ** The patterns on tokens *)

Lemma energy_match n x pos k :
  In n energy_names ->
  rmatch energy pos (n +:+ x) k = k (pos + String.length n) x.
Proof.
  intros H. unfold energy_names in H.
  repeat (destruct H as [<-|H];
          [unfold energy, alts; cbn [fold_left rmatch lit String.append];
           rewrite Nat.add_comm; simpl; destruct (k _ x); reflexivity|]).
  destruct H.
Qed.

Lemma energy_names_plain n :
  In n energy_names ->
  contains "_" n = false /\ String.eqb n "el" = false /\ lower n = n.
Proof.
  intros H. repeat (destruct H as [<-|H]; [repeat split|]). destruct H.
Qed.

Lemma digits_star_stop r pos k :
  no_digit_head r = true -> digits_star pos r k = k pos r.
Proof.
  destruct r as [|c r]; [reflexivity|]. simpl. intros H.
  apply negb_true_iff in H. rewrite H. reflexivity.
Qed.

(** [\d*] on digits followed by something else: the continuation is
    tried after all the digits first ... *)
Lemma digits_star_max d : forall r pos k e,
  all_digits d = true -> no_digit_head r = true ->
  k (pos + String.length d) r = Some e ->
  digits_star pos (d +:+ r) k = Some e.
Proof.
  induction d as [|c d IH]; intros r pos k e Hd Hr Hk.
  - simpl in *. rewrite Nat.add_0_r in Hk.
    rewrite digits_star_stop by assumption. exact Hk.
  - simpl in Hd. apply andb_true_iff in Hd as [Hc Hd].
    cbn [String.append digits_star]. rewrite Hc.
    rewrite (IH r (S pos) k e); [reflexivity|assumption..|].
    rewrite <- Hk. f_equal. simpl. lia.
Qed.

(** ... and fails when it fails there and on every digit. *)
Lemma digits_star_none d : forall r pos k,
  all_digits d = true -> no_digit_head r = true ->
  (forall pos', k pos' r = None) ->
  (forall pos' c s, is_digit c = true -> k pos' (String c s) = None) ->
  digits_star pos (d +:+ r) k = None.
Proof.
  induction d as [|c d IH]; intros r pos k Hd Hr Hk Hb.
  - simpl. rewrite digits_star_stop by assumption. apply Hk.
  - simpl in Hd. apply andb_true_iff in Hd as [Hc Hd].
    cbn [String.append digits_star]. rewrite Hc.
    rewrite IH by assumption. apply Hb, Hc.
Qed.

Lemma lit_digit_none p pos c s k :
  p <> "" -> no_digit_head p = true -> is_digit c = true ->
  lit p pos (String c s) k = None.
Proof.
  destruct p as [|d p]; [congruence|]. simpl. intros _ Hd Hc.
  destruct (Ascii.eqb_spec d c) as [->|]; [|reflexivity].
  rewrite Hc in Hd. discriminate.
Qed.

Lemma lit_none p : forall pos s k,
  startswith s p = false -> lit p pos s k = None.
Proof.
  induction p as [|c p IH]; intros pos s k H.
  - rewrite startswith_nil in H. discriminate.
  - destruct s as [|d s]; [reflexivity|]. simpl.
    rewrite startswith_cons in H.
    destruct (Ascii.eqb c d); [|reflexivity]. apply IH. exact H.
Qed.

Lemma pat_int_match n d r :
  In n energy_names -> all_digits d = true -> no_digit_head r = true ->
  re_match pat_int (n +:+ d +:+ r) = Some (String.length n + String.length d).
Proof.
  intros Hn Hd Hr. unfold re_match, pat_int, seqs. cbn [foldr rmatch Nat.eqb].
  rewrite energy_match by assumption.
  apply digits_star_max; try assumption. reflexivity.
Qed.

Lemma pat_frac_match n d r :
  In n energy_names -> all_digits d = true ->
  re_match pat_frac (n +:+ d +:+ "_2" +:+ r)
  = Some (String.length n + String.length d + 2).
Proof.
  intros Hn Hd. unfold re_match, pat_frac, seqs. cbn [foldr rmatch Nat.eqb].
  rewrite energy_match by assumption.
  apply digits_star_max; try assumption; [reflexivity|].
  rewrite lit_append. simpl. f_equal; lia.
Qed.

Lemma pat_frac_none n d r :
  In n energy_names -> all_digits d = true -> no_digit_head r = true ->
  startswith r "_2" = false ->
  re_match pat_frac (n +:+ d +:+ r) = None.
Proof.
  intros Hn Hd Hr Hs. unfold re_match, pat_frac, seqs.
  cbn [foldr rmatch Nat.eqb]. rewrite energy_match by assumption.
  apply digits_star_none; try assumption.
  - intros pos'. apply lit_none, Hs.
  - intros pos' c s Hc. apply lit_digit_none; [discriminate|reflexivity|exact Hc].
Qed.

Lemma pat_dec_match n d f r :
  In n energy_names -> all_digits d = true -> all_digits f = true ->
  no_digit_head r = true ->
  re_match pat_dec (n +:+ d +:+ "d" +:+ f +:+ r)
  = Some (String.length n + String.length d + 1 + String.length f).
Proof.
  intros Hn Hd Hf Hr. unfold re_match, pat_dec, seqs.
  cbn [foldr rmatch Nat.eqb]. rewrite energy_match by assumption.
  apply digits_star_max; try assumption; [reflexivity|].
  change ("d" +:+ f +:+ r) with (String "d" (f +:+ r)).
  cbn [lit]. rewrite Ascii.eqb_refl.
  apply digits_star_max; try assumption. simpl. f_equal; lia.
Qed.

Lemma pat_dec_none n d r :
  In n energy_names -> all_digits d = true -> no_digit_head r = true ->
  startswith r "d" = false ->
  re_match pat_dec (n +:+ d +:+ r) = None.
Proof.
  intros Hn Hd Hr Hs. unfold re_match, pat_dec, seqs.
  cbn [foldr rmatch Nat.eqb]. rewrite energy_match by assumption.
  apply digits_star_none; try assumption.
  - intros pos'. apply lit_none, Hs.
  - intros pos' c s Hc. apply lit_digit_none; [discriminate|reflexivity|exact Hc].
Qed.

Lemma pat_name_match n x :
  In n energy_names -> re_match pat_name (n +:+ x) = Some (String.length n).
Proof.
  intros Hn. unfold re_match, pat_name, seqs. cbn [foldr rmatch Nat.eqb].
  rewrite energy_match by assumption. reflexivity.
Qed.

Lemma group_name n x : In n energy_names -> group pat_name (n +:+ x) = ret n.
Proof.
  intros Hn. unfold group. rewrite pat_name_match by assumption.
  rewrite <- (Nat.add_0_r (String.length n)), slice_to_append_ge.
  destruct x; simpl; rewrite append_nil_r; reflexivity.
Qed.

Lemma removeprefixes_one p s : _removeprefixes (p +:+ s) [p] = s.
Proof.
  unfold _removeprefixes. simpl. rewrite startswith_append.
  apply slice_from_append.
Qed.

Lemma removeprefixes_token p s :
  _removeprefixes (p +:+ s) [p; "_"] = _removeprefixes s ["_"].
Proof.
  unfold _removeprefixes. simpl. rewrite startswith_append, slice_from_append.
  reflexivity.
Qed.

Lemma slice_to_exact p s : slice_to (String.length p) (p +:+ s) = p.
Proof.
  rewrite <- (Nat.add_0_r (String.length p)), slice_to_append_ge.
  destruct s; simpl; apply append_nil_r.
Qed.

(** The branch of an energy pattern on two tokens of the same name [n],
    [th] and [tl] being what follows the name in each token. *)
Lemma energy_branch_token conv st n th tl rh rl :
  In n energy_names ->
  high st = n +:+ th +:+ rh -> low st = n +:+ tl +:+ rl ->
  energy_branch conv st
    (String.length n + String.length th, String.length n + String.length tl)
  = ret {| high := _removeprefixes rh ["_"];
           low := _removeprefixes rl ["_"];
           names := names st ++ [n];
           high_lvls := high_lvls st ++ [conv th];
           low_lvls := low_lvls st ++ [conv tl] |}.
Proof.
  intros Hn Hh Hl. unfold energy_branch. simpl fst. simpl snd.
  rewrite Hh, Hl, <- !length_append, <- !append_assoc, !slice_to_exact.
  rewrite !group_name, !bind_ret_l by assumption.
  rewrite String.eqb_refl. simpl negb. cbv iota.
  rewrite !removeprefixes_token, !removeprefixes_one. reflexivity.
Qed.

(** ** Turns of the loop on tokens *)

Lemma both_eq r st eh el :
  re_match r (high st) = Some eh -> re_match r (low st) = Some el ->
  both r st = Some (eh, el).
Proof. intros Hh Hl. unfold both. rewrite Hh, Hl. reflexivity. Qed.

Lemma both_none_high r st : re_match r (high st) = None -> both r st = None.
Proof. intros Hh. unfold both. rewrite Hh. reflexivity. Qed.

Lemma replace_append a b s t :
  replace a b (s +:+ t) = replace a b s +:+ replace a b t.
Proof. induction s as [|c s IH]; simpl; [|rewrite IH]; reflexivity. Qed.

Lemma replace_digits a b s :
  is_digit a = false -> all_digits s = true -> replace a b s = s.
Proof.
  intros Ha. induction s as [|c s IH]; simpl; [reflexivity|].
  intros [Hc Hs]%andb_true_iff. rewrite IH by assumption.
  destruct (Ascii.eqb_spec c a) as [->|]; [congruence|reflexivity].
Qed.

Lemma integer_turn st n dh dl rh rl :
  In n energy_names ->
  all_digits dh = true -> all_digits dl = true ->
  level_end rh -> level_end rl ->
  high st = n +:+ dh +:+ rh -> low st = n +:+ dl +:+ rl ->
  loop_body st
  = ret {| high := _removeprefixes rh ["_"];
           low := _removeprefixes rl ["_"];
           names := names st ++ [n];
           high_lvls := high_lvls st ++ [dh];
           low_lvls := low_lvls st ++ [dl] |}.
Proof.
  intros Hn Hdh Hdl (Hh1 & Hh2 & Hh3) (Hl1 & Hl2 & Hl3) Hh Hl.
  unfold loop_body.
  rewrite (both_none_high pat_frac)
    by (rewrite Hh; apply pat_frac_none; assumption).
  rewrite (both_none_high pat_dec)
    by (rewrite Hh; apply pat_dec_none; assumption).
  rewrite (both_eq pat_int st (String.length n + String.length dh)
             (String.length n + String.length dl))
    by (rewrite ?Hh, ?Hl; apply pat_int_match; assumption).
  apply (energy_branch_token id); assumption.
Qed.

(** A turn of the loop on two tokens of the fraction form, the same
    name [n] followed by digits and [_2], whatever comes after: the name
    is appended to [names], the levels [dh/2] and [dl/2] to the two lists
    of levels, and each half loses its token and one underscore after
    it.  The levels read by this pattern always have denominator 2. *)
Lemma fraction_turn st n dh dl rh rl :
  In n energy_names ->
  all_digits dh = true -> all_digits dl = true ->
  high st = n +:+ dh +:+ "_2" +:+ rh -> low st = n +:+ dl +:+ "_2" +:+ rl ->
  loop_body st
  = ret {| high := _removeprefixes rh ["_"];
           low := _removeprefixes rl ["_"];
           names := names st ++ [n];
           high_lvls := high_lvls st ++ [fraction dh "2"];
           low_lvls := low_lvls st ++ [fraction dl "2"] |}.
Proof.
  intros Hn Hdh Hdl Hh Hl. unfold loop_body.
  rewrite (both_eq pat_frac st (String.length n + String.length dh + 2)
             (String.length n + String.length dl + 2))
    by (rewrite ?Hh, ?Hl; apply pat_frac_match; assumption).
  pose proof (energy_branch_token (replace "_" "/") st n
                (dh +:+ "_2") (dl +:+ "_2") rh rl Hn) as H.
  rewrite !length_append, !replace_append, !Nat.add_assoc in H.
  rewrite (replace_digits "_" "/" dh), (replace_digits "_" "/" dl) in H
    by (assumption || reflexivity).
  rewrite !append_assoc in H. apply H; assumption.
Qed.

(** A turn of the loop on two tokens of the decimal form, the same
    name [n] followed by digits, [d] and digits, with no digit after
    them: the name is appended to [names], the levels [dh.fh] and
    [dl.fl] to the two lists of levels, and each half loses its token
    and one underscore after it. *)
Lemma decimal_turn st n dh fh dl fl rh rl :
  In n energy_names ->
  all_digits dh = true -> all_digits fh = true ->
  all_digits dl = true -> all_digits fl = true ->
  no_digit_head rh = true -> no_digit_head rl = true ->
  high st = n +:+ dh +:+ "d" +:+ fh +:+ rh ->
  low st = n +:+ dl +:+ "d" +:+ fl +:+ rl ->
  loop_body st
  = ret {| high := _removeprefixes rh ["_"];
           low := _removeprefixes rl ["_"];
           names := names st ++ [n];
           high_lvls := high_lvls st ++ [decimal dh fh];
           low_lvls := low_lvls st ++ [decimal dl fl] |}.
Proof.
  intros Hn Hdh Hfh Hdl Hfl Hrh Hrl Hh Hl. unfold loop_body.
  rewrite (both_none_high pat_frac)
    by (rewrite Hh; apply pat_frac_none; auto).
  rewrite (both_eq pat_dec st
             (String.length n + String.length dh + 1 + String.length fh)
             (String.length n + String.length dl + 1 + String.length fl))
    by (rewrite ?Hh, ?Hl; apply pat_dec_match; assumption).
  pose proof (energy_branch_token (replace "d" ".") st n
                (dh +:+ "d" +:+ fh) (dl +:+ "d" +:+ fl) rh rl Hn) as H.
  rewrite !length_append, !replace_append, !Nat.add_assoc in H.
  rewrite (replace_digits "d" "." dh), (replace_digits "d" "." dl),
    (replace_digits "d" "." fh), (replace_digits "d" "." fl) in H
    by (assumption || reflexivity).
  rewrite !append_assoc in H. apply H; assumption.
Qed.

(** The bound of a match of an energy pattern. *)
Lemma energy_pattern_bound rest n x e :
  In n energy_names ->
  re_match (Seq Bos (Seq energy rest)) (n +:+ x) = Some e ->
  String.length n <= e.
Proof.
  intros Hn H. unfold re_match in H. cbn [rmatch Nat.eqb] in H.
  rewrite energy_match in H by assumption.
  destruct (rmatch_bounds _ _ _ _ _ H) as (pos' & s' & Hk & Hle & _).
  injection Hk as ->. lia.
Qed.

Lemma energy_branch_mismatch conv st nh nl xh xl eh el :
  In nh energy_names -> In nl energy_names -> nh <> nl ->
  high st = nh +:+ xh -> low st = nl +:+ xl ->
  String.length nh <= eh -> String.length nl <= el ->
  energy_branch conv st (eh, el) = raise (ValueError order_msg).
Proof.
  intros Hnh Hnl Hne Hh Hl Heh Hel. unfold energy_branch. simpl fst. simpl snd.
  rewrite Hh, Hl.
  replace eh with (String.length nh + (eh - String.length nh)) by lia.
  replace el with (String.length nl + (el - String.length nl)) by lia.
  rewrite !slice_to_append_ge, !group_name, !bind_ret_l by assumption.
  apply String.eqb_neq in Hne. rewrite Hne. reflexivity.
Qed.

Lemma digits_star_some s : forall pos k,
  (forall p s', exists e, k p s' = Some e) ->
  exists e, digits_star pos s k = Some e.
Proof.
  induction s as [|c s IH]; intros pos k Hk; simpl; [apply Hk|].
  destruct (is_digit c); [|apply Hk].
  destruct (IH (S pos) k Hk) as [e ->]. eauto.
Qed.

Lemma pat_int_some n x :
  In n energy_names -> exists e, re_match pat_int (n +:+ x) = Some e.
Proof.
  intros Hn. unfold re_match, pat_int, seqs. cbn [foldr rmatch Nat.eqb].
  rewrite energy_match by assumption. apply digits_star_some.
  intros p s'. simpl. eauto.
Qed.

Lemma name_mismatch_turn st nh nl xh xl :
  In nh energy_names -> In nl energy_names -> nh <> nl ->
  high st = nh +:+ xh -> low st = nl +:+ xl ->
  loop_body st = raise (ValueError order_msg).
Proof.
  intros Hnh Hnl Hne Hh Hl. unfold loop_body.
  assert (Hbr : forall conv rest ends,
            both (Seq Bos (Seq energy rest)) st = Some ends ->
            energy_branch conv st ends = raise (ValueError order_msg)).
  { intros conv rest [eh el] Hb. apply both_inv in Hb as [Bh Bl].
    rewrite Hh in Bh. rewrite Hl in Bl.
    apply energy_pattern_bound in Bh, Bl; try assumption.
    apply (energy_branch_mismatch conv st nh nl xh xl); assumption. }
  destruct (both pat_frac st) as [ends|] eqn:H1; [eapply Hbr, H1|].
  destruct (both pat_dec st) as [ends|] eqn:H2; [eapply Hbr, H2|].
  destruct (pat_int_some nh xh Hnh) as [eh Bh].
  destruct (pat_int_some nl xl Hnl) as [el Bl].
  rewrite (both_eq pat_int st eh el) by (rewrite ?Hh, ?Hl; assumption).
  apply (Hbr id (Seq Digits (Lit ""))).
  apply (both_eq pat_int); rewrite ?Hh, ?Hl; assumption.
Qed.

Lemma marker_patterns p y :
  In p markers ->
  re_match pat_frac (p +:+ y) = None /\ re_match pat_dec (p +:+ y) = None /\
  re_match pat_int (p +:+ y) = None /\ re_match pat_el_long (p +:+ y) = None /\
  re_match pat_el_short (p +:+ y) = None.
Proof.
  intros H. repeat (destruct H as [<-|H]; [repeat split|]). destruct H.
Qed.

Lemma pat_fif_match p d r :
  In p markers -> all_digits d = true -> no_digit_head r = true ->
  re_match pat_fif (p +:+ "_fif" +:+ d +:+ r)
  = Some (String.length (p +:+ "_fif" +:+ d)).
Proof.
  intros Hp Hd Hr. unfold re_match, pat_fif, seqs. cbn [foldr rmatch Nat.eqb].
  assert (Hk : forall k, rmatch (alts ["pp"; "pm"]) 0 (p +:+ "_fif" +:+ d +:+ r) k
                         = k 2 ("_fif" +:+ d +:+ r)).
  { intros k. repeat (destruct Hp as [<-|Hp];
      [simpl; destruct (k 2 _); reflexivity|]). destruct Hp. }
  rewrite Hk, lit_append.
  apply digits_star_max; try assumption.
  rewrite !length_append. simpl.
  repeat (destruct Hp as [<-|Hp]; [simpl; f_equal; lia|]). destruct Hp.
Qed.

(** A turn of the loop on two hyperfine markers, [pp] or [pm]
    followed by [_fif] and digits, not necessarily the same marker on
    both sides: each half loses its marker and one underscore after it,
    and the three accumulators are left as they were. *)
Lemma marker_turn st ph pl dh dl rh rl :
  In ph markers -> In pl markers ->
  all_digits dh = true -> all_digits dl = true ->
  no_digit_head rh = true -> no_digit_head rl = true ->
  high st = ph +:+ "_fif" +:+ dh +:+ rh ->
  low st = pl +:+ "_fif" +:+ dl +:+ rl ->
  loop_body st
  = ret {| high := _removeprefixes rh ["_"];
           low := _removeprefixes rl ["_"];
           names := names st;
           high_lvls := high_lvls st;
           low_lvls := low_lvls st |}.
Proof.
  intros Hph Hpl Hdh Hdl Hrh Hrl Hh Hl. unfold loop_body.
  destruct (marker_patterns ph ("_fif" +:+ dh +:+ rh) Hph)
    as (H1 & H2 & H3 & H4 & H5).
  rewrite <- Hh in H1, H2, H3, H4, H5.
  rewrite !both_none_high by assumption.
  rewrite (both_eq pat_fif st (String.length (ph +:+ "_fif" +:+ dh))
             (String.length (pl +:+ "_fif" +:+ dl)))
    by (rewrite ?Hh, ?Hl; apply pat_fif_match; assumption).
  unfold fif_branch. simpl fst. simpl snd. rewrite Hh, Hl.
  replace (ph +:+ "_fif" +:+ dh +:+ rh) with ((ph +:+ "_fif" +:+ dh) +:+ rh)
    by (rewrite !append_assoc; reflexivity).
  replace (pl +:+ "_fif" +:+ dl +:+ rl) with ((pl +:+ "_fif" +:+ dl) +:+ rl)
    by (rewrite !append_assoc; reflexivity).
  rewrite !slice_to_exact, !removeprefixes_token. reflexivity.
Qed.

Lemma el_suffix_head c r : In c el_suffixes -> no_digit_head (c +:+ r) = true.
Proof. intros H. repeat (destruct H as [<-|H]; [reflexivity|]). destruct H. Qed.

Lemma pat_el_short_match c d r :
  In c el_suffixes -> all_digits d = true ->
  re_match pat_el_short ("el" +:+ d +:+ c +:+ r)
  = Some (String.length ("el" +:+ d +:+ c)).
Proof.
  intros Hc Hd. unfold re_match, pat_el_short, seqs.
  cbn [foldr rmatch Nat.eqb]. rewrite lit_append.
  apply digits_star_max; [assumption|apply el_suffix_head, Hc|].
  rewrite !length_append.
  repeat (destruct Hc as [<-|Hc]; [simpl; f_equal; lia|]). destruct Hc.
Qed.

Lemma lit_cons c p pos d s k :
  lit (String c p) pos (String d s) k
  = if Ascii.eqb c d then lit p (S pos) s k else None.
Proof. reflexivity. Qed.

Ltac eval_eqb :=
  repeat match goal with
  | |- context [Ascii.eqb ?a ?b] =>
      let v := eval vm_compute in (Ascii.eqb a b) in
      change (Ascii.eqb a b) with v
  end; cbv iota.

Lemma pat_el_long_none c d r :
  In c el_suffixes -> all_digits d = true -> startswith r "o" = false ->
  re_match pat_el_long ("el" +:+ d +:+ c +:+ r) = None.
Proof.
  intros Hc Hd Hr. unfold re_match, pat_el_long, seqs.
  cbn [foldr rmatch Nat.eqb]. rewrite lit_append.
  apply digits_star_none; [assumption|apply el_suffix_head, Hc| |].
  - intros pos'. unfold alts. cbn [fold_left rmatch].
    repeat (destruct Hc as [<-|Hc];
      [cbn [String.append]; rewrite !lit_cons; eval_eqb;
       rewrite ?lit_none by exact Hr; reflexivity|]).
    destruct Hc.
  - intros pos' a s Ha. unfold alts. cbn [fold_left rmatch].
    rewrite !lit_digit_none by (discriminate || reflexivity || exact Ha).
    reflexivity.
Qed.

(** A turn of the loop on two electronic tokens of the short form,
    [el] followed by digits and one of [p], [s], [d], the upper one not
    followed by [o]: ["el"] is appended to [names], the tokens without
    their [el] to the two lists of levels, and each half loses its token
    and one underscore after it. *)
Lemma el_short_turn st ch cl dh dl rh rl :
  In ch el_suffixes -> In cl el_suffixes ->
  all_digits dh = true -> all_digits dl = true ->
  startswith rh "o" = false ->
  high st = "el" +:+ dh +:+ ch +:+ rh -> low st = "el" +:+ dl +:+ cl +:+ rl ->
  loop_body st
  = ret {| high := _removeprefixes rh ["_"];
           low := _removeprefixes rl ["_"];
           names := names st ++ ["el"];
           high_lvls := high_lvls st ++ [dh +:+ ch];
           low_lvls := low_lvls st ++ [dl +:+ cl] |}.
Proof.
  intros Hch Hcl Hdh Hdl Hrh Hh Hl. unfold loop_body.
  destruct (energy_patterns_not_e (String "l" (dh +:+ ch +:+ rh)))
    as (H1 & H2 & H3).
  change (String "e" (String "l" (dh +:+ ch +:+ rh)))
    with ("el" +:+ dh +:+ ch +:+ rh) in H1, H2, H3.
  rewrite <- Hh in H1, H2, H3.
  rewrite !both_none_high by assumption.
  rewrite (both_none_high pat_el_long)
    by (rewrite Hh; apply pat_el_long_none; assumption).
  rewrite (both_eq pat_el_short st (String.length ("el" +:+ dh +:+ ch))
             (String.length ("el" +:+ dl +:+ cl)))
    by (rewrite ?Hh, ?Hl; apply pat_el_short_match; assumption).
  unfold el_branch. cbn [fst snd]. rewrite Hh, Hl.
  replace ("el" +:+ dh +:+ ch +:+ rh) with (("el" +:+ dh +:+ ch) +:+ rh)
    by (rewrite !append_assoc; reflexivity).
  replace ("el" +:+ dl +:+ cl +:+ rl) with (("el" +:+ dl +:+ cl) +:+ rl)
    by (rewrite !append_assoc; reflexivity).
  rewrite !slice_to_exact, !removeprefixes_token.
  rewrite !(removeprefixes_one "el"). reflexivity.
Qed.

(** ** Descriptors built from tokens *)

Lemma occurs_cons sep c s :
  occurs sep (String c s) = startswith (String c s) sep || occurs sep s.
Proof. reflexivity. Qed.

Lemma count_go_none sep s :
  occurs sep s = false -> count_go sep 0 s = 0.
Proof.
  induction s as [|c s IH]; [reflexivity|]. rewrite occurs_cons.
  intros [Hp Hs]%orb_false_iff. cbn [count_go]. rewrite Hp. apply IH, Hs.
Qed.

Lemma split_go_absent sep s : forall cur,
  occurs sep s = false -> split_go sep 0 cur s = [cur +:+ s].
Proof.
  induction s as [|c s IH]; intros cur.
  - intros _. simpl. rewrite append_nil_r. reflexivity.
  - rewrite occurs_cons. intros [Hp Hs]%orb_false_iff.
    rewrite split_go_cons, Hp, IH, append_snoc by assumption. reflexivity.
Qed.

Lemma startswith_us_append h y :
  startswith (h +:+ "_" +:+ y) "_" = startswith (h +:+ "_") "_".
Proof.
  destruct h as [|c h].
  - change ("" +:+ "_" +:+ y) with (String "_" y).
    change ("" +:+ "_") with (String "_" "").
    rewrite !startswith_cons, !startswith_nil. reflexivity.
  - change (String c h +:+ "_" +:+ y) with (String c (h +:+ "_" +:+ y)).
    change (String c h +:+ "_") with (String c (h +:+ "_")).
    rewrite !startswith_cons, !startswith_nil. reflexivity.
Qed.

Lemma halves_of_parts h l :
  occurs "__" (h +:+ "_") = false -> occurs "__" l = false ->
  halves (h +:+ "__" +:+ l) h l.
Proof.
  intros Hh Hl.
  assert (forall cur,
            count_go "__" 0 (h +:+ "__" +:+ l) = 1 /\
            split_go "__" 0 cur (h +:+ "__" +:+ l) = [cur +:+ h; l]) as H.
  { induction h as [|c h IH]; intros cur.
    - change ("" +:+ "__" +:+ l) with (String "_" (String "_" l)).
      assert (startswith (String "_" (String "_" l)) "__" = true) as Hq.
      { rewrite !startswith_cons, startswith_nil. reflexivity. }
      split.
      + cbn [count_go]. rewrite Hq.
        change (String.length "__" - 1) with 1. cbn [count_go].
        rewrite count_go_none by assumption. reflexivity.
      + rewrite split_go_cons, Hq.
        change (String.length "__" - 1) with 1. cbn [split_go].
        rewrite split_go_absent, append_nil_r by assumption. reflexivity.
    - change (String c h +:+ "_") with (String c (h +:+ "_")) in Hh.
      rewrite occurs_cons in Hh. apply orb_false_iff in Hh as [Hp Hh].
      assert (startswith (String c (h +:+ "__" +:+ l)) "__" = false) as Hq.
      { assert (startswith (h +:+ "__" +:+ l) "_"
                = startswith (h +:+ "_") "_") as E
          by apply (startswith_us_append h ("_" +:+ l)).
        rewrite startswith_cons in Hp. rewrite startswith_cons, E.
        exact Hp. }
      destruct (IH Hh (cur +:+ String c "")) as [Hc Hs].
      change (String c h +:+ "__" +:+ l) with (String c (h +:+ "__" +:+ l)).
      split.
      + cbn [count_go]. rewrite Hq. exact Hc.
      + rewrite split_go_cons, Hq, Hs, append_snoc. reflexivity. }
  split; [apply (H "")|apply (H "")].
Qed.

Lemma occurs_token u y :
  contains "_" u = false -> occurs "__" (u +:+ y) = occurs "__" y.
Proof.
  induction u as [|c u IH]; [reflexivity|]. cbn [contains].
  intros [Hc Hu]%orb_false_iff.
  change (String c u +:+ y) with (String c (u +:+ y)).
  rewrite occurs_cons, startswith_cons, Hc, IH by assumption. reflexivity.
Qed.

Lemma occurs_prefix sep x : forall y,
  occurs sep (x +:+ y) = false -> occurs sep x = false.
Proof.
  assert (Hs : forall x y, startswith (x +:+ y) sep = false ->
                           startswith x sep = false).
  { intros x' y H. destruct (startswith x' sep) eqn:E; [|reflexivity].
    destruct (startswith_inv _ _ E) as [r ->].
    rewrite append_assoc, startswith_append in H. discriminate. }
  induction x as [|c x IH]; intros y H.
  - simpl. rewrite orb_false_r. apply (Hs "" y).
    destruct y; simpl in H; apply orb_false_iff in H as [H _]; exact H.
  - change (String c x +:+ y) with (String c (x +:+ y)) in H.
    rewrite occurs_cons in *. apply orb_false_iff in H as [H1 H2].
    rewrite (Hs (String c x) y H1), (IH y H2). reflexivity.
Qed.

Lemma name_head n y :
  In n energy_names ->
  startswith (n +:+ y) "_" = false /\
  startswith ("_" +:+ n +:+ y) "_2" = false /\
  n +:+ y <> "".
Proof.
  intros H. repeat (destruct H as [<-|H]; [repeat split; discriminate|]).
  destruct H.
Qed.

Lemma label_head x y :
  In x (energy_names ++ "el" :: markers) ->
  startswith (x +:+ y) "_" = false /\
  startswith ("_" +:+ x +:+ y) "_2" = false /\
  x +:+ y <> "".
Proof.
  intros H. repeat (destruct H as [<-|H]; [repeat split; discriminate|]).
  destruct H.
Qed.

(** Every token begins with a name, with [el] or with a marker. *)
Lemma token_split b :
  readable b ->
  exists xu yu xl yl,
    In xu (energy_names ++ "el" :: markers) /\
    In xl (energy_names ++ "el" :: markers) /\
    upper_token b = xu +:+ yu /\ lower_token b = xl +:+ yl.
Proof.
  assert (He : In "el" (energy_names ++ "el" :: markers))
    by (apply in_or_app; right; left; reflexivity).
  assert (Hm : forall p, In p markers ->
                         In p (energy_names ++ "el" :: markers))
    by (intros p Hp; apply in_or_app; right; right; exact Hp).
  destruct b as [n dh dl|n dh dl|n dh fh dl fl|dh ch dl cl|ph dh pl dl];
    cbn [readable upper_token lower_token]; intros H.
  - exists n, dh, n, dl. destruct H as (Hn & _).
    repeat split; apply in_or_app; left; exact Hn.
  - exists n, (dh +:+ "_2"), n, (dl +:+ "_2"). destruct H as (Hn & _).
    repeat split; apply in_or_app; left; exact Hn.
  - exists n, (dh +:+ "d" +:+ fh), n, (dl +:+ "d" +:+ fl).
    destruct H as (Hn & _).
    repeat split; apply in_or_app; left; exact Hn.
  - exists "el", (dh +:+ ch), "el", (dl +:+ cl). repeat split; exact He.
  - exists ph, ("_fif" +:+ dh), pl, ("_fif" +:+ dl).
    destruct H as (Hph & _ & Hpl & _). repeat split; auto.
Qed.

Lemma token_head b y :
  readable b ->
  (startswith (upper_token b +:+ y) "_" = false /\
   startswith ("_" +:+ upper_token b +:+ y) "_2" = false /\
   upper_token b +:+ y <> "") /\
  (startswith (lower_token b +:+ y) "_" = false /\
   startswith ("_" +:+ lower_token b +:+ y) "_2" = false /\
   lower_token b +:+ y <> "").
Proof.
  intros (xu & yu & xl & yl & Hu & Hl & -> & ->)%token_split.
  rewrite !append_assoc. split; apply label_head; assumption.
Qed.

Lemma digits_plain d : all_digits d = true -> contains "_" d = false.
Proof. apply all_digits_contains. reflexivity. Qed.

Lemma occurs_us2 y : occurs "__" ("_2" +:+ y) = occurs "__" y.
Proof.
  change ("_2" +:+ y) with (String "_" (String "2" y)).
  rewrite !occurs_cons, !startswith_cons. reflexivity.
Qed.

Lemma occurs_fif y : occurs "__" ("_fif" +:+ y) = occurs "__" y.
Proof.
  change ("_fif" +:+ y) with (String "_" ("fif" +:+ y)).
  rewrite occurs_cons. change ("fif" +:+ y) with (String "f" ("if" +:+ y)).
  rewrite !startswith_cons.
  change (String "f" ("if" +:+ y)) with ("fif" +:+ y).
  rewrite (occurs_token "fif") by reflexivity. reflexivity.
Qed.

Lemma marker_plain p : In p markers -> contains "_" p = false.
Proof. intros H. repeat (destruct H as [<-|H]; [reflexivity|]). destruct H. Qed.

Lemma el_suffix_plain c : In c el_suffixes -> contains "_" c = false.
Proof. intros H. repeat (destruct H as [<-|H]; [reflexivity|]). destruct H. Qed.

(** A token brings no double underscore, whatever follows it. *)
Lemma occurs_label b y :
  readable b ->
  occurs "__" (upper_token b +:+ y) = occurs "__" y /\
  occurs "__" (lower_token b +:+ y) = occurs "__" y.
Proof.
  destruct b as [n dh dl|n dh dl|n dh fh dl fl|dh ch dl cl|ph dh pl dl];
    cbn [readable upper_token lower_token]; rewrite !append_assoc.
  - intros (Hn & Hdh & Hdl).
    destruct (energy_names_plain n Hn) as (Hp & _).
    rewrite !(occurs_token n), (occurs_token dh), (occurs_token dl)
      by auto using digits_plain.
    split; reflexivity.
  - intros (Hn & Hdh & Hdl).
    destruct (energy_names_plain n Hn) as (Hp & _).
    rewrite !(occurs_token n), (occurs_token dh), (occurs_token dl),
      !occurs_us2 by auto using digits_plain.
    split; reflexivity.
  - intros (Hn & Hdh & Hfh & Hdl & Hfl).
    destruct (energy_names_plain n Hn) as (Hp & _).
    rewrite !(occurs_token n), (occurs_token dh), (occurs_token dl),
      !(occurs_token "d"), (occurs_token fh), (occurs_token fl)
      by (auto using digits_plain || reflexivity).
    split; reflexivity.
  - intros (Hdh & Hch & Hdl & Hcl).
    rewrite !(occurs_token "el"), (occurs_token dh), (occurs_token dl),
      (occurs_token ch), (occurs_token cl)
      by (auto using digits_plain, el_suffix_plain || reflexivity).
    split; reflexivity.
  - intros (Hph & Hdh & Hpl & Hdl).
    rewrite (occurs_token ph), (occurs_token pl), !occurs_fif,
      (occurs_token dh), (occurs_token dl)
      by auto using digits_plain, marker_plain.
    split; reflexivity.
Qed.

Lemma upper_half_cons b bs :
  upper_half (b :: bs) = upper_token b +:+ after_first upper_half bs.
Proof.
  unfold upper_half, after_first. destruct bs as [|b' bs]; simpl map.
  - simpl. rewrite !append_nil_r. reflexivity.
  - rewrite concat_cons_nonempty by discriminate. reflexivity.
Qed.

Lemma lower_half_cons b bs :
  lower_half (b :: bs) = lower_token b +:+ after_first lower_half bs.
Proof.
  unfold lower_half, after_first. destruct bs as [|b' bs]; simpl map.
  - simpl. rewrite !append_nil_r. reflexivity.
  - rewrite concat_cons_nonempty by discriminate. reflexivity.
Qed.

(** What follows a token in a half: nothing, or an underscore and the
    next token. *)
Lemma after_first_end bs :
  Forall readable bs ->
  (level_end (after_first upper_half bs) /\
   startswith (after_first upper_half bs) "o" = false /\
   _removeprefixes (after_first upper_half bs) ["_"] = upper_half bs) /\
  (level_end (after_first lower_half bs) /\
   _removeprefixes (after_first lower_half bs) ["_"] = lower_half bs).
Proof.
  intros [|b bs' Hb _]; [repeat split|].
  unfold after_first. rewrite upper_half_cons, lower_half_cons.
  destruct (token_head b (after_first upper_half bs') Hb) as ((_ & Hu & _) & _).
  destruct (token_head b (after_first lower_half bs') Hb) as (_ & (_ & Hl & _)).
  repeat split; try assumption; apply removeprefixes_one.
Qed.

Lemma joined_no_double bs :
  Forall readable bs ->
  occurs "__" (upper_half bs +:+ "_") = false /\
  occurs "__" (lower_half bs +:+ "_") = false.
Proof.
  induction 1 as [|b bs Hb Hbs [IHu IHl]]; [split; reflexivity|].
  rewrite upper_half_cons, lower_half_cons, !append_assoc.
  destruct (occurs_label b (after_first upper_half bs +:+ "_") Hb) as [-> _].
  destruct (occurs_label b (after_first lower_half bs +:+ "_") Hb) as [_ ->].
  destruct bs as [|b' bs]; [split; reflexivity|].
  unfold after_first.
  change (("_" +:+ upper_half (b' :: bs)) +:+ "_")
    with (String "_" (upper_half (b' :: bs) +:+ "_")).
  change (("_" +:+ lower_half (b' :: bs)) +:+ "_")
    with (String "_" (lower_half (b' :: bs) +:+ "_")).
  rewrite !occurs_cons, IHu, IHl, !orb_false_r, !startswith_cons.
  apply Forall_cons_1 in Hbs as [Hb' _].
  rewrite upper_half_cons, lower_half_cons, !append_assoc.
  destruct (token_head b' (after_first upper_half bs +:+ "_") Hb')
    as ((-> & _) & _).
  destruct (token_head b' (after_first lower_half bs +:+ "_") Hb')
    as (_ & (-> & _)).
  split; reflexivity.
Qed.

Lemma descriptor_halves bs :
  Forall readable bs ->
  halves (descriptor bs) (upper_half bs) (lower_half bs).
Proof.
  intros Hall. destruct (joined_no_double bs Hall) as [Hu Hl].
  apply halves_of_parts; [exact Hu|].
  apply (occurs_prefix "__" _ "_"), Hl.
Qed.

Lemma rows_of_cons b bs : rows_of (b :: bs) = rows_of [b] ++ rows_of bs.
Proof. unfold rows_of. simpl. destruct (label_row b); reflexivity. Qed.

(** The turn of the loop on a label, whatever the accumulators hold. *)
Lemma label_turn b rh rl st :
  readable b ->
  level_end rh -> level_end rl -> startswith rh "o" = false ->
  high st = upper_token b +:+ rh -> low st = lower_token b +:+ rl ->
  loop_body st
  = ret {| high := _removeprefixes rh ["_"];
           low := _removeprefixes rl ["_"];
           names := names st ++ map (fun r => r.1.1) (rows_of [b]);
           high_lvls := high_lvls st ++ map (fun r => r.1.2) (rows_of [b]);
           low_lvls := low_lvls st ++ map snd (rows_of [b]) |}.
Proof.
  intros Hb Hrh Hrl Ho.
  destruct b as [n dh dl|n dh dl|n dh fh dl fl|dh ch dl cl|ph dh pl dl];
    cbn [readable upper_token lower_token rows_of omap label_row map fst snd]
      in *;
    rewrite !append_assoc; intros Hh Hl.
  - destruct Hb as (Hn & Hdh & Hdl). apply integer_turn; assumption.
  - destruct Hb as (Hn & Hdh & Hdl). apply fraction_turn; assumption.
  - destruct Hb as (Hn & Hdh & Hfh & Hdl & Hfl).
    apply decimal_turn; try assumption; [apply Hrh|apply Hrl].
  - destruct Hb as (Hdh & Hch & Hdl & Hcl). apply el_short_turn; assumption.
  - destruct Hb as (Hph & Hdh & Hpl & Hdl). rewrite !app_nil_r.
    apply (marker_turn st ph pl dh dl rh rl); try assumption;
      [apply Hrh|apply Hrl].
Qed.

(** The loop reads the labels one per turn and stops on two empty
    halves. *)
Lemma labels_loop bs : forall ns hs ls fuel,
  Forall readable bs ->
  while_loop (fuel + length bs)
    (State (upper_half bs) (lower_half bs) ns hs ls)
  = Some (ret (State "" ""
                 (ns ++ map (fun r => r.1.1) (rows_of bs))
                 (hs ++ map (fun r => r.1.2) (rows_of bs))
                 (ls ++ map snd (rows_of bs)))).
Proof.
  induction bs as [|b bs IH]; intros ns hs ls fuel Hall.
  - rewrite while_loop_exit by reflexivity. simpl. rewrite !app_nil_r.
    reflexivity.
  - apply Forall_cons_1 in Hall as [Hb Hbs].
    replace (fuel + length (b :: bs)) with (S (fuel + length bs))
      by (simpl; lia).
    destruct (after_first_end bs Hbs) as ((Eu & Ou & Ru) & (El & Rl)).
    destruct (token_head b (after_first upper_half bs) Hb)
      as ((_ & _ & Hu) & _).
    destruct (token_head b (after_first lower_half bs) Hb)
      as (_ & (_ & _ & Hl)).
    rewrite while_loop_step
      by (apply loop_cond_nonempty; cbn [high low];
          rewrite ?upper_half_cons, ?lower_half_cons; assumption).
    rewrite (label_turn b (after_first upper_half bs)
               (after_first lower_half bs))
      by (try assumption;
          first [apply upper_half_cons|apply lower_half_cons]).
    rewrite Ru, Rl. unfold ret. cbv beta iota. cbn [names high_lvls low_lvls].
    rewrite (IH _ _ _ fuel Hbs). unfold ret.
    rewrite (rows_of_cons b bs), !map_app, !app_assoc. reflexivity.
Qed.

(** Digits alone do not match ["\A\d*[/.]\d*\Z"]. *)
Lemma numeric_none_digits d :
  all_digits d = true -> re_match pat_numeric d = None.
Proof.
  intros Hd. unfold re_match, pat_numeric, seqs. cbn [foldr rmatch Nat.eqb].
  rewrite <- (append_nil_r d).
  apply digits_star_none; [assumption|reflexivity|reflexivity|].
  intros pos' c s Hc.
  destruct (digit_char c Hc) as (_ & _ & H1 & H2 & _).
  cbn [existsb]. rewrite (Ascii.eqb_sym c "/"), (Ascii.eqb_sym c "."), H1, H2.
  reflexivity.
Qed.

(** The classification of the row of a well written label. *)
Lemma classify_label b r :
  well_written b -> label_row b = Some r ->
  exists c, label_classification b = Some c /\
            classify r.1.1 r.1.2 r.2 = (label_warnings b, Return c).
Proof.
  destruct b as [n dh dl|n dh dl|n dh fh dl fl|dh ch dl cl|ph dh pl dl];
    cbn [well_written readable label_row label_classification label_warnings];
    intros [Hr Hn] [= <-]; cbn [fst snd]; eexists; (split; [reflexivity|]).
  - destruct Hr as (Hin & Hdh & _). unfold classify.
    destruct (energy_names_plain _ Hin) as (_ & -> & _).
    apply transition_not_numeric, numeric_none_digits, Hdh.
  - destruct Hr as (Hin & Hdh & Hdl), Hn as [Hh Hl]. unfold classify.
    destruct (energy_names_plain _ Hin) as (_ & -> & _).
    apply (transition_fraction_form n dh "2" dl "2");
      try (split; [assumption || reflexivity|assumption || discriminate]);
      discriminate.
  - destruct Hr as (Hin & Hdh & Hfh & Hdl & Hfl), Hn as [Hh Hl].
    unfold classify. destruct (energy_names_plain _ Hin) as (_ & -> & _).
    apply transition_decimal_form; try assumption; split; assumption.
  - reflexivity.
Qed.

Lemma classify_all_labels bs :
  Forall well_written bs ->
  classify_all (rows_of bs)
  = (concat (map label_warnings bs), Return (omap label_classification bs)).
Proof.
  induction 1 as [|b bs Hb _ IH]; [reflexivity|].
  destruct (label_row b) as [[[n h] l]|] eqn:Hrow.
  - destruct (classify_label b _ Hb Hrow) as (c & Hc & Hk).
    cbn [fst snd] in Hk. unfold rows_of in *.
    cbn [omap list_omap map concat]. rewrite Hrow, Hc.
    cbn [classify_all]. rewrite Hk, bind_return, IH, bind_return.
    simpl. rewrite app_nil_r. reflexivity.
  - destruct b; try discriminate. unfold rows_of in *. exact IH.
Qed.

Lemma classify_all_cons r rows w rs :
  classify_all (r :: rows) = (w, Return rs) -> rs <> [].
Proof.
  destruct r as [[n h] l]. simpl. intros H. do 2 bind_inv H.
  injection H as _ <-. discriminate.
Qed.

Lemma zip_rows (rows : list (string * string * string)) :
  zip (zip (map (fun r => r.1.1) rows) (map (fun r => r.1.2) rows))
    (map snd rows) = rows.
Proof.
  induction rows as [|[[n dh] dl] rows IH]; [reflexivity|].
  simpl. f_equal. exact IH.
Qed.

(** On a descriptor built from readable labels, [transition_to_latex]
    gives [_sort_transitions] the rows of the labels. *)
Lemma descriptor_rows bs fuel :
  Forall readable bs ->
  transition_to_latex (fuel + length bs) (descriptor bs)
  = Some (_sort_transitions (map (fun r => r.1.1) (rows_of bs))
            (map (fun r => r.1.2) (rows_of bs)) (map snd (rows_of bs))).
Proof.
  intros Hall.
  rewrite (transition_to_latex_halves _ _ _ _ (descriptor_halves _ Hall)).
  unfold start. rewrite (labels_loop bs [] [] [] fuel Hall), bind_ret_l.
  reflexivity.
Qed.

Lemma well_written_readable bs : Forall well_written bs -> Forall readable bs.
Proof.
  intros H. eapply Forall_impl; [exact H|]. intros b [Hb _]. exact Hb.
Qed.

(** When the classification of the first row raises, so does
    [_sort_transitions], with the same warnings. *)
Lemma sort_transitions_raise r rows w e :
  classify r.1.1 r.1.2 r.2 = (w, Raise e) ->
  _sort_transitions (map (fun r => r.1.1) (r :: rows))
    (map (fun r => r.1.2) (r :: rows)) (map snd (r :: rows))
  = (w, Raise e).
Proof.
  intros H. unfold _sort_transitions.
  rewrite !length_map, Nat.eqb_refl. simpl orb. cbv iota.
  change (length (r :: rows) =? 0)%nat with false. cbv iota.
  rewrite zip_rows. destruct r as [[n h] l]. cbn [fst snd] in H.
  cbn [sort_loop]. rewrite H. reflexivity.
Qed.

Lemma same_warning_In w l : existsb (same_warning w) l = true <-> In w l.
Proof.
  rewrite existsb_exists. unfold same_warning. split.
  - intros ([n t] & Hy & [H1 H2]%andb_true_iff). destruct w as [n' t'].
    apply Nat.eqb_eq in H1. apply String.eqb_eq in H2. simpl in *.
    subst. exact Hy.
  - intros H. exists w. rewrite Nat.eqb_refl, String.eqb_refl. auto.
Qed.

(** Under the default filters every warning of a log that is not in the
    registry is written, once. *)
Lemma written_once log : forall registry,
  List.NoDup (written registry log) /\
  forall w, In w (written registry log) <-> In w log /\ ~ In w registry.
Proof.
  induction log as [|y log IH]; intros registry; simpl.
  - split; [constructor|]. tauto.
  - destruct (existsb (same_warning y) registry) eqn:E.
    + apply same_warning_In in E. destruct (IH registry) as [Hn Hi].
      split; [exact Hn|]. intros w. rewrite Hi. split; [tauto|].
      intros [[->|H] Hr]; tauto.
    + assert (~ In y registry) as Hy
        by (intros H; apply same_warning_In in H; congruence).
      destruct (IH (y :: registry)) as [Hn Hi]. split.
      * constructor; [|exact Hn]. rewrite Hi. simpl. tauto.
      * intros w. simpl. rewrite Hi. simpl. split.
        -- intros [<-|[H1 H2]]; tauto.
        -- intros [[<-|H] Hr]; [tauto|].
           destruct (decide (y = w)) as [E'|E']; [tauto|].
           right. split; [exact H|]. intros [E''|E'']; tauto.
Qed.

(** What [_sort_transitions] makes of the rows of well written
    labels. *)
Lemma sort_labels bs :
  Forall well_written bs ->
  _sort_transitions (map (fun r => r.1.1) (rows_of bs))
    (map (fun r => r.1.2) (rows_of bs)) (map snd (rows_of bs))
  = (concat (map label_warnings bs),
     Return (rendering (omap label_classification bs))).
Proof.
  intros Hall. pose proof (classify_all_labels bs Hall) as Hc.
  destruct (rows_of bs) as [|r rows] eqn:Hrows.
  - injection Hc as <- <-. reflexivity.
  - pose proof (classify_all_cons _ _ _ _ Hc) as Hne.
    rewrite <- Hrows in Hc |- *.
    destruct (omap label_classification bs) as [|c cs]; [congruence|].
    cbn [rendering]. apply sort_transitions_layout.
    + rewrite Hrows. discriminate.
    + rewrite !length_map. reflexivity.
    + rewrite !length_map. reflexivity.
    + rewrite zip_rows. exact Hc.
Qed.



(** ** Labels without digits *)

Lemma half_no_digits n dl :
  In n energy_names -> all_digits dl = true ->
  classify n (fraction "" "2") (fraction dl "2") = raise (IntValueError "").
Proof.
  intros Hn Hdl. unfold classify.
  destruct (energy_names_plain _ Hn) as (_ & -> & _).
  unfold _transition, numeric_levels, fraction.
  rewrite (numeric_match "/" "" "2") by auto.
  change (contains "/" ("" +:+ String "/" "2")) with true. cbv iota.
  unfold fraction_levels.
  rewrite (str_split_two "/" "" "2"), (str_split_two "/" dl "2")
    by (reflexivity || apply numeral_no_slash, Hdl).
  reflexivity.
Qed.

Lemma decimal_no_digits n fh dl fl :
  In n energy_names ->
  all_digits fh = true -> all_digits dl = true -> all_digits fl = true ->
  classify n (decimal "" fh) (decimal dl fl)
  = (decimal_warnings 436 fh, Raise (IntValueError "")).
Proof.
  intros Hn Hfh Hdl Hfl. unfold classify.
  destruct (energy_names_plain _ Hn) as (_ & -> & _).
  unfold _transition, numeric_levels, decimal.
  rewrite (numeric_match "." "" fh) by auto.
  assert (contains "/" ("" +:+ String "." fh) = false) as ->.
  { simpl. apply numeral_no_slash, Hfh. }
  unfold decimal_levels.
  rewrite (str_split_two "." "" fh), (str_split_two "." dl fl)
    by (reflexivity || apply numeral_no_dot; assumption).
  unfold unpack2. rewrite !bind_ret_l. cbn [fst snd].
  unfold half_integer, decimal_warnings.
  destruct (String.eqb fh "0"); [reflexivity|].
  destruct (String.eqb fh "5"); reflexivity.
Qed.

(** X6.  A half-integer or a decimal label whose upper token has no
    digit before [_2] or [d] is read by the loop like any other.  When
    it is the first label of a descriptor of readable labels, the call
    raises the [ValueError] of [int] on the empty string, out of
    [_sort_transitions]; a decimal label writes the warning of its
    decimal part before. *)
Theorem missing_digits_raise n dl fh fl bs fuel :
  In n energy_names ->
  all_digits dl = true -> all_digits fh = true -> all_digits fl = true ->
  Forall readable bs ->
  transition_to_latex (fuel + S (length bs)) (descriptor (Half n "" dl :: bs))
  = Some (raise (IntValueError "")) /\
  transition_to_latex (fuel + S (length bs))
    (descriptor (Decimal n "" fh dl fl :: bs))
  = Some (decimal_warnings 436 fh, Raise (IntValueError "")).
Proof.
  intros Hn Hdl Hfh Hfl Hall. split.
  - change (S (length bs)) with (length (Half n "" dl :: bs)).
    rewrite (descriptor_rows (Half n "" dl :: bs) fuel)
      by (constructor 2; [repeat split; assumption|exact Hall]).
    rewrite rows_of_cons. f_equal.
    apply (sort_transitions_raise (n, fraction "" "2", fraction dl "2")).
    apply half_no_digits; assumption.
  - change (S (length bs)) with (length (Decimal n "" fh dl fl :: bs)).
    rewrite (descriptor_rows (Decimal n "" fh dl fl :: bs) fuel)
      by (constructor 2; [repeat split; assumption|exact Hall]).
    rewrite rows_of_cons. f_equal.
    apply (sort_transitions_raise (n, decimal "" fh, decimal dl fl)).
    apply decimal_no_digits; assumption.
Qed.

Lemma missing_digits_raise_witness :
  transition_to_latex 2 "j_2_v0__j1_2_v0"
  = Some ([], Raise (IntValueError "")) /\
  transition_to_latex 2 "jd7_v0__j1d5_v0"
  = Some ([(436, "x.7 floats has not been implemented. Ignoring the floating part.")],
          Raise (IntValueError "")).
Proof.
  apply (missing_digits_raise "j" "1" "7" "5" [Integer "v" "0" "0"] 0);
    try reflexivity; [simpl; auto|].
  constructor 2; [|constructor 1]. simpl. auto.
Defined.

(** ** Molecules *)

Lemma longest_in l : forall best, In (longest best l) (best :: l).
Proof.
  induction l as [|s l IH]; intros best; simpl; [auto|].
  destruct (_ <? _)%nat; destruct (IH s), (IH best); simpl in *; auto.
Qed.

Lemma longest_max l : forall best x,
  In x (best :: l) -> String.length x <= String.length (longest best l).
Proof.
  induction l as [|s l IH]; intros best x Hx; simpl in *.
  - destruct Hx as [->|[]]. lia.
  - destruct (Nat.ltb_spec (String.length best) (String.length s)) as [Hlt|Hge].
    + destruct Hx as [<-|[<-|Hx]].
      * pose proof (IH s s (or_introl eq_refl)). lia.
      * apply IH. auto.
      * apply IH. auto.
    + destruct Hx as [<-|[<-|Hx]].
      * apply IH. auto.
      * pose proof (IH best best (or_introl eq_refl)). lia.
      * apply IH. auto.
Qed.

Lemma lower_char_us c : Ascii.eqb "_" (lower_char c) = Ascii.eqb "_" c.
Proof. destruct c as [[] [] [] [] [] [] [] []]; reflexivity. Qed.

Lemma isspace_us c : isspace c = true -> Ascii.eqb "_" c = false.
Proof.
  destruct c as [[] [] [] [] [] [] [] []]; intros H; try reflexivity;
    discriminate H.
Qed.

Lemma contains_us_lower s : contains "_" (lower s) = contains "_" s.
Proof.
  induction s as [|c s IH]; [reflexivity|]. cbn [lower contains].
  rewrite lower_char_us, IH. reflexivity.
Qed.

Lemma contains_us_lstrip s : contains "_" (lstrip s) = contains "_" s.
Proof.
  induction s as [|c s IH]; [reflexivity|]. cbn [lstrip].
  destruct (isspace c) eqn:Hc; [|reflexivity].
  cbn [contains]. rewrite (isspace_us c Hc), IH. reflexivity.
Qed.

Lemma contains_us_rstrip s : contains "_" (rstrip s) = contains "_" s.
Proof.
  induction s as [|c s IH]; [reflexivity|]. cbn [rstrip contains].
  rewrite <- IH. destruct (rstrip s) as [|d r].
  - destruct (isspace c) eqn:Hc; cbn [contains].
    + rewrite (isspace_us c Hc). reflexivity.
    + reflexivity.
  - reflexivity.
Qed.

Lemma contains_us_normal line :
  contains "_" (normal_line line) = contains "_" line.
Proof.
  unfold normal_line, strip.
  rewrite contains_us_rstrip, contains_us_lstrip. apply contains_us_lower.
Qed.

Lemma split1_first sep s : forall cur,
  contains sep s = true ->
  exists a b,
    s = a +:+ String sep b /\ contains sep a = false
    /\ split1 sep cur s = [cur +:+ a; b].
Proof.
  induction s as [|c s IH]; intros cur H; [discriminate|].
  cbn [split1 contains] in *. rewrite (Ascii.eqb_sym c sep).
  destruct (Ascii.eqb_spec sep c) as [<-|Hne].
  - exists "", s. rewrite append_nil_r. auto.
  - simpl in H. destruct (IH (cur +:+ String c "") H) as (a & b & -> & Ha & Hs).
    exists (String c a), b. rewrite Hs, append_snoc. cbn [contains].
    apply Ascii.eqb_neq in Hne. rewrite Hne, Ha. auto.
Qed.

Lemma prefixes_spec ln k :
  In k (List.filter (fun s => startswith ln s) molecule_keys) <-> key_prefix ln k.
Proof. unfold key_prefix. apply filter_In. Qed.

(** What [molecule_and_transition] returns on a line with an
    underscore. *)
Lemma molecule_and_transition_cases line :
  contains "_" line = true ->
  exists m t,
    molecule_and_transition line = ret [m; t] /\
    ((key_prefix (normal_line line) m /\
      (forall k, key_prefix (normal_line line) k ->
                 String.length k <= String.length m) /\
      t = slice_from (String.length m + 1) (normal_line line)) \/
     ((forall k, ~ key_prefix (normal_line line) k) /\
      contains "_" m = false /\
      normal_line line = m +:+ String "_" t)).
Proof.
  intros Hus. unfold molecule_and_transition. rewrite Hus. cbn [negb].
  fold (normal_line line). fold molecule_keys.
  destruct (List.filter _ molecule_keys) as [|p ps] eqn:Hf.
  - pose proof (contains_us_normal line) as Hc. rewrite Hus in Hc.
    destruct (split1_first "_" (normal_line line) "" Hc) as (a & b & E & Ha & ->).
    exists a, b. split; [reflexivity|]. right. split; [|auto].
    intros k Hk. apply (proj2 (prefixes_spec _ _)) in Hk. rewrite Hf in Hk.
    destruct Hk.
  - exists (longest p ps),
      (slice_from (String.length (longest p ps) + 1) (normal_line line)).
    split; [reflexivity|]. left. split; [|split; [|reflexivity]].
    + apply (proj1 (prefixes_spec _ _)). rewrite Hf. apply longest_in.
    + intros k Hk. apply longest_max. rewrite <- Hf.
      apply (proj2 (prefixes_spec _ _)), Hk.
Qed.

Lemma slice_from_after p r :
  slice_from (String.length p + 1) (p +:+ r)
  = match r with "" => "" | String _ t => t end.
Proof.
  induction p as [|c p IH]; simpl; [destruct r; reflexivity|exact IH].
Qed.

Lemma dict_get_key d k :
  In k (map fst d) -> exists v, dict_get d k = Some v /\ In (k, v) d.
Proof.
  induction d as [|[k' v'] d IH]; simpl; [tauto|]. intros [->|Hk].
  - rewrite String.eqb_refl. eauto.
  - destruct (String.eqb_spec k k') as [->|]; [eauto|].
    destruct (IH Hk) as (v & -> & Hv). eauto.
Qed.

Lemma dict_get_absent d k : ~ In k (map fst d) -> dict_get d k = None.
Proof.
  induction d as [|[k' v'] d IH]; simpl; [reflexivity|]. intros H.
  destruct (String.eqb_spec k k') as [->|]; [tauto|]. apply IH. tauto.
Qed.

(** ** [dict.fromkeys] *)

Lemma existsb_eqb x (l : list string) :
  existsb (String.eqb x) l = true <-> In x l.
Proof.
  rewrite existsb_exists. split.
  - intros (y & Hy & ->%String.eqb_eq). exact Hy.
  - intros H. exists x. rewrite String.eqb_refl. auto.
Qed.

Lemma fromkeys_In l : forall seen x,
  In x (fromkeys seen l) <-> In x l /\ ~ In x seen.
Proof.
  induction l as [|y l IH]; intros seen x; simpl; [tauto|].
  destruct (existsb (String.eqb y) seen) eqn:E.
  - apply existsb_eqb in E. rewrite IH. split; [tauto|].
    intros [[->|H] Hn]; tauto.
  - assert (~ In y seen) as Hy
      by (intros H; apply existsb_eqb in H; congruence).
    simpl. rewrite IH. simpl.
    destruct (String.eqb_spec y x) as [->|Hne]; [tauto|]. split.
    + intros [H|[H1 H2]]; [congruence|]. tauto.
    + intros [[H|H] Hn]; [congruence|]. right. split; [assumption|].
      intros [H'|H']; [congruence|tauto].
Qed.

Lemma fromkeys_NoDup l : forall seen, List.NoDup (fromkeys seen l).
Proof.
  induction l as [|y l IH]; intros seen; simpl; [constructor|].
  destruct (existsb (String.eqb y) seen); [apply IH|].
  constructor; [|apply IH]. rewrite fromkeys_In. simpl. tauto.
Qed.

(** ** The molecules of a list of lines *)

Lemma molecule_Return line w m :
  molecule line = (w, Return m) -> w = [] /\ contains "_" line = true.
Proof.
  unfold molecule, molecule_and_transition.
  destruct (contains "_" line); [|discriminate]. cbn [negb].
  destruct (List.filter _ _); rewrite bind_ret_l;
    [destruct (split1 _ _ _)|]; intros [= <- _]; auto.
Qed.

Lemma molecule_total line :
  contains "_" line = true -> exists m, molecule line = ret m.
Proof.
  intros H. destruct (molecule_and_transition_cases line H) as (m & t & E & _).
  exists m. unfold molecule. rewrite E, bind_ret_l. reflexivity.
Qed.

Lemma molecules_of_Return names : forall w ms,
  molecules_of names = (w, Return ms) ->
  w = [] /\ Forall2 (fun name m => molecule name = ret m) names ms.
Proof.
  induction names as [|name names IH]; intros w ms H; simpl in H.
  - injection H as <- <-. auto.
  - do 2 bind_inv H. injection H as <- <-.
    destruct (molecule_Return _ _ _ Hm) as [-> _].
    destruct (IH _ _ Hm0) as [-> HF]. subst. auto.
Qed.

Lemma molecules_of_total names :
  Forall (fun name => contains "_" name = true) names ->
  exists ms, molecules_of names = ret ms.
Proof.
  induction 1 as [|name names Hn _ [ms IH]]; [exists []; reflexivity|].
  destruct (molecule_total name Hn) as [m Hm].
  exists (m :: ms). simpl. rewrite Hm, bind_ret_l, IH, bind_ret_l. reflexivity.
Qed.

(** ** What [filter_molecules] selects *)

Lemma selected_filter wanted_mols ns ms :
  Forall2 (fun name m => molecule name = ret m) ns ms ->
  forall pre,
    omap (fun i => (pre ++ ns) !! i)
      (map fst
         (List.filter (fun p : nat * string => existsb (String.eqb p.2) wanted_mols)
            (imap (fun i m => (length pre + i, m)) ms)))
    = List.filter (keeps wanted_mols) ns.
Proof.
  induction 1 as [|name m ns ms Hm _ IH]; intros pre; [reflexivity|].
  rewrite imap_cons. cbn [List.filter snd].
  assert (keeps wanted_mols name = existsb (String.eqb m) wanted_mols) as Hk
    by (unfold keeps; rewrite Hm; reflexivity).
  rewrite Hk.
  assert (Hrest :
    omap (fun i => (pre ++ name :: ns) !! i)
      (map fst
         (List.filter (fun p : nat * string => existsb (String.eqb p.2) wanted_mols)
            (imap ((fun i m => (length pre + i, m)) ∘ S) ms)))
    = List.filter (keeps wanted_mols) ns).
  { rewrite <- (IH (pre ++ [name])), <- app_assoc. cbn [app].
    do 3 f_equal. apply imap_ext. intros i x _. cbn.
    rewrite length_app. cbn. f_equal. lia. }
  destruct (existsb (String.eqb m) wanted_mols).
  - cbn [map fst omap list_omap].
    rewrite Nat.add_0_r, list_lookup_middle by reflexivity.
    f_equal. exact Hrest.
  - exact Hrest.
Qed.

Lemma indices_selected wanted_mols ns ms :
  Forall2 (fun name m => molecule name = ret m) ns ms ->
  omap (fun i => ns !! i) (indices_in ms wanted_mols)
  = List.filter (keeps wanted_mols) ns.
Proof. intros H. exact (selected_filter wanted_mols ns ms H []). Qed.

(** The part of [filter_molecules] that follows the normalisation of
    [mols], on a store [σ2] in which [m] holds the normalised entries. *)
Lemma filter_molecules_select names m xs (σ1 : store) ns :
  σ1 !! m = Some xs -> m <> names -> σ1 !! names = Some ns ->
  Forall (fun name => contains "_" name = true) ns ->
  let σ2 := <[m := normalized <$> xs]> σ1 in
  filter_molecules names (MolsList m) σ1
  = (<[fresh (dom σ2) := List.filter (keeps (map alias (normalized <$> xs))) ns]> σ2,
     ret (fresh (dom σ2))).
Proof.
  intros Hm Hne Hn Hall σ2. unfold filter_molecules. rewrite Hm.
  rewrite normalize_loop_all by assumption. fold σ2.
  assert (σ2 !! m = Some (normalized <$> xs)) as -> by apply lookup_insert_eq.
  assert (σ2 !! names = Some ns) as ->
    by (unfold σ2; rewrite lookup_insert_ne by assumption; exact Hn).
  destruct (molecules_of_total ns Hall) as [ms Hms]. rewrite Hms.
  destruct (molecules_of_Return _ _ _ Hms) as [_ HF].
  unfold ret, alloc. cbn [default]. rewrite (indices_selected _ _ _ HF).
  reflexivity.
Qed.

(** ** Stripping and lowering *)

Lemma lower_char_idem c : lower_char (lower_char c) = lower_char c.
Proof. destruct c as [[] [] [] [] [] [] [] []]; reflexivity. Qed.

Lemma isspace_lower c : isspace (lower_char c) = isspace c.
Proof. destruct c as [[] [] [] [] [] [] [] []]; reflexivity. Qed.

Lemma lower_idem s : lower (lower s) = lower s.
Proof.
  induction s as [|c s IH]; [reflexivity|]. cbn [lower].
  rewrite lower_char_idem, IH. reflexivity.
Qed.

Lemma lstrip_lower s : lstrip (lower s) = lower (lstrip s).
Proof.
  induction s as [|c s IH]; [reflexivity|]. cbn [lower lstrip].
  rewrite isspace_lower. destruct (isspace c); [exact IH|reflexivity].
Qed.

Lemma rstrip_lower s : rstrip (lower s) = lower (rstrip s).
Proof.
  induction s as [|c s IH]; [reflexivity|]. cbn [lower rstrip].
  rewrite IH, isspace_lower. destruct (rstrip s); cbn [lower];
    [destruct (isspace c)|]; reflexivity.
Qed.

Lemma strip_lower s : strip (lower s) = lower (strip s).
Proof. unfold strip. rewrite lstrip_lower, rstrip_lower. reflexivity. Qed.

Lemma lstrip_no_lead s : no_lead (lstrip s) = true.
Proof.
  induction s as [|c s IH]; [reflexivity|]. cbn [lstrip].
  destruct (isspace c) eqn:E; [exact IH|]. cbn. rewrite E. reflexivity.
Qed.

Lemma lstrip_fixed s : no_lead s = true -> lstrip s = s.
Proof.
  destruct s as [|c s]; [reflexivity|]. cbn. intros H.
  apply negb_true_iff in H. rewrite H. reflexivity.
Qed.

Lemma rstrip_no_lead s : no_lead s = true -> no_lead (rstrip s) = true.
Proof.
  destruct s as [|c s]; [reflexivity|]. cbn [no_lead rstrip]. intros H.
  destruct (rstrip s); [|exact H].
  apply negb_true_iff in H. rewrite H. cbn. rewrite H. reflexivity.
Qed.

Lemma rstrip_idem s : rstrip (rstrip s) = rstrip s.
Proof.
  induction s as [|c s IH]; [reflexivity|]. cbn [rstrip].
  destruct (rstrip s) as [|d r] eqn:E.
  - destruct (isspace c) eqn:Hc; [reflexivity|]. cbn. rewrite Hc. reflexivity.
  - cbn [rstrip]. cbn [rstrip] in IH. rewrite IH. reflexivity.
Qed.

Lemma strip_idem s : strip (strip s) = strip s.
Proof.
  unfold strip.
  rewrite (lstrip_fixed (rstrip (lstrip s)))
    by apply rstrip_no_lead, lstrip_no_lead.
  apply rstrip_idem.
Qed.

Lemma normalized_idem s : normalized (normalized s) = normalized s.
Proof.
  unfold normalized. rewrite <- strip_lower, lower_idem, strip_lower, strip_idem.
  reflexivity.
Qed.

Lemma normal_line_normalized s : normal_line s = normalized s.
Proof. apply strip_lower. Qed.

Lemma normal_line_idem s : normal_line (normal_line s) = normal_line s.
Proof. rewrite !normal_line_normalized. apply normalized_idem. Qed.

(** ** Fraction levels, whatever the denominators *)

Lemma transition_fraction_levels name a b a' b' :
  numeral a -> numeral b -> numeral a' -> numeral b' ->
  _transition name (fraction a b) (fraction a' b')
  = (let! high_lvl_latex := level_latex (dec_value a) (dec_value b) in
     let! low_lvl_latex := level_latex (dec_value a') (dec_value b') in
     ret (constant_or_pair (name_latex name) high_lvl_latex low_lvl_latex)).
Proof.
  intros Ha Hb Ha' Hb'. unfold _transition, numeric_levels.
  unfold fraction at 1.
  rewrite (numeric_match "/" a b) by (auto; apply Ha || apply Hb).
  assert (contains "/" (fraction a b) = true) as ->.
  { unfold fraction. rewrite contains_append. simpl. apply orb_true_r. }
  rewrite fraction_levels_numerals, bind_ret_l by assumption. cbn [fst snd].
  destruct (level_latex (dec_value a) (dec_value b)) as [w [x|e]];
    [|reflexivity].
  destruct (level_latex (dec_value a') (dec_value b')) as [w' [y|e]];
    unfold bind, ret; simpl; rewrite ?app_nil_r; reflexivity.
Qed.

(** ** The public functions on line names *)

(** X7.  A line name without underscore makes [molecule_and_transition],
    [molecule] and [transition] raise the [ValueError] that shows the
    name as it was given.  On any other line name the three return: the
    tuple has exactly two parts, which [molecule] and [transition]
    select.  When keys of [_molecules_to_latex] begin the stripped,
    lower-case name, the molecule is the longest of them and the
    transition is what follows the character after it, whichever
    character that is; otherwise the name is cut at its first
    underscore. *)
Theorem line_name_parts line :
  (contains "_" line = false /\
   molecule_and_transition line = raise (ValueError (line_msg line)) /\
   molecule line = raise (ValueError (line_msg line)) /\
   transition line = raise (ValueError (line_msg line))) \/
  (contains "_" line = true /\
   exists m t,
     molecule_and_transition line = ret [m; t] /\
     molecule line = ret m /\ transition line = ret t /\
     ((key_prefix (normal_line line) m /\
       (forall k, key_prefix (normal_line line) k ->
                  String.length k <= String.length m) /\
       exists r, normal_line line = m +:+ r /\
                 t = match r with "" => "" | String _ t' => t' end) \/
      ((forall k, ~ key_prefix (normal_line line) k) /\
       contains "_" m = false /\
       normal_line line = m +:+ String "_" t))).
Proof.
  destruct (contains "_" line) eqn:Hus.
  - right. split; [reflexivity|].
    destruct (molecule_and_transition_cases line Hus) as (m & t & E & H).
    exists m, t. split; [exact E|].
    split; [unfold molecule; rewrite E; reflexivity|].
    split; [unfold transition; rewrite E; reflexivity|].
    destruct H as [(Hk & Hmax & ->)|H]; [left|right; exact H].
    split; [exact Hk|]. split; [exact Hmax|].
    destruct Hk as [_ Hp]. destruct (startswith_inv _ _ Hp) as [r Hr].
    exists r. split; [exact Hr|]. rewrite Hr. apply slice_from_after.
  - left. split; [reflexivity|].
    unfold molecule, transition, molecule_and_transition. rewrite Hus.
    repeat split.
Qed.

(** The character after the key is dropped without a look at it. *)
Example methanol_line :
  molecule_and_transition "CH3OH_j1__j0" = ret ["c"; "3oh_j1__j0"] /\
  molecule_and_transition "13CO_j1__j0" = ret ["13co"; "j1__j0"] /\
  molecule_and_transition " 13C_O_j1__j0 " = ret ["13c_o"; "j1__j0"].
Proof. repeat split. Qed.

Lemma molecule_parts line m :
  molecule line = ret m ->
  exists t, molecule_and_transition line = ret [m; t] /\
            contains "_" line = true.
Proof.
  intros H. destruct (molecule_Return _ _ _ H) as [_ Hus].
  destruct (molecule_and_transition_cases line Hus) as (m' & t & E & _).
  unfold molecule in H. rewrite E, bind_ret_l in H. injection H as ->.
  eauto.
Qed.

(** X8.  [molecule_to_latex] after [molecule]: when some key of
    [_molecules_to_latex] begins the stripped, lower-case line name the
    molecule is typeset, as the entry of the table between dollars;
    when none does, [molecule_to_latex] returns the molecule as it
    is. *)
Theorem molecule_typeset line m :
  molecule line = ret m ->
  ((exists k, key_prefix (normal_line line) k) /\
   exists v, In (m, v) _molecules_to_latex /\
             molecule_to_latex m = "$" +:+ v +:+ "$") \/
  ((forall k, ~ key_prefix (normal_line line) k) /\
   molecule_to_latex m = m).
Proof.
  intros H. destruct (molecule_parts _ _ H) as (t & E & Hus).
  destruct (molecule_and_transition_cases line Hus) as (m' & t' & E' & Hc).
  rewrite E in E'. injection E' as <- <-.
  destruct Hc as [(Hk & _)|(Hno & _ & Hl)].
  - left. split; [eauto|].
    destruct (dict_get_key _molecules_to_latex m (proj1 Hk)) as (v & Hv & Hin).
    exists v. split; [exact Hin|]. unfold molecule_to_latex. rewrite Hv.
    reflexivity.
  - right. split; [exact Hno|]. unfold molecule_to_latex.
    rewrite dict_get_absent; [reflexivity|]. intros Hin.
    apply (Hno m). split; [exact Hin|]. rewrite Hl. apply startswith_append.
Qed.

Lemma molecule_typeset_witness :
  molecule "H2_18O_j1__j0" = ret "h2_18o" /\
  molecule_to_latex "h2_18o" = "$H_2^{18}O$" /\
  molecule "CH3OH_j1__j0" = ret "c" /\
  molecule "xy_j1__j0" = ret "xy" /\
  molecule_to_latex "xy" = "xy".
Proof.
  assert (H1 : molecule "H2_18O_j1__j0" = ret "h2_18o") by reflexivity.
  assert (H2 : molecule "xy_j1__j0" = ret "xy") by reflexivity.
  split; [exact H1|].
  split; [|split; [reflexivity|split; [exact H2|]]].
  - destruct (molecule_typeset _ _ H1) as [(_ & v & _ & Hv)|[_ Hv]];
      reflexivity.
  - destruct (molecule_typeset _ _ H2) as [(_ & v & _ & Hv)|[_ Hv]];
      reflexivity.
Defined.

Lemma molecules_In names ms :
  Forall2 (fun name m => molecule name = ret m) names ms ->
  forall m, In m ms <-> exists name, In name names /\ molecule name = ret m.
Proof.
  induction 1 as [|name m0 names ms Hm _ IH]; intros m; simpl.
  - split; [tauto|]. intros (x & [] & _).
  - rewrite IH. split.
    + intros [<-|(x & Hx & HR)]; eauto.
    + intros (x & [<-|Hx] & HR); [|eauto].
      rewrite Hm in HR. injection HR as ->. auto.
Qed.

(** X9.  On line names that all have an underscore,
    [molecules_among_lines] returns a list without duplicates that
    holds exactly the molecules of the names. *)
Theorem molecules_among_lines_distinct names :
  Forall (fun name => contains "_" name = true) names ->
  exists ms,
    molecules_among_lines names = ret ms /\ List.NoDup ms /\
    forall m, In m ms <-> exists name, In name names /\ molecule name = ret m.
Proof.
  intros Hall. destruct (molecules_of_total names Hall) as [ms0 Hms].
  destruct (molecules_of_Return _ _ _ Hms) as [_ HF].
  exists (fromkeys [] ms0). unfold molecules_among_lines.
  rewrite Hms, bind_ret_l. split; [reflexivity|].
  split; [apply fromkeys_NoDup|]. intros m.
  rewrite fromkeys_In, <- (molecules_In _ _ HF). simpl. tauto.
Qed.

Lemma molecules_among_lines_distinct_witness :
  molecules_among_lines ["co_j1__j0"; "13c_o_j1__j0"; "CO_j2__j1"]
  = ret ["co"; "13c_o"] /\
  List.NoDup ["co"; "13c_o"].
Proof.
  assert (H : Forall (fun name => contains "_" name = true)
                ["co_j1__j0"; "13c_o_j1__j0"; "CO_j2__j1"])
    by (repeat constructor).
  destruct (molecules_among_lines_distinct _ H) as (ms & E & Hnd & _).
  assert (ms = ["co"; "13c_o"]) as <- by (vm_compute in E; congruence).
  split; [exact E|exact Hnd].
Defined.

(** X10.  A line name with an underscore and its stripped, lower-case
    form are told apart by none of the functions: they have the same
    molecule and transition; and [is_line_of] strips and lowers the
    molecule it is asked about. *)
Theorem case_and_blanks_ignored line mol :
  contains "_" line = true ->
  molecule_and_transition (normal_line line) = molecule_and_transition line /\
  is_line_of (normal_line line) (normalized mol) = is_line_of line mol.
Proof.
  intros Hus.
  assert (E : molecule_and_transition (normal_line line)
              = molecule_and_transition line).
  { unfold molecule_and_transition. rewrite contains_us_normal, Hus.
    cbn [negb]. fold (normal_line line). fold (normal_line (normal_line line)).
    rewrite normal_line_idem. reflexivity. }
  split; [exact E|]. unfold is_line_of, molecule. rewrite E.
  fold (normalized mol). fold (normalized (normalized mol)).
  rewrite normalized_idem. reflexivity.
Qed.

Lemma case_and_blanks_ignored_witness :
  contains "_" "  CO_J1__J0 " = true /\
  molecule_and_transition "co_j1__j0" = molecule_and_transition "  CO_J1__J0 " /\
  is_line_of "co_j1__j0" "co" = is_line_of "  CO_J1__J0 " " Co ".
Proof.
  split; [reflexivity|].
  apply (case_and_blanks_ignored "  CO_J1__J0 " " Co "). reflexivity.
Defined.

(** ** What [filter_molecules] returns *)

Lemma alias_normalized x : normalized (alias (normalized x)) = alias (normalized x).
Proof.
  unfold alias, _molecules_aliases. cbn [list_to_map foldr fst snd].
  destruct (_ !! normalized x) as [v|] eqn:E; cbn [default];
    [|apply normalized_idem].
  repeat (apply lookup_insert_Some in E as [[_ <-]|[_ E]]; [reflexivity|]).
  rewrite lookup_empty in E. discriminate.
Qed.

Lemma keeps_one w name :
  normalized w = w ->
  keeps [w] name = true <-> is_line_of name w = ret true.
Proof.
  intros Hw. unfold keeps, is_line_of. fold (normalized w). rewrite Hw.
  destruct (molecule name) as [ws [m|e]] eqn:Hm.
  - destruct (molecule_Return _ _ _ Hm) as [-> _].
    change ([], Return m) with (ret m). rewrite bind_ret_l.
    cbn [existsb]. rewrite orb_false_r. unfold ret. split; congruence.
  - split; [discriminate|]. simpl. discriminate.
Qed.

(** X11.  [filter_molecules] with a list [mols] that is not the list
    [names], on names that all have an underscore: the call returns a
    new list, which holds, in their order and as often as they occur,
    the names whose molecule is one of the entries of [mols] once
    stripped, lowered and replaced by what they are an alias of; the
    list [names] is left as it was. *)
Theorem filter_molecules_list names m xs (σ : store) ns :
  σ !! m = Some xs -> m <> names -> σ !! names = Some ns ->
  Forall (fun name => contains "_" name = true) ns ->
  exists σ' r,
    filter_molecules names (MolsList m) σ = (σ', ret r) /\
    σ !! r = None /\
    σ' !! r = Some (List.filter (keeps (map alias (normalized <$> xs))) ns) /\
    σ' !! names = Some ns.
Proof.
  intros Hm Hne Hn Hall.
  pose proof (filter_molecules_select names m xs σ ns Hm Hne Hn Hall) as E.
  cbv zeta in E. eexists _, _. split; [exact E|].
  set (σ2 := <[m := normalized <$> xs]> σ) in *.
  assert (Hr : σ2 !! fresh (dom σ2) = None)
    by (apply not_elem_of_dom, is_fresh).
  assert (Hn2 : σ2 !! names = Some ns)
    by (unfold σ2; rewrite lookup_insert_ne by assumption; exact Hn).
  split; [|split].
  - destruct (σ !! fresh (dom σ2)) as [ys|] eqn:Hy; [|reflexivity].
    destruct (decide (m = fresh (dom σ2))) as [Hd|Hd].
    + rewrite <- Hd in Hr. unfold σ2 in Hr.
      rewrite lookup_insert_eq in Hr. discriminate.
    + change (<[m := normalized <$> xs]> σ !! fresh (dom σ2) = None) in Hr.
      rewrite lookup_insert_ne in Hr by assumption. congruence.
  - apply lookup_insert_eq.
  - rewrite lookup_insert_ne; [exact Hn2|]. eapply fresh_old, Hn2.
Qed.

Lemma filter_molecules_list_witness :
  exists σ' r,
    filter_molecules 1 (MolsList 2)
      (<[2%positive := [" 13CO "; "cs"]]>
         (one_list ["co_j1__j0"; "13c_o_j1__j0"; "CS_j2__j1"; "13co_j1__j0"]))
    = (σ', ret r) /\
    σ' !! r = Some ["13c_o_j1__j0"; "CS_j2__j1"].
Proof.
  destruct (filter_molecules_list 1 2 [" 13CO "; "cs"]
              (<[2%positive := [" 13CO "; "cs"]]>
                 (one_list ["co_j1__j0"; "13c_o_j1__j0"; "CS_j2__j1";
                            "13co_j1__j0"]))
              ["co_j1__j0"; "13c_o_j1__j0"; "CS_j2__j1"; "13co_j1__j0"])
    as (σ' & r & E & _ & Hr & _).
  - reflexivity.
  - discriminate.
  - reflexivity.
  - repeat constructor.
  - exists σ', r. split; [exact E|exact Hr].
Defined.

(** X12.  [filter_molecules] with a string [mols], on names that all
    have an underscore: the call returns a new list whose names are
    those of [names] for which [is_line_of] answers [True] when asked
    about the molecule that [mols] stands for, once stripped, lowered
    and replaced by what it is an alias of.  A name that spells the
    alias itself is therefore not kept. *)
Theorem filter_molecules_str names s (σ : store) ns :
  σ !! names = Some ns ->
  Forall (fun name => contains "_" name = true) ns ->
  exists σ' r kept,
    filter_molecules names (MolsStr s) σ = (σ', ret r) /\
    σ !! r = None /\ σ' !! r = Some kept /\
    forall name,
      In name kept <->
      In name ns /\ is_line_of name (alias (normalized s)) = ret true.
Proof.
  intros Hn Hall. set (m := fresh (dom σ)).
  assert (Hm : σ !! m = None) by (apply not_elem_of_dom, is_fresh).
  assert (Hne : m <> names) by (eapply fresh_old, Hn).
  pose proof (filter_molecules_select names m [s] (<[m := [s]]> σ) ns
                (lookup_insert_eq _ _ _) Hne
                ltac:(rewrite lookup_insert_ne by assumption; exact Hn) Hall)
    as E.
  cbv zeta in E.
  change (filter_molecules names (MolsList m) (<[m := [s]]> σ))
    with (filter_molecules names (MolsStr s) σ) in E.
  set (σ2 := <[m := normalized <$> [s]]> (<[m := [s]]> σ)) in *.
  eexists _, _, _. split; [exact E|].
  assert (Hr : σ2 !! fresh (dom σ2) = None)
    by (apply not_elem_of_dom, is_fresh).
  split; [|split; [apply lookup_insert_eq|]].
  - destruct (σ !! fresh (dom σ2)) as [ys|] eqn:Hy; [|reflexivity].
    assert (m <> fresh (dom σ2)) as Hd by congruence.
    change (<[m := normalized <$> [s]]> (<[m := [s]]> σ) !! fresh (dom σ2)
            = None) in Hr.
    rewrite !lookup_insert_ne in Hr by assumption. congruence.
  - intros name. rewrite filter_In. cbn [fmap list_fmap map].
    rewrite (keeps_one _ name (alias_normalized s)). reflexivity.
Qed.

Lemma filter_molecules_str_witness :
  exists σ' r kept,
    filter_molecules 1 (MolsStr "13CO")
      (one_list ["co_j1__j0"; "13c_o_j1__j0"; "13co_j1__j0"])
    = (σ', ret r) /\
    σ' !! r = Some kept /\
    (In "13c_o_j1__j0" kept <->
     In "13c_o_j1__j0" ["co_j1__j0"; "13c_o_j1__j0"; "13co_j1__j0"] /\
     is_line_of "13c_o_j1__j0" "13c_o" = ret true).
Proof.
  destruct (filter_molecules_str 1 "13CO"
              (one_list ["co_j1__j0"; "13c_o_j1__j0"; "13co_j1__j0"])
              ["co_j1__j0"; "13c_o_j1__j0"; "13co_j1__j0"])
    as (σ' & r & kept & E & _ & Hr & Hk).
  - reflexivity.
  - repeat constructor.
  - exists σ', r, kept. split; [exact E|]. split; [exact Hr|].
    exact (Hk "13c_o_j1__j0").
Defined.

(** ** Levels that make [_transition] raise *)

(** X13.  On two levels of the fraction form, [_transition] raises
    [ZeroDivisionError] as soon as one of the two denominators is
    zero. *)
Theorem zero_denominator_raises name a b a' b' :
  numeral a -> numeral b -> numeral a' -> numeral b' ->
  dec_value b = 0%Z \/ dec_value b' = 0%Z ->
  _transition name (fraction a b) (fraction a' b') = raise ZeroDivisionError.
Proof.
  intros Ha Hb Ha' Hb' Hz.
  rewrite transition_fraction_levels by assumption.
  destruct (Z.eq_dec (dec_value b) 0%Z) as [->|Hnz]; [reflexivity|].
  destruct Hz as [Hz | ->]; [contradiction|].
  rewrite level_latex_nonzero, bind_ret_l by assumption. reflexivity.
Qed.

Lemma zero_denominator_raises_witness :
  _transition "j" "3/0" "1/2" = raise ZeroDivisionError /\
  _transition "j" "3/2" "1/00" = raise ZeroDivisionError.
Proof.
  split.
  - apply (zero_denominator_raises "j" "3" "0" "1" "2");
      try (split; [reflexivity|discriminate]). left. reflexivity.
  - apply (zero_denominator_raises "j" "3" "2" "1" "00");
      try (split; [reflexivity|discriminate]). right. reflexivity.
Defined.

Lemma unpack2_length l :
  length l <> 2 -> unpack2 l = raise (UnpackValueError (length l)).
Proof. destruct l as [|x [|y [|z l]]]; simpl; intros H; congruence. Qed.

(** X14.  When the high level has one of the two numeric forms, the low
    level is split at the same sign, and must have it exactly once:
    otherwise the unpacking of the parts raises [ValueError], whatever
    the low level is besides. *)
Theorem mixed_forms_raise name a b low :
  all_digits a = true -> all_digits b = true ->
  (str_count low "/" <> 1 ->
   _transition name (fraction a b) low
   = raise (UnpackValueError (S (str_count low "/")))) /\
  (str_count low "." <> 1 ->
   _transition name (decimal a b) low
   = raise (UnpackValueError (S (str_count low ".")))).
Proof.
  intros Ha Hb. split; intros Hc; unfold _transition, numeric_levels.
  - unfold fraction at 1. rewrite (numeric_match "/" a b) by auto.
    assert (contains "/" (fraction a b) = true) as ->.
    { unfold fraction. rewrite contains_append. simpl. apply orb_true_r. }
    unfold fraction_levels, fraction.
    rewrite (str_split_two "/" a b) by (apply numeral_no_slash; assumption).
    unfold unpack2 at 1. rewrite bind_ret_l.
    rewrite unpack2_length by (rewrite str_split_length; lia).
    rewrite str_split_length. reflexivity.
  - unfold decimal at 1. rewrite (numeric_match "." a b) by auto.
    assert (contains "/" (decimal a b) = false) as ->.
    { unfold decimal. rewrite contains_append. simpl.
      rewrite !numeral_no_slash by assumption. reflexivity. }
    unfold decimal_levels, decimal.
    rewrite (str_split_two "." a b) by (apply numeral_no_dot; assumption).
    unfold unpack2 at 1. rewrite bind_ret_l.
    rewrite unpack2_length by (rewrite str_split_length; lia).
    rewrite str_split_length. reflexivity.
Qed.

Lemma mixed_forms_raise_witness :
  _transition "j" "3/2" "1" = raise (UnpackValueError 1) /\
  _transition "j" "1.5" "1/2/3" = raise (UnpackValueError 1).
Proof.
  split.
  - apply (proj1 (mixed_forms_raise "j" "3" "2" "1" eq_refl eq_refl)).
    discriminate.
  - apply (proj2 (mixed_forms_raise "j" "1" "5" "1/2/3" eq_refl eq_refl)).
    discriminate.
Defined.

(** ** [line_to_latex] *)

Lemma replace_go_cons old new c s :
  replace_go old new 0 (String c s) =
    if startswith (String c s) old
    then new +:+ replace_go old new (String.length old - 1) s
    else String c (replace_go old new 0 s).
Proof. reflexivity. Qed.

(** Nothing is replaced where [old] does not occur. *)
Lemma replace_absent old new s :
  occurs old s = false -> str_replace s old new = s.
Proof.
  unfold str_replace. induction s as [|c s IH]; [reflexivity|].
  rewrite occurs_cons. intros [Hp Hs]%orb_false_iff.
  rewrite replace_go_cons, Hp, IH by assumption. reflexivity.
Qed.

Lemma startswith_2_append c a x y :
  startswith (String c (a +:+ String x y)) (String x (String x ""))
  = startswith (String c (a +:+ String x "")) (String x (String x "")).
Proof.
  destruct a as [|d a].
  - change ("" +:+ String x y) with (String x y).
    change ("" +:+ String x "") with (String x "").
    rewrite !startswith_cons, !startswith_nil. reflexivity.
  - change (String d a +:+ String x y) with (String d (a +:+ String x y)).
    change (String d a +:+ String x "") with (String d (a +:+ String x "")).
    rewrite !startswith_cons, !startswith_nil. reflexivity.
Qed.

(** The first double blank, after a string that has none and does not
    end with a blank. *)
Lemma replace_first a b :
  occurs "  " (a +:+ " ") = false ->
  str_replace (a +:+ "  " +:+ b) "  " " " = a +:+ " " +:+ str_replace b "  " " ".
Proof.
  unfold str_replace. induction a as [|c a IH]; intros H.
  - change ("" +:+ "  " +:+ b) with (String " " (String " " b)).
    rewrite replace_go_cons, !startswith_cons, startswith_nil.
    reflexivity.
  - change (String c a +:+ " ") with (String c (a +:+ " ")) in H.
    rewrite occurs_cons in H. apply orb_false_iff in H as [Hp H].
    change (String c a +:+ "  " +:+ b)
      with (String c (a +:+ String " " (String " " b))).
    rewrite replace_go_cons, (startswith_2_append c a " " (String " " b)).
    change (a +:+ String " " "") with (a +:+ " "). rewrite Hp.
    change (a +:+ String " " (String " " b)) with (a +:+ "  " +:+ b).
    rewrite (IH H). reflexivity.
Qed.

Lemma occurs_free u y :
  contains " " u = false -> occurs "  " (u +:+ y) = occurs "  " y.
Proof.
  induction u as [|c u IH]; [reflexivity|]. cbn [contains].
  intros [Hc Hu]%orb_false_iff.
  change (String c u +:+ y) with (String c (u +:+ y)).
  rewrite occurs_cons, startswith_cons, Hc, IH by assumption. reflexivity.
Qed.

Lemma occurs_blank y :
  occurs "  " (" " +:+ y) = startswith y " " || occurs "  " y.
Proof.
  change (" " +:+ y) with (String " " y).
  rewrite occurs_cons, startswith_cons. reflexivity.
Qed.

Lemma piece_head u y : piece u -> startswith (u +:+ y) " " = false.
Proof.
  intros [Hne Hu]. destruct u as [|c u]; [congruence|].
  cbn [contains] in Hu. apply orb_false_iff in Hu as [Hc _].
  change (String c u +:+ y) with (String c (u +:+ y)).
  rewrite startswith_cons, Hc. reflexivity.
Qed.

Lemma concat_head sep u (l : list string) :
  exists rest, String.concat sep (u :: l) = u +:+ rest.
Proof.
  destruct l as [|u' l]; simpl.
  - exists "". rewrite append_nil_r. reflexivity.
  - eauto.
Qed.

(** Pieces joined by a separator that ends with its only blank bring no
    double blank. *)
Lemma occurs_joined u l :
  contains " " u = false -> Forall piece l ->
  forall y, occurs "  " (String.concat (u +:+ " ") l +:+ y) = occurs "  " y.
Proof.
  intros Hu. induction 1 as [|x l Hx Hl IH]; intros y; [reflexivity|].
  destruct l as [|x' l].
  - simpl String.concat. apply occurs_free, Hx.
  - rewrite concat_cons_nonempty by discriminate.
    rewrite !append_assoc, (occurs_free x) by apply Hx.
    rewrite (occurs_free u), occurs_blank, IH by assumption.
    destruct (concat_head (u +:+ " ") x' l) as [rest ->].
    apply Forall_cons_1 in Hl as [Hx' _].
    rewrite append_assoc, (piece_head x') by assumption. reflexivity.
Qed.

Lemma occurs_spaced l y :
  Forall piece l -> occurs "  " (String.concat " " l +:+ y) = occurs "  " y.
Proof. intros H. exact (occurs_joined "" l eq_refl H y). Qed.

Lemma spaced_head sep x l y :
  piece x -> startswith (String.concat sep (x :: l) +:+ y) " " = false.
Proof.
  intros Hx. destruct (concat_head sep x l) as [rest ->].
  rewrite append_assoc. apply piece_head, Hx.
Qed.

Lemma joined_head u l y :
  Forall piece l -> startswith y " " = false ->
  startswith (String.concat u l +:+ y) " " = false.
Proof.
  intros [|x l' Hx _] Hy; [exact Hy|].
  destruct (concat_head u x l') as [rest ->].
  rewrite append_assoc. apply piece_head, Hx.
Qed.

(** The part of the layout between the parentheses. *)
Lemma layout_tail highs lows :
  Forall piece highs -> Forall piece lows ->
  occurs "  " ("(" +:+ String.concat ", " highs +:+ " $\to$ "
               +:+ String.concat ", " lows +:+ ")") = false.
Proof.
  intros Hh Hl. rewrite (occurs_free "(") by reflexivity.
  change ", " with ("," +:+ " ").
  rewrite (occurs_joined "," highs eq_refl Hh).
  change (" $\to$ " +:+ String.concat ("," +:+ " ") lows +:+ ")")
    with (" " +:+ "$\to$" +:+ " " +:+ String.concat ("," +:+ " ") lows +:+ ")").
  rewrite occurs_blank, (occurs_free "$\to$") by reflexivity.
  rewrite occurs_blank, (occurs_joined "," lows eq_refl Hl).
  rewrite (joined_head _ lows ")" Hl eq_refl). reflexivity.
Qed.

Lemma uint_plain d : contains " " (NilEmpty.string_of_uint d) = false.
Proof. induction d; simpl; assumption || reflexivity. Qed.

Lemma py_str_plain z : contains " " (py_str z) = false.
Proof.
  unfold py_str. destruct (Z.to_int z) as [d|d]; simpl;
    apply uint_plain.
Qed.

Lemma digits_blank d : all_digits d = true -> contains " " d = false.
Proof. apply all_digits_contains. reflexivity. Qed.

Lemma fraction_latex_plain n d : contains " " (fraction_latex n d) = false.
Proof.
  unfold fraction_latex. destruct (_ =? _)%Z; [apply py_str_plain|].
  rewrite !contains_append, !py_str_plain. reflexivity.
Qed.

Lemma decimal_latex_plain a b : contains " " (decimal_latex a b) = false.
Proof.
  unfold decimal_latex.
  destruct (String.eqb b "0"); [apply py_str_plain|].
  destruct (String.eqb b "5"); [|apply py_str_plain].
  rewrite !contains_append, !py_str_plain. reflexivity.
Qed.

Lemma name_latex_plain n :
  In n energy_names -> contains " " (name_latex n) = false.
Proof.
  intros H. repeat (destruct H as [<-|H]; [reflexivity|]). destruct H.
Qed.

Lemma constant_or_pair_pieces nl h l :
  contains " " nl = false -> contains " " h = false ->
  contains " " l = false -> pieces (constant_or_pair nl h l).
Proof.
  intros Hn Hh Hl. unfold constant_or_pair, pieces.
  destruct (String.eqb h l); cbn [fst];
    repeat split; try discriminate; unfold fmt_level;
    rewrite !contains_append, Hn, ?Hh, ?Hl; reflexivity.
Qed.

Lemma el_suffix_blank c : In c el_suffixes -> contains " " c = false.
Proof. intros H. repeat (destruct H as [<-|H]; [reflexivity|]). destruct H. Qed.

Lemma classification_pieces b c :
  readable b -> label_classification b = Some c -> pieces c.
Proof.
  destruct b as [n dh dl|n dh dl|n dh fh dl fl|dh ch dl cl|ph dh pl dl];
    cbn [readable label_classification]; intros Hr [= <-].
  - destruct Hr as (Hn & Hdh & Hdl).
    apply constant_or_pair_pieces;
      auto using name_latex_plain, digits_blank.
  - destruct Hr as (Hn & _).
    apply constant_or_pair_pieces;
      auto using name_latex_plain, fraction_latex_plain.
  - destruct Hr as (Hn & _).
    apply constant_or_pair_pieces;
      auto using name_latex_plain, decimal_latex_plain.
  - destruct Hr as (Hdh & Hch & Hdl & Hcl). unfold _eltransition, pieces.
    destruct (String.eqb _ _); cbn [fst]; repeat split; try discriminate;
      unfold fmt_el;
      rewrite !contains_append, ?(digits_blank dh), ?(digits_blank dl),
        ?(el_suffix_blank ch), ?(el_suffix_blank cl) by assumption;
      reflexivity.
Qed.

Lemma classifications_pieces bs :
  Forall readable bs ->
  Forall piece (constants (omap label_classification bs)) /\
  Forall piece (high_sides (omap label_classification bs)) /\
  Forall piece (low_sides (omap label_classification bs)).
Proof.
  induction 1 as [|b bs Hb _ (IHc & IHh & IHl)]; [repeat split; constructor|].
  cbn [omap list_omap].
  destruct (label_classification b) as [c|] eqn:Hc; [|auto].
  pose proof (classification_pieces b c Hb Hc) as Hp.
  unfold constants, high_sides, low_sides, pieces in *. cbn [omap list_omap].
  destruct c as [[s|h l] f]; cbn [fst] in *.
  - repeat split; try assumption. constructor; assumption.
  - destruct Hp as [Hh Hl]. repeat split; try assumption;
      constructor; assumption.
Qed.

Lemma table_plain k v :
  In (k, v) _molecules_to_latex -> contains " " v = false.
Proof.
  intros H.
  assert (forallb (fun kv => negb (contains " " kv.2)) _molecules_to_latex
          = true) as Hall by reflexivity.
  rewrite forallb_forall in Hall. apply Hall in H. cbn [snd] in H.
  apply negb_true_iff, H.
Qed.

(** What the replacement of the double blanks leaves of a molecule, a
    blank and a rendering. *)
Lemma single_blanks v bs :
  contains " " v = false -> Forall well_written bs ->
  str_replace
    (fmt_el v +:+ " " +:+ rendering (omap label_classification bs)) "  " " "
  = fmt_el v +:+ " " +:+ lstrip (rendering (omap label_classification bs)).
Proof.
  intros Hv Hall.
  assert (Hp : contains " " (fmt_el v) = false)
    by (unfold fmt_el; rewrite !contains_append, Hv; reflexivity).
  pose proof (well_written_readable _ Hall) as Hr.
  destruct (classifications_pieces bs Hr) as (Hc & Hh & Hl).
  pose proof (classify_all_labels bs Hall) as Hk.
  apply classify_all_well_formed, constants_wrapped in Hk.
  pose proof (layout_tail _ _ Hh Hl) as Ht.
  destruct (omap label_classification bs) as [|c cs] eqn:E.
  - cbn [rendering lstrip]. apply replace_absent.
    rewrite (occurs_free _ _ Hp). reflexivity.
  - cbn [rendering]. unfold layout.
    set (tail := String.concat ", " (high_sides (c :: cs)) +:+ " $\to$ "
                 +:+ String.concat ", " (low_sides (c :: cs)) +:+ ")") in *.
    destruct (constants (c :: cs)) as [|k ks] eqn:Ec.
    + change (fmt_el v +:+ " " +:+ String.concat " " [] +:+ " (" +:+ tail)
        with (fmt_el v +:+ "  " +:+ "(" +:+ tail).
      rewrite replace_first
        by (rewrite (occurs_free _ _ Hp); reflexivity).
      rewrite replace_absent by exact Ht. reflexivity.
    + apply Forall_cons_1 in Hk as [[body ->] _].
      rewrite replace_absent.
      * destruct (concat_head " " ("$" +:+ body +:+ "$") ks) as [rest ->].
        reflexivity.
      * rewrite (occurs_free _ _ Hp), occurs_blank.
        rewrite spaced_head by (apply Forall_cons_1 in Hc as [Hc _]; exact Hc).
        rewrite (occurs_spaced _ _ Hc).
        change (" (" +:+ tail) with (" " +:+ "(" +:+ tail).
        rewrite occurs_blank, Ht. reflexivity.
Qed.

Lemma label_head_key x y :
  In x (energy_names ++ "el" :: markers) ->
  startswith (x +:+ y) "1" = false /\ startswith (x +:+ y) "c" = false.
Proof.
  intros H. repeat (destruct H as [<-|H]; [split; reflexivity|]).
  destruct H.
Qed.

Lemma descriptor_head bs :
  Forall readable bs ->
  startswith (descriptor bs) "1" = false /\
  startswith (descriptor bs) "c" = false.
Proof.
  intros [|b bs' Hb _]; [split; reflexivity|].
  unfold descriptor. rewrite upper_half_cons.
  destruct (token_split b Hb) as (xu & yu & _ & _ & Hu & _ & -> & _).
  rewrite !append_assoc. apply label_head_key, Hu.
Qed.

(** No key goes on after another key and an underscore, unless with
    [1] or [c]. *)
Lemma longer_key k m D :
  In k molecule_keys -> In m molecule_keys ->
  startswith (k +:+ "_" +:+ D) m = true ->
  String.length m <= String.length k
  \/ startswith D "1" = true \/ startswith D "c" = true.
Proof.
  intros Hk Hm. unfold molecule_keys in Hk, Hm. cbn [map fst _molecules_to_latex] in Hk, Hm.
  repeat (destruct Hk as [<-|Hk];
    [repeat (destruct Hm as [<-|Hm];
       [first [left; cbn; lia
              |intros H; discriminate H
              |intros H; right; apply startswith_inv in H as [r H];
               cbn in H; injection H as ->; auto]|]);
     destruct Hm|]).
  destruct Hk.
Qed.

Lemma same_prefix a : forall b r r',
  a +:+ r = b +:+ r' -> String.length a = String.length b -> a = b.
Proof.
  induction a as [|c a IH]; intros [|d b] r r' H Hl; try discriminate;
    [reflexivity|].
  simpl in H, Hl. injection H as -> H. f_equal. eapply IH; eauto.
Qed.

(** The parts of a line name whose stripped, lower-case form is a key,
    an underscore and a descriptor. *)
Lemma key_line_parts line k bs :
  In k molecule_keys -> Forall readable bs ->
  normal_line line = k +:+ "_" +:+ descriptor bs ->
  molecule_and_transition line = ret [k; descriptor bs].
Proof.
  intros Hk Hall Hn.
  assert (Hus : contains "_" line = true).
  { rewrite <- contains_us_normal, Hn, !contains_append. simpl.
    apply orb_true_r. }
  assert (Hp : key_prefix (normal_line line) k)
    by (split; [exact Hk|rewrite Hn; apply startswith_append]).
  destruct (molecule_and_transition_cases line Hus)
    as (m & t & E & [((Hm & Hs) & Hmax & ->)|(Hno & _)]);
    [|destruct (Hno k Hp)].
  rewrite E. rewrite Hn in Hs |- *.
  destruct (longer_key k m (descriptor bs) Hk Hm Hs) as [Hle|Hd].
  - pose proof (Hmax k Hp) as Hge.
    destruct (startswith_inv _ _ Hs) as [r Hr].
    assert (m = k) as -> by (eapply same_prefix; [symmetry; exact Hr|lia]).
    rewrite slice_from_after. reflexivity.
  - destruct (descriptor_head bs Hall) as [H1 H2].
    destruct Hd as [Hd|Hd]; congruence.
Qed.

(** X15.  [line_to_latex] on a line name whose stripped, lower-case
    form is a key [k] of [_molecules_to_latex], an underscore and a
    descriptor built from well written labels: the call ends after one
    turn of the loop per label, calls [warn] as [transition_to_latex]
    does on the descriptor (of these calls the default filters write
    each text once for each line, unless the registry has it), and
    returns the typeset molecule, one blank and the rendering of the
    descriptor.
    The replacement of the double blanks takes the blank that begins
    the rendering when no label is a constant, and nothing else; when
    all the labels are markers the result ends with the blank. *)
Theorem line_to_latex_rendering line k bs fuel :
  In k molecule_keys ->
  normal_line line = k +:+ "_" +:+ descriptor bs ->
  Forall well_written bs ->
  line_to_latex (fuel + length bs) line
  = Some (concat (map label_warnings bs),
          Return (molecule_to_latex k +:+ " "
                  +:+ lstrip (rendering (omap label_classification bs)))) /\
  forall registry,
    List.NoDup (written registry (concat (map label_warnings bs))) /\
    forall w,
      In w (written registry (concat (map label_warnings bs))) <->
      In w (concat (map label_warnings bs)) /\ ~ In w registry.
Proof.
  intros Hm Hn Hall. split; [|intros registry; apply written_once].
  unfold line_to_latex.
  rewrite (key_line_parts line k bs Hm (well_written_readable _ Hall) Hn).
  rewrite bind_ret_l. cbn [unpack2]. unfold ret at 1. cbv iota beta.
  rewrite (descriptor_rows bs fuel (well_written_readable _ Hall)).
  rewrite (sort_labels bs Hall).
  destruct (dict_get_key _molecules_to_latex k Hm) as (v & Hv & Hin).
  unfold molecule_to_latex. rewrite Hv.
  rewrite bind_return. cbn [fst snd]. rewrite bind_return. cbn [fst snd ret].
  rewrite (single_blanks v bs (table_plain _ _ Hin) Hall).
  cbn [app]. rewrite app_nil_r. reflexivity.
Qed.

Lemma line_to_latex_rendering_witness :
  line_to_latex 2 " C_18O_v0_j3_2__v0_j1_2"
  = Some ([], Return "$C^{18}O$ $\nu=0$ ($J=\frac{3}{2}$ $\to$ $J=\frac{1}{2}$)") /\
  line_to_latex 1 "13C_O_j1__j0"
  = Some ([], Return "$^{13}CO$ ($J=1$ $\to$ $J=0$)") /\
  line_to_latex 1 "co_pp_fif1__pm_fif2" = Some ([], Return "$CO$ ") /\
  line_to_latex 2 "CO_j1d7_v1d7__j1d5_v1d5"
  = Some ([(436, "x.7 floats has not been implemented. Ignoring the floating part.");
           (436, "x.7 floats has not been implemented. Ignoring the floating part.")],
          Return "$CO$ ($J=1$, $\nu=1$ $\to$ $J=\frac{3}{2}$, $\nu=\frac{3}{2}$)") /\
  written []
    [(436, "x.7 floats has not been implemented. Ignoring the floating part.");
     (436, "x.7 floats has not been implemented. Ignoring the floating part.")]
  = [(436, "x.7 floats has not been implemented. Ignoring the floating part.")].
Proof.
  assert (H1 : Forall well_written [Integer "v" "0" "0"; Half "j" "3" "1"]).
  { repeat (constructor 2; [unfold well_written, readable; simpl;
                            intuition (auto 10 || discriminate)|]).
    constructor 1. }
  assert (H2 : Forall well_written [Integer "j" "1" "0"]).
  { repeat (constructor 2; [unfold well_written, readable; simpl;
                            intuition (auto 10 || discriminate)|]).
    constructor 1. }
  assert (H3 : Forall well_written [Marker "pp" "1" "pm" "2"]).
  { repeat (constructor 2; [unfold well_written, readable; simpl;
                            intuition (auto 10 || discriminate)|]).
    constructor 1. }
  assert (H4 : Forall well_written
                 [Decimal "j" "1" "7" "1" "5"; Decimal "v" "1" "7" "1" "5"]).
  { repeat (constructor 2; [unfold well_written, readable; simpl;
                            intuition (auto 10 || discriminate)|]).
    constructor 1. }
  split; [|split; [|split; [|split; [|reflexivity]]]].
  - refine (proj1 (line_to_latex_rendering " C_18O_v0_j3_2__v0_j1_2" "c_18o"
                     [Integer "v" "0" "0"; Half "j" "3" "1"] 0
                     _ eq_refl H1)). simpl. auto 40.
  - refine (proj1 (line_to_latex_rendering "13C_O_j1__j0" "13c_o"
                     [Integer "j" "1" "0"] 0
                     _ eq_refl H2)). simpl. auto 40.
  - refine (proj1 (line_to_latex_rendering "co_pp_fif1__pm_fif2" "co"
                     [Marker "pp" "1" "pm" "2"] 0
                     _ eq_refl H3)). simpl. auto 40.
  - refine (proj1 (line_to_latex_rendering "CO_j1d7_v1d7__j1d5_v1d5" "co"
                     [Decimal "j" "1" "7" "1" "5"; Decimal "v" "1" "7" "1" "5"]
                     0 _ eq_refl H4)). simpl. auto 40.
Defined.

(** ** Further properties of [transition_to_latex] *)

(** X1.  A descriptor that counts exactly one separator splits into
    exactly two halves, and is these two halves around the separator:
    the unpacking of [transition.split("__")] into [high] and [low]
    cannot fail after the count test. *)
Theorem descriptor_split_join t :
  str_count t "__" = 1 ->
  exists h l, str_split t "__" = [h; l] /\ t = h +:+ "__" +:+ l.
Proof.
  intros Hc. pose proof (str_split_length t "__") as Hl.
  pose proof (str_split_join t "__" ltac:(discriminate)) as Hj.
  rewrite Hc in Hl.
  destruct (str_split t "__") as [|h [|l [|x xs]]]; try discriminate.
  exists h, l. split; [reflexivity|]. symmetry. exact Hj.
Qed.

Lemma descriptor_split_join_witness :
  str_count "a___b" "__" = 1 /\
  exists h l, str_split "a___b" "__" = [h; l] /\ "a___b" = h +:+ "__" +:+ l.
Proof.
  split; [reflexivity|]. apply (descriptor_split_join "a___b"). reflexivity.
Defined.

(** X2.  When the loop ends without raising, it has written no warning,
    one of the two halves is empty, and the three accumulators have the
    same length: the length test of [_sort_transitions] cannot fail on
    what [transition_to_latex] passes to it. *)
Theorem loop_exit_state fuel h l w st :
  while_loop fuel (start h l) = Some (w, Return st) ->
  w = [] /\ (high st = "" \/ low st = "") /\
  length (high_lvls st) = length (names st) /\
  length (low_lvls st) = length (names st).
Proof.
  intros H. destruct (while_loop_keeps _ _ _ _ H eq_refl eq_refl)
    as (-> & Hc & Hh & Hl).
  repeat split; try assumption.
  unfold loop_cond, is_empty in Hc. apply andb_false_iff in Hc.
  destruct Hc as [Hc|Hc]; apply negb_false_iff, String.eqb_eq in Hc; auto.
Qed.

Lemma loop_exit_state_witness :
  while_loop 2 (start "v0_j1" "v0")
  = Some ([], Return (State "j1" "" ["v"] ["0"] ["0"])) /\
  length ["0"] = length ["v"].
Proof.
  assert (H : while_loop 2 (start "v0_j1" "v0")
              = Some ([], Return (State "j1" "" ["v"] ["0"] ["0"])))
    by reflexivity.
  split; [exact H|].
  exact (proj1 (proj2 (proj2 (loop_exit_state _ _ _ _ _ H)))).
Defined.

(** X3.  On every descriptor, [transition_to_latex] either ends (returns
    or raises) within as many turns of its loop as the descriptor has
    characters, or never ends: each turn that changes the state shortens
    both halves, and a turn that changes nothing is repeated for ever. *)
Theorem transition_to_latex_ends_or_never t :
  (exists m, forall k, transition_to_latex (k + String.length t) t = Some m) \/
  (forall fuel, transition_to_latex fuel t = None).
Proof.
  destruct (Nat.eq_dec (str_count t "__") 1) as [Hc|Hc].
  - destruct (one_separator t Hc) as (h & l & Hh & Ht).
    destruct (loop_ends_or_never_bounded (String.length t) (start h l))
      as [[m Hm]|Hd].
    + rewrite Ht, length_append. cbn [start high]. lia.
    + left. eexists. intros k.
      rewrite (transition_to_latex_halves _ _ _ _ Hh), Hm. reflexivity.
    + right. intros fuel.
      rewrite (transition_to_latex_halves _ _ _ _ Hh), Hd. reflexivity.
  - left. eexists. intros k. unfold transition_to_latex.
    apply Nat.eqb_neq in Hc. rewrite Hc. reflexivity.
Qed.

(** X4.  When, after [n] turns, the two halves begin with two different
    names of [(j|v|n|f|ka|kc)], whatever follows them, the call raises
    [ValueError]; its message is the literal text of the source, with
    [{transition}] not replaced (the string is no f-string). *)
Theorem name_mismatch_raises t h l n st nh nl xh xl :
  halves t h l -> steps n (start h l) st ->
  In nh energy_names -> In nl energy_names -> nh <> nl ->
  high st = nh +:+ xh -> low st = nl +:+ xl ->
  forall fuel,
    transition_to_latex (fuel + S n) t = Some (raise (ValueError order_msg)).
Proof.
  intros Ht Hs Hnh Hnl Hne Hh Hl fuel.
  rewrite (transition_to_latex_halves _ _ _ _ Ht).
  assert (loop_cond st = true) as Hc.
  { apply loop_cond_nonempty; rewrite ?Hh, ?Hl; apply name_head; assumption. }
  rewrite (steps_raise _ _ _ _ Hs Hc
             (name_mismatch_turn _ _ _ _ _ Hnh Hnl Hne Hh Hl)).
  reflexivity.
Qed.

Lemma name_mismatch_raises_witness :
  halves "j1__v0" "j1" "v0" /\
  transition_to_latex 1 "j1__v0"
  = Some ([], Raise (ValueError
      "{transition} is not a valid transition because the energy level are not in the same order in the description of the high and low levels")).
Proof.
  assert (Hh : halves "j1__v0" "j1" "v0") by (split; reflexivity).
  split; [exact Hh|].
  refine (name_mismatch_raises "j1__v0" "j1" "v0" 0 (start "j1" "v0")
            "j" "v" "1" "0" Hh (steps_done _) _ _ _ eq_refl eq_refl 0);
    try discriminate; simpl; auto.
Defined.
